(** * natedown: the Dropbox-to-HTML publisher of [app.py]

    A shallow embedding of [process_user], [validate_request] and [webhook]
    of [src/app.py], with the properties of the incremental sync engine and
    of the webhook gateway.

    Conventions.  A Python [str] is modelled by the [string] of its UTF-8
    bytes and [bytes] by the [string] of its bytes, so that [str.encode()]
    and [bytes.decode()] of valid text are the identity; [endswith('.md')],
    [path[:-3]] and [split('\n')] act alike on both views.  The two Redis
    hashes are finite maps.  The Dropbox SDK, the Markdown renderer and
    [urllib.parse.quote] are collaborators that [app.py] only calls: they
    are the fields of a record the engine is parameterised by. *)

From Stdlib Require Import ZArith List String Ascii Lia.
From stdpp Require Import gmap strings list.

(** ** SHA-256 and HMAC, as [hashlib.sha256] and [hmac.new] compute them *)

Module Sha256.
Local Open Scope Z_scope.

Definition mask32 : Z := 0xffffffff.
Definition add32 (x y : Z) : Z := (x + y) mod 2 ^ 32.
Definition rotr (n x : Z) : Z :=
  Z.lor (Z.shiftr x n) (Z.land (Z.shiftl x (32 - n)) mask32).
Definition Ch (x y z : Z) : Z :=
  Z.lxor (Z.land x y) (Z.land (Z.lxor x mask32) z).
Definition Maj (x y z : Z) : Z :=
  Z.lxor (Z.lxor (Z.land x y) (Z.land x z)) (Z.land y z).
Definition Sigma0 (x : Z) : Z := Z.lxor (Z.lxor (rotr 2 x) (rotr 13 x)) (rotr 22 x).
Definition Sigma1 (x : Z) : Z := Z.lxor (Z.lxor (rotr 6 x) (rotr 11 x)) (rotr 25 x).
Definition sigma0 (x : Z) : Z := Z.lxor (Z.lxor (rotr 7 x) (rotr 18 x)) (Z.shiftr x 3).
Definition sigma1 (x : Z) : Z := Z.lxor (Z.lxor (rotr 17 x) (rotr 19 x)) (Z.shiftr x 10).

(** The constants are those of FIPS 180-4: the first 32 bits of the
    fractional parts of the cube roots of the first 64 primes, and of the
    square roots of the first 8. *)
Definition is_prime (n : Z) : bool :=
  forallb (fun d => negb (n mod Z.of_nat d =? 0)) (seq 2 (Z.to_nat n - 2)).

Definition primes : list Z :=
  Eval vm_compute in List.filter is_prime (map Z.of_nat (seq 2 310)).

(** The integer cube root, bit by bit from bit [b] down. *)
Fixpoint cube_root (b : nat) (n r : Z) : Z :=
  let try_bit k := let c := r + 2 ^ Z.of_nat k in if c * c * c <=? n then c else r in
  match b with
  | O => try_bit O
  | S b' => cube_root b' n (try_bit b)
  end.

Definition K : list Z :=
  Eval vm_compute in map (fun p => cube_root 40 (p * 2 ^ 96) 0 mod 2 ^ 32) primes.

Definition H0 : list Z :=
  Eval vm_compute in map (fun p => Z.sqrt (p * 2 ^ 64) mod 2 ^ 32) (firstn 8 primes).

(** Big-endian bytes of a number, [n] of them. *)
Fixpoint be_bytes (n : nat) (x : Z) : list Z :=
  match n with
  | O => []
  | S n' => Z.shiftr x (8 * Z.of_nat n') mod 256 :: be_bytes n' x
  end.

Definition be_word (bs : list Z) : Z := fold_left (fun acc b => acc * 256 + b) bs 0.

(** The message, a 1 bit, zeros up to 56 modulo 64, and the bit length. *)
Definition pad (msg : list Z) : list Z :=
  let len := Z.of_nat (List.length msg) in
  let zeros := Z.to_nat ((55 - len) mod 64) in
  msg ++ 0x80 :: repeat 0 zeros ++ be_bytes 8 (8 * len).

Fixpoint chunks (fuel size : nat) (l : list Z) : list (list Z) :=
  match fuel, l with
  | O, _ | _, [] => []
  | S f, _ => firstn size l :: chunks f size (skipn size l)
  end.

(** The message schedule is kept newest word first: [w !! 1] is W(t-2). *)
Fixpoint schedule (n : nat) (w : list Z) : list Z :=
  match n with
  | O => w
  | S n' =>
      let g i := nth i w 0 in
      schedule n'
        (add32 (add32 (sigma1 (g 1%nat)) (g 6%nat)) (add32 (sigma0 (g 14%nat)) (g 15%nat)) :: w)
  end.

Definition round (s : list Z) (kw : Z * Z) : list Z :=
  match s with
  | [a; b; c; d; e; f; g; h] =>
      let t1 := add32 (add32 (add32 h (Sigma1 e)) (add32 (Ch e f g) (fst kw))) (snd kw) in
      let t2 := add32 (Sigma0 a) (Maj a b c) in
      [add32 t1 t2; a; b; c; add32 d t1; e; f; g]
  | _ => s
  end.

Definition compress (h : list Z) (block : list Z) : list Z :=
  let w16 := map be_word (chunks 16 4 block) in
  let w := rev (schedule 48 (rev w16)) in
  let s := fold_left round (combine K w) h in
  map (fun p => add32 (fst p) (snd p)) (combine h s).

Definition digest (msg : list Z) : list Z :=
  let p := pad msg in
  flat_map (be_bytes 4) (fold_left compress (chunks (List.length p) 64 p) H0).

(** [hmac.new(key, msg, sha256).digest()]: a key longer than the block is
    hashed first, then zero-padded to the 64-byte block. *)
Definition hmac (key msg : list Z) : list Z :=
  let k0 := if (64 <? Z.of_nat (List.length key)) then digest key else key in
  let k := k0 ++ repeat 0 (64 - List.length k0) in
  digest (map (Z.lxor 0x5c) k ++ digest (map (Z.lxor 0x36) k ++ msg)).

Definition hex_digit (d : Z) : ascii :=
  if d <? 10 then ascii_of_N (Z.to_N (48 + d)) else ascii_of_N (Z.to_N (87 + d)).

(** Lowercase hexadecimal, two digits a byte, as [hexdigest()] prints. *)
Fixpoint hex (bs : list Z) : string :=
  match bs with
  | [] => EmptyString
  | b :: r => String (hex_digit (b / 16)) (String (hex_digit (b mod 16)) (hex r))
  end.

Definition bytes_of (s : string) : list Z :=
  map (fun c => Z.of_N (N_of_ascii c)) (list_ascii_of_string s).

Definition sha256_hexdigest (msg : string) : string := hex (digest (bytes_of msg)).
Definition hmac_sha256_hexdigest (key msg : string) : string :=
  hex (hmac (bytes_of key) (bytes_of msg)).

End Sha256.

Local Open Scope string_scope.
Local Open Scope list_scope.


(** ** Python values the program handles *)

(** The exceptions that can leave the modelled functions.  [SdkError]
    stands for whatever a collaborator raises. *)
Inductive exn : Type :=
| SdkError (what : string)
| UnicodeDecodeError
| AttributeError
| IndexError
| KeyError (key : string)
| TypeError
| BadRequest
| HTTPException (status : nat).

Definition nl : string := String (ascii_of_nat 10) EmptyString.
Definition dq : string := String (ascii_of_nat 34) EmptyString.
Definition slash : ascii := ascii_of_nat 47.

(** [s.split(sep)] for a one-character separator: never an empty list. *)
Fixpoint split (sep : ascii) (s : string) : list string :=
  match s with
  | EmptyString => [EmptyString]
  | String c r =>
      if Ascii.eqb c sep then EmptyString :: split sep r
      else match split sep r with
           | x :: xs => String c x :: xs
           | [] => [String c EmptyString]
           end
  end.

(** [s.endswith(suffix)] *)
Definition endswith (s suffix : string) : bool :=
  let n := String.length s in
  let k := String.length suffix in
  (k <=? n)%nat && String.eqb (substring (n - k) k s) suffix.

(** [s[:-k]] for [k > 0]: all but the last [k] characters. *)
Definition drop_last (k : nat) (s : string) : string :=
  substring 0 (String.length s - k) s.

(** [bytes.decode()] is strict UTF-8: it raises on anything but the
    well-formed byte sequences; on those the model is the identity. *)
Fixpoint utf8_ok (fuel : nat) (bs : list N) : bool :=
  let cont b := (128 <=? b)%N && (b <=? 191)%N in
  let within lo hi b := (lo <=? b)%N && (b <=? hi)%N in
  match fuel, bs with
  | _, [] => true
  | O, _ => false
  | S f, b0 :: r =>
      if (b0 <=? 127)%N then utf8_ok f r
      else if within 194%N 223%N b0 then
        match r with b1 :: r' => cont b1 && utf8_ok f r' | _ => false end
      else if within 224%N 239%N b0 then
        match r with
        | b1 :: b2 :: r' =>
            (if (b0 =? 224)%N then within 160%N 191%N b1
             else if (b0 =? 237)%N then within 128%N 159%N b1
             else cont b1) && cont b2 && utf8_ok f r'
        | _ => false
        end
      else if within 240%N 244%N b0 then
        match r with
        | b1 :: b2 :: b3 :: r' =>
            (if (b0 =? 240)%N then within 144%N 191%N b1
             else if (b0 =? 244)%N then within 128%N 143%N b1
             else cont b1) && cont b2 && cont b3 && utf8_ok f r'
        | _ => false
        end
      else false
  end.

Definition decode (raw : string) : exn + string :=
  if utf8_ok (String.length raw) (map N_of_ascii (list_ascii_of_string raw))
  then inr raw else inl UnicodeDecodeError.

(** File metadata as the sync engine reads it: the ['is_dir'] entry. *)
Record Metadata : Type := { is_dir : bool }.

(** The dictionary [client.delta(cursor)] returns. *)
Record DeltaResult : Type := {
  entries : list (string * option Metadata);
  cursor : string;
  has_more : bool
}.

(** The Dropbox SDK client, the Markdown renderer and URL quoting, as the
    program calls them.  [Server] is the state of the storage service,
    which only these calls read and change. *)
Record SDK : Type := {
  Server : Type;
  Client : Type;
  (** [DropboxClient(token)], [token] being what [hget] returned; the
      SDK's constructor raises [ValueError] for a token that is neither a
      string nor a session. *)
  DropboxClient : option string -> exn + Client;
  delta : Client -> option string -> Server -> (exn + DeltaResult) * Server;
  get_file_and_metadata : Client -> string -> Server -> (exn + string * Metadata) * Server;
  put_file : Client -> string -> string -> bool -> Server -> (exn + unit) * Server;
  (** [client.share(path, short_url=b).get('url')] *)
  share : Client -> string -> bool -> Server -> (exn + option string) * Server;
  markdown : string -> exn + string;
  quote : string -> string
}.

(** What the program does to the outside, in order. *)
Inductive Event : Type :=
| EvHGet (name key : string)
| EvHSet (name key value : string)
| EvDelta (arg : option string) (res : option DeltaResult)
| EvGetFile (path : string)
| EvPutFile (path content : string) (overwrite : bool)
| EvShare (path : string) (short_url : bool).

(** How a computation ends; [Unfinished] is a loop cut by the fuel. *)
Inductive Res (A : Type) : Type :=
| Ok (a : A)
| Raise (e : exn)
| Unfinished.
Arguments Ok {A} a.
Arguments Raise {A} e.
Arguments Unfinished {A}.

(** ** The sync engine: [process_user] *)

Definition marker : string := "<!-- Published file url:".

(** [path[:-3] + '.html'] *)
Definition html_name_of (path : string) : string := drop_last 3 path +:+ ".html".

(** [md.split('\n')[0]] *)
Definition first_line (md : string) : string :=
  match split (ascii_of_nat 10) md with
  | l :: _ => l
  | [] => EmptyString
  end.

(** The guard of the [continue]: deleted files, folders, other files. *)
Definition ignored (path : string) (metadata : option Metadata) : bool :=
  match metadata with
  | None => true
  | Some m => is_dir m || negb (endswith path ".md")
  end.

Definition url_comment_of (file_key url_name : string) : string :=
  marker +:+ nl +:+ "https://dl.dropboxusercontent.com/s/" +:+ file_key +:+ url_name
         +:+ nl +:+ "-->" +:+ nl.

(** [share_url.split('/')[4]], with [share_url] possibly [None]. *)
Definition file_key_of (share_url : option string) : exn + string :=
  match share_url with
  | None => inl AttributeError
  | Some u =>
      match split slash u !! 4%nat with
      | Some k => inr k
      | None => inl IndexError
      end
  end.

Section Engine.
Context (sdk : SDK).

(** Redis (hash name, then field), the storage service, and the log. *)
Record World : Type := {
  redis : gmap string (gmap string string);
  server : Server sdk;
  trace : list Event
}.

Definition M (A : Type) : Type := World -> Res A * World.

Definition ret {A} (a : A) : M A := fun w => (Ok a, w).
Definition raise {A} (e : exn) : M A := fun w => (Raise e, w).
Definition bind {A B} (m : M A) (k : A -> M B) : M B :=
  fun w =>
    match m w with
    | (Ok a, w') => k a w'
    | (Raise e, w') => (Raise e, w')
    | (Unfinished, w') => (Unfinished, w')
    end.

Notation "x <- m ;; k" := (bind m (fun x => k))
  (at level 100, m at next level, right associativity).
Notation "m ;;; k" := (bind m (fun _ => k))
  (at level 100, right associativity).

Definition lift {A} (r : exn + A) : M A :=
  match r with inl e => raise e | inr a => ret a end.

Definition log (e : Event) (w : World) : World :=
  {| redis := redis w; server := server w; trace := trace w ++ [e] |}.

(** [redis_client.hget(name, key)]: [None] for a missing hash or field. *)
Definition hget (name key : string) : M (option string) :=
  fun w => (Ok (redis w !! name ≫= fun h => h !! key), log (EvHGet name key) w).

(** [redis_client.hset(name, key, value)] *)
Definition hset (name key value : string) : M unit :=
  fun w =>
    (Ok tt,
     log (EvHSet name key value)
       {| redis := <[name := <[key := value]> (default ∅ (redis w !! name))]> (redis w);
          server := server w; trace := trace w |}).

(** A call of the SDK: it runs on the service, is logged, and raises what
    the SDK raises. *)
Definition call {A} (op : Server sdk -> (exn + A) * Server sdk) (ev : exn + A -> Event)
  : M A :=
  fun w =>
    let '(r, s') := op (server w) in
    let w' := log (ev r) {| redis := redis w; server := s'; trace := trace w |} in
    match r with inl e => (Raise e, w') | inr a => (Ok a, w') end.

Definition client_delta (c : Client sdk) (cur : option string) : M DeltaResult :=
  call (delta sdk c cur)
       (fun r => EvDelta cur (match r with inr d => Some d | inl _ => None end)).
Definition client_get_file_and_metadata (c : Client sdk) (path : string)
  : M (string * Metadata) :=
  call (get_file_and_metadata sdk c path) (fun _ => EvGetFile path).
Definition client_put_file (c : Client sdk) (path content : string) (overwrite : bool)
  : M unit :=
  call (put_file sdk c path content overwrite) (fun _ => EvPutFile path content overwrite).
Definition client_share (c : Client sdk) (path : string) (short_url : bool)
  : M (option string) :=
  call (share sdk c path short_url) (fun _ => EvShare path short_url).

(** The body of [for path, metadata in result['entries']]. *)
Definition process_entry (c : Client sdk) (entry : string * option Metadata) : M unit :=
  let '(path, metadata) := entry in
  if ignored path metadata then ret tt
  else
    fetched <- client_get_file_and_metadata c path ;;
    md <- lift (decode (fst fetched)) ;;
    html <- lift (markdown sdk md) ;;
    let html_name := html_name_of path in
    client_put_file c html_name html true ;;;
    if negb (String.eqb marker (first_line md)) then
      share_url <- client_share c html_name false ;;
      file_key <- lift (file_key_of share_url) ;;
      let url_name := quote sdk html_name in
      client_put_file c path (url_comment_of file_key url_name +:+ md) true
    else ret tt.

(** The [for] loop: entries in order, stopping at the first exception. *)
Fixpoint for_entries (c : Client sdk) (es : list (string * option Metadata)) : M unit :=
  match es with
  | [] => ret tt
  | e :: rest => process_entry c e ;;; for_entries c rest
  end.

(** [while has_more:], entered with [has_more = True]; [fuel] bounds the
    number of batches. *)
Fixpoint batches (fuel : nat) (c : Client sdk) (uid : string) (cur : option string)
  : M unit :=
  match fuel with
  | O => fun w => (Unfinished, w)
  | S fuel' =>
      result <- client_delta c cur ;;
      for_entries c (entries result) ;;;
      hset "cursors" uid (cursor result) ;;;
      if has_more result then batches fuel' c uid (Some (cursor result)) else ret tt
  end.

Definition process_user (fuel : nat) (uid : string) : M unit :=
  token <- hget "tokens" uid ;;
  cur <- hget "cursors" uid ;;
  client <- lift (DropboxClient sdk token) ;;
  batches fuel client uid cur.

End Engine.

Arguments redis {sdk} w.
Arguments server {sdk} w.
Arguments trace {sdk} w.
Arguments Build_World {sdk} redis server trace.

(** ** The webhook gateway: [validate_request] and [webhook] *)

Local Unset Elimination Schemes.

(** A parsed JSON document; an object lists its distinct keys. *)
Inductive Json : Type :=
| JNull
| JBool (b : bool)
| JNumber (z : Z)
| JString (s : string)
| JArray (items : list Json)
| JObject (fields : list (string * Json)).

Local Set Elimination Schemes.

(** The parts of Flask's [request] the handler reads: the
    [X-Dropbox-Signature] header, the raw body [request.data], and what
    [request.json] gives for that body (it raises on a body it cannot
    parse). *)
Record Request : Type := {
  signature : option string;
  data : string;
  json : exn + Json
}.

(** [hmac.new(APP_SECRET.encode(), request.data, sha256).hexdigest()] *)
Definition expected_signature (APP_SECRET : string) (body : string) : string :=
  Sha256.hmac_sha256_hexdigest APP_SECRET body.

(** [signature == ...hexdigest()]: equality of Python strings; a missing
    header is [None], equal to no string. *)
Definition validate_request (APP_SECRET : string) (req : Request) : bool :=
  match signature req with
  | Some s => String.eqb s (expected_signature APP_SECRET (data req))
  | None => false
  end.

Fixpoint assoc (key : string) (fields : list (string * Json)) : option Json :=
  match fields with
  | [] => None
  | (k, v) :: rest => if String.eqb k key then Some v else assoc key rest
  end.

(** [v[key]] for a string key. *)
Definition subscript (v : Json) (key : string) : exn + Json :=
  match v with
  | JObject fields =>
      match assoc key fields with
      | Some x => inr x
      | None => inl (KeyError key)
      end
  | _ => inl TypeError
  end.

(** A continuation byte of UTF-8: [10xxxxxx]. *)
Definition is_continuation (c : ascii) : bool :=
  let n := nat_of_ascii c in (128 <=? n)%nat && (n <=? 191)%nat.

(** The characters of a [str], each one the bytes of one code point: a
    byte starts a character unless it is a continuation byte. *)
Fixpoint code_points (s : string) : list string :=
  match s with
  | EmptyString => []
  | String c r =>
      match r with
      | String c' _ =>
          if is_continuation c' then
            match code_points r with
            | x :: xs => String c x :: xs
            | [] => [String c EmptyString]
            end
          else String c EmptyString :: code_points r
      | EmptyString => [String c EmptyString]
      end
  end.

(** The values [for uid in v] runs through: the items of a list, the keys
    of a dict, the characters of a string. *)
Definition iterate (v : Json) : exn + list Json :=
  match v with
  | JArray items => inr items
  | JObject fields => inr (map (fun kv => JString (fst kv)) fields)
  | JString s => inr (map JString (code_points s))
  | _ => inl TypeError
  end.

(** [threading.Thread(target=process_user, args=(uid,)).start()] *)
Inductive Thread : Type :=
| ProcessUserThread (uid : Json).

Definition and_then {A B} (r : exn + A) (k : A -> exn + B) : exn + B :=
  match r with inl e => inl e | inr a => k a end.

(** The handler's result (the returned body, or the exception that
    leaves it) and the threads it has started, in order.  The handler
    starts threads and joins none. *)
Definition webhook (APP_SECRET : string) (req : Request) : (exn + string) * list Thread :=
  if negb (validate_request APP_SECRET req) then (inl (HTTPException 403), [])
  else
    match and_then (json req) (fun j =>
          and_then (subscript j "delta") (fun d =>
          and_then (subscript d "users") iterate)) with
    | inl e => (inl e, [])
    | inr uids => (inr EmptyString, map ProcessUserThread uids)
    end.

(** ** A small storage service to run the engine on *)

Module Fake.

Record FakeServer : Type := {
  files : gmap string string;
  feed : list (exn + DeltaResult)
}.

(** Files in a map, change batches served from a list; the client
    constructor refuses a missing token when [strict]. *)
Definition sdk_of (strict : bool) : SDK := {|
  Server := FakeServer;
  Client := string;
  DropboxClient tok :=
    match tok with
    | Some t => inr t
    | None => if strict then inl (SdkError "ValueError") else inr EmptyString
    end;
  delta _ cur s :=
    match feed s with
    | [] => (inr {| entries := []; cursor := default "c0" cur; has_more := false |}, s)
    | b :: rest => (b, {| files := files s; feed := rest |})
    end;
  get_file_and_metadata _ p s :=
    match files s !! p with
    | Some x => (inr (x, {| is_dir := false |}), s)
    | None => (inl (SdkError "404"), s)
    end;
  put_file _ p x _ s := (inr tt, {| files := <[p := x]> (files s); feed := feed s |});
  share _ p _ s := (inr (Some "https://www.dropbox.com/s/k3y/page.html"), s);
  markdown md := inr ("<p>" +:+ md +:+ "</p>");
  quote p := p
|}.

Definition annotated : string :=
  marker +:+ nl +:+ "https://dl.dropboxusercontent.com/s/k3y/notes.html" +:+ nl +:+ "-->"
         +:+ nl +:+ "# Hello".

Definition file_entry (p : string) : string * option Metadata :=
  (p, Some {| is_dir := false |}).

(** Every Markdown file the service holds starts with the marker line. *)
Definition all_annotated (s : FakeServer) : Prop :=
  forall p x, endswith p ".md" = true -> files s !! p = Some x -> first_line x = marker.

Definition batch (es : list (string * option Metadata)) (c : string) (more : bool)
  : exn + DeltaResult :=
  inr {| entries := es; cursor := c; has_more := more |}.

Definition world (strict : bool) (tokens cursors : gmap string string)
    (fs : gmap string string) (bs : list (exn + DeltaResult)) : World (sdk_of strict) :=
  {| redis := {[ "tokens" := tokens; "cursors" := cursors ]};
     server := ({| files := fs; feed := bs |} : Server (sdk_of strict));
     trace := [] |}.

End Fake.

(** ** Runs and requests to try the program on *)

Module Scenario.
Import Fake.

Definition sdk : SDK := sdk_of true.

(** User [u1] is authorised and owns [/notes.md]; the service reports the
    document twice, in two listings. *)
Definition fresh : World sdk :=
  world true {[ "u1" := "tok" ]} ∅ {[ "/notes.md" := "# Hello" ]}
    [ batch [file_entry "/notes.md"] "c1" false;
      batch [file_entry "/notes.md"] "c2" false ].

Definition after_first_run : World sdk := snd (process_user sdk 5 "u1" fresh).
Definition after_second_run : World sdk := snd (process_user sdk 5 "u1" after_first_run).

(** Two batches in one run; the file of the second cannot be fetched. *)
Definition two_batches : World sdk :=
  world true {[ "u1" := "tok" ]} ∅ {[ "/notes.md" := "# Hello" ]}
    [ batch [file_entry "/notes.md"] "c1" true;
      batch [file_entry "/missing.md"] "c2" false ].

(** Nobody is authorised. *)
Definition nobody (strict : bool) : World (sdk_of strict) :=
  world strict ∅ ∅ ∅ [ batch [] "c1" false ].

Definition secret : string := "s3cret".

Definition body_users : string :=
  "{" +:+ dq +:+ "delta" +:+ dq +:+ ": {" +:+ dq +:+ "users" +:+ dq +:+ ": [12345, 67890]}}".

Definition notification : Request :=
  {| signature := Some "8b33ed13f7932171f9a74d9875468b2172162b0f458219103a9997db08ce3e78";
     data := body_users;
     json := inr (JObject [("delta", JObject [("users", JArray [JNumber 12345; JNumber 67890])])]) |}.

(** The same notification, its signature in upper case. *)
Definition notification_upper : Request :=
  {| signature := Some "8B33ED13F7932171F9A74D9875468B2172162B0F458219103A9997DB08CE3E78";
     data := body_users;
     json := json notification |}.

(** A notification with a signature that is not the body's, and the same
    with one byte of the body changed. *)
Definition forged : Request :=
  {| signature := Some "00000000000000000000000000000000000000000000000000000000deadbeef";
     data := body_users;
     json := json notification |}.
Definition forged_mutated : Request :=
  {| signature := signature forged;
     data := "{" +:+ dq +:+ "delta" +:+ dq +:+ ": {" +:+ dq +:+ "users" +:+ dq +:+ ": [12345, 67891]}}";
     json := inr (JObject [("delta", JObject [("users", JArray [JNumber 12345; JNumber 67891])])]) |}.

(** A user whose changes keep coming: every listing says there is more. *)
Definition endless : World sdk :=
  world true {[ "u1" := "tok" ]} ∅ ∅
    [ batch [] "c1" true; batch [] "c2" true; batch [] "c3" true ].

(** Signed bodies without the expected keys: [{}] and [{"delta": {}}]. *)
Definition empty_object : Request :=
  {| signature := Some "adbde1ce40c89c14215687d5d762a47df6dfaefcfad61e2e86718ffc8498571b";
     data := "{}";
     json := inr (JObject []) |}.

Definition empty_delta : Request :=
  {| signature := Some "ccc15a62735fb03e9406247a558d57d32e332070f7bde9b5a9e322a46730a59f";
     data := "{" +:+ dq +:+ "delta" +:+ dq +:+ ": {}}";
     json := inr (JObject [("delta", JObject [])]) |}.

End Scenario.

(** ** Reading a log *)

Definition is_delta (e : Event) : bool :=
  match e with EvDelta _ _ => true | _ => false end.
Definition is_hset (e : Event) : bool :=
  match e with EvHSet _ _ _ => true | _ => false end.
Definition is_hget (e : Event) : bool :=
  match e with EvHGet _ _ => true | _ => false end.
Definition is_share (e : Event) : bool :=
  match e with EvShare _ _ => true | _ => false end.
Definition is_put (e : Event) : bool :=
  match e with EvPutFile _ _ _ => true | _ => false end.

(** A call on files: a read, a write or a share link. *)
Definition is_file_call (e : Event) : bool :=
  match e with EvGetFile _ | EvPutFile _ _ _ | EvShare _ _ => true | _ => false end.

(** A write to a Markdown path. *)
Definition writes_markdown (e : Event) : bool :=
  match e with EvPutFile p _ _ => endswith p ".md" | _ => false end.

Definition batch_of (e : Event) : option DeltaResult :=
  match e with EvDelta _ r => r | _ => None end.

(** The batches the successful change listings returned, oldest first. *)
Definition batches_of (evs : list Event) : list DeltaResult := omap batch_of evs.

(** The batch the most recent successful change listing returned. *)
Definition last_batch (evs : list Event) : option DeltaResult := last (batches_of evs).

Definition redis_step (r : gmap string (gmap string string)) (e : Event)
  : gmap string (gmap string string) :=
  match e with
  | EvHSet n k v => <[n := <[k := v]> (default ∅ (r !! n))]> r
  | _ => r
  end.

(** Redis after the writes of a log, and nothing else. *)
Definition replay_redis (evs : list Event) (r : gmap string (gmap string string))
  : gmap string (gmap string string) :=
  fold_left redis_step evs r.

Definition server_step (sdk : SDK) (c : Client sdk) (s : Server sdk) (e : Event)
  : Server sdk :=
  match e with
  | EvDelta a _ => snd (delta sdk c a s)
  | EvGetFile p => snd (get_file_and_metadata sdk c p s)
  | EvPutFile p x o => snd (put_file sdk c p x o s)
  | EvShare p b => snd (share sdk c p b s)
  | _ => s
  end.

(** The storage service after the calls of a log, each made once, in
    order, and nothing else. *)
Definition replay_server (sdk : SDK) (c : Client sdk) (evs : list Event) (s : Server sdk)
  : Server sdk :=
  fold_left (server_step sdk c) evs s.

(** [w'] is [w] after the events [evs]: they are what was logged, the
    writes among them are what changed Redis, and the calls among them
    what changed the storage service. *)
Definition follows {sdk : SDK} (c : Client sdk) (w w' : World sdk) (evs : list Event)
  : Prop :=
  trace w' = trace w ++ evs
  /\ redis w' = replay_redis evs (redis w)
  /\ server w' = replay_server sdk c evs (server w).

(** The logs of the [while] loop entered with cursor [cur]; the flag
    tells whether the loop was left by an exception. *)
Inductive batch_log (uid : string) : option string -> list Event -> bool -> Prop :=
| bl_stop cur :
    batch_log uid cur [] false
| bl_delta_failed cur :
    batch_log uid cur [EvDelta cur None] true
| bl_aborted cur d calls :
    Forall (fun e => is_file_call e = true) calls ->
    batch_log uid cur (EvDelta cur (Some d) :: calls) true
| bl_batch cur d calls rest ab :
    Forall (fun e => is_file_call e = true) calls ->
    batch_log uid (Some (cursor d)) rest ab ->
    batch_log uid cur
      (EvDelta cur (Some d) :: calls ++ EvHSet "cursors" uid (cursor d) :: rest) ab.

(** The world once [process_user] has read the token and the cursor. *)
Definition after_reads {sdk : SDK} (uid : string) (w : World sdk) : World sdk :=
  {| redis := redis w; server := server w;
     trace := trace w ++ [EvHGet "tokens" uid; EvHGet "cursors" uid] |}.

(** The same world with another content of Redis. *)
Definition with_redis {sdk : SDK} (r : gmap string (gmap string string)) (w : World sdk)
  : World sdk :=
  {| redis := r; server := server w; trace := trace w |}.

Definition cursors_of (r : gmap string (gmap string string)) (uid : string)
  : option string :=
  r !! "cursors" ≫= fun h => h !! uid.

(** [cursors[uid]] in Redis. *)
Definition stored_cursor {sdk : SDK} (w : World sdk) (uid : string) : option string :=
  cursors_of (redis w) uid.

Definition stored_token {sdk : SDK} (w : World sdk) (uid : string) : option string :=
  redis w !! "tokens" ≫= fun h => h !! uid.

(** The world right after [client.delta(cur)] has returned [d], the
    service then being [s]. *)
Definition listing_done {sdk : SDK} (cur : option string) (d : DeltaResult) (s : Server sdk)
    (w : World sdk) : World sdk :=
  {| redis := redis w; server := s; trace := trace w ++ [EvDelta cur (Some d)] |}.

(** The world right after [client.delta(cur)] has raised. *)
Definition listing_failed {sdk : SDK} (cur : option string) (s : Server sdk) (w : World sdk)
  : World sdk :=
  {| redis := redis w; server := s; trace := trace w ++ [EvDelta cur None] |}.

(** [n] batches in a row, each listed, processed to its end without an
    exception and saying there is more: the cursor in hand and the world
    after the last of them, if the service and the documents allow that
    many.  It is written out turn by turn, with no fuel and no loop, to
    compare the loop with. *)
Fixpoint after_batches (sdk : SDK) (n : nat) (c : Client sdk) (uid : string)
    (cur : option string) (w : World sdk) : option (option string * World sdk) :=
  match n with
  | O => Some (cur, w)
  | S n' =>
      match delta sdk c cur (server w) with
      | (inr d, s) =>
          match for_entries sdk c (entries d) (listing_done cur d s w) with
          | (Ok _, w2) =>
              if has_more d then
                after_batches sdk n' c uid (Some (cursor d))
                  (snd (hset sdk "cursors" uid (cursor d) w2))
              else None
          | _ => None
          end
      | (inl _, _) => None
      end
  end.

(** One of the calls an entry makes on the storage service or on the
    renderer raises [e], those before it having succeeded: the read, the
    rendering, the write of the HTML, the share link, the write of the
    source. *)
Inductive entry_call_fails (sdk : SDK) (c : Client sdk) (path : string) (w : World sdk)
    (e : exn) : Prop :=
| fails_read :
    fst (get_file_and_metadata sdk c path (server w)) = inl e ->
    entry_call_fails sdk c path w e
| fails_render raw m' s1 md :
    get_file_and_metadata sdk c path (server w) = (inr (raw, m'), s1) ->
    decode raw = inr md ->
    markdown sdk md = inl e ->
    entry_call_fails sdk c path w e
| fails_html_write raw m' s1 md html :
    get_file_and_metadata sdk c path (server w) = (inr (raw, m'), s1) ->
    decode raw = inr md ->
    markdown sdk md = inr html ->
    fst (put_file sdk c (html_name_of path) html true s1) = inl e ->
    entry_call_fails sdk c path w e
| fails_share raw m' s1 md html s2 :
    get_file_and_metadata sdk c path (server w) = (inr (raw, m'), s1) ->
    decode raw = inr md ->
    markdown sdk md = inr html ->
    put_file sdk c (html_name_of path) html true s1 = (inr tt, s2) ->
    first_line md <> marker ->
    fst (share sdk c (html_name_of path) false s2) = inl e ->
    entry_call_fails sdk c path w e
| fails_source_write raw m' s1 md html s2 url s3 key :
    get_file_and_metadata sdk c path (server w) = (inr (raw, m'), s1) ->
    decode raw = inr md ->
    markdown sdk md = inr html ->
    put_file sdk c (html_name_of path) html true s1 = (inr tt, s2) ->
    first_line md <> marker ->
    share sdk c (html_name_of path) false s2 = (inr url, s3) ->
    file_key_of url = inr key ->
    fst (put_file sdk c path
           (url_comment_of key (quote sdk (html_name_of path)) +:+ md) true s3) = inl e ->
    entry_call_fails sdk c path w e.

(** A set of states of the storage service in which every Markdown file
    that can be read starts with the marker line, and which listings,
    reads, and writes to other than Markdown files do not leave. *)
Definition keeps_annotated (sdk : SDK) (I : Server sdk -> Prop) : Prop :=
  (forall c cur s, I s -> I (snd (delta sdk c cur s)))
  /\ (forall c p s, I s -> I (snd (get_file_and_metadata sdk c p s)))
  /\ (forall c p x o s, I s -> endswith p ".md" = false -> I (snd (put_file sdk c p x o s)))
  /\ (forall c p s raw m md,
        I s -> endswith p ".md" = true ->
        fst (get_file_and_metadata sdk c p s) = inr (raw, m) ->
        decode raw = inr md -> first_line md = marker).

(** ASCII lower case, for comparing hexadecimal text. *)
Definition lower_ascii (c : ascii) : ascii :=
  let n := nat_of_ascii c in
  if (65 <=? n)%nat && (n <=? 90)%nat then ascii_of_nat (n + 32) else c.

Fixpoint lower (s : string) : string :=
  match s with
  | EmptyString => EmptyString
  | String c r => String (lower_ascii c) (lower r)
  end.

(** The comparison the specification words: equal as hexadecimal text,
    whatever the case of the digits. *)
Definition same_hex_ignoring_case (a b : string) : bool := String.eqb (lower a) (lower b).

(** ** The other handlers: [oauth_callback] and [challenge] *)

(** What a view returns: [redirect(url_for(route))]. *)
Inductive Response : Type :=
| Redirect (route : string).

(** [oauth_callback()].  [finished] is what [get_flow().finish(request.args)]
    gives, the access token and the uid (the extras are not used), or the
    exception it raises. *)
Definition oauth_callback (sdk : SDK) (fuel : nat) (finished : exn + string * string)
  : M sdk Response :=
  bind sdk (lift sdk finished) (fun r =>
  bind sdk (hset sdk "tokens" (snd r) (fst r)) (fun _ =>
  bind sdk (process_user sdk fuel (snd r)) (fun _ =>
  ret sdk (Redirect "done")))).

(** [request.args.get(key)]: the first value given for the key, or [None]. *)
Fixpoint args_get (key : string) (args : list (string * string)) : option string :=
  match args with
  | [] => None
  | (k, v) :: rest => if String.eqb k key then Some v else args_get key rest
  end.

(** [challenge()]: the value the view function returns. *)
Definition challenge (args : list (string * string)) : option string :=
  args_get "challenge" args.

(** ** Words for the properties of strings and logs *)

(** [c in s] *)
Fixpoint has_char (c : ascii) (s : string) : bool :=
  match s with
  | EmptyString => false
  | String x r => Ascii.eqb x c || has_char c r
  end.

(** [s.count(c)] *)
Fixpoint count_char (c : ascii) (s : string) : nat :=
  match s with
  | EmptyString => 0
  | String x r => (if Ascii.eqb x c then 1 else 0) + count_char c r
  end.

Fixpoint all_chars (P : ascii -> bool) (s : string) : bool :=
  match s with
  | EmptyString => true
  | String x r => P x && all_chars P r
  end.

(** One of [0123456789abcdef]. *)
Definition is_hex_lower (c : ascii) : bool :=
  let n := nat_of_ascii c in
  ((48 <=? n)%nat && (n <=? 57)%nat) || ((97 <=? n)%nat && (n <=? 102)%nat).

(** An event that stays within the documents: a read of a [.md] file, a
    write with [overwrite=True] to a [.md] or [.html] file, a long share
    link of a [.html] file; listings and accesses to Redis aside. *)
Definition within_documents (e : Event) : bool :=
  match e with
  | EvGetFile p => endswith p ".md"
  | EvPutFile p _ o => o && (endswith p ".md" || endswith p ".html")
  | EvShare p s => negb s && endswith p ".html"
  | _ => true
  end.

(** More runs and requests. *)
Module Cases.
Import Fake.

(** A share link that is no URL. *)
Definition linkless_sdk : SDK := {|
  Server := FakeServer;
  Client := string;
  DropboxClient := DropboxClient (sdk_of true);
  delta := delta (sdk_of true);
  get_file_and_metadata := get_file_and_metadata (sdk_of true);
  put_file := put_file (sdk_of true);
  share _ _ _ s := (inr (Some "no-link"), s);
  markdown := markdown (sdk_of true);
  quote := quote (sdk_of true)
|}.

Definition linkless : World linkless_sdk :=
  {| redis := {[ "tokens" := {[ "u1" := "tok" ]} ]};
     server := ({| files := {[ "/notes.md" := "# Hello" ]};
                   feed := [ batch [file_entry "/notes.md"] "c1" false ] |}
                : Server linkless_sdk);
     trace := [] |}.

(** A document that is not UTF-8: the byte [0xff]. *)
Definition binary : World (sdk_of true) :=
  world true {[ "u1" := "tok" ]} ∅ {[ "/notes.md" := String (ascii_of_nat 255) "x" ]}
    [ batch [file_entry "/notes.md"] "c1" false ].

(** User [u2] is about to be authorised; [u1] already is, with a cursor. *)
Definition before_oauth : World (sdk_of true) :=
  world true {[ "u1" := "tok" ]} {[ "u1" := "c0" ]} {[ "/notes.md" := "# Hello" ]}
    [ batch [file_entry "/notes.md"] "c1" false ].

(** A second document after the one that is not UTF-8. *)
Definition later_entries : list (string * option Metadata) := [file_entry "/other.md"].

(** A signed notification that Flask does not read as JSON
    ([request.json] is [None]). *)
Definition not_json : Request :=
  {| signature := signature Scenario.notification;
     data := data Scenario.notification;
     json := inr JNull |}.

(** A service on which one write is refused, or every share link. *)
Definition faulty_sdk (refused_write : string) (no_share : bool) : SDK := {|
  Server := FakeServer;
  Client := string;
  DropboxClient := DropboxClient (sdk_of true);
  delta := delta (sdk_of true);
  get_file_and_metadata := get_file_and_metadata (sdk_of true);
  put_file c p x o s :=
    if String.eqb p refused_write then (inl (SdkError "507"), s)
    else put_file (sdk_of true) c p x o s;
  share c p b s :=
    if no_share then (inl (SdkError "403"), s) else share (sdk_of true) c p b s;
  markdown := markdown (sdk_of true);
  quote := quote (sdk_of true)
|}.

Definition on_faulty (refused_write : string) (no_share : bool)
  : World (faulty_sdk refused_write no_share) :=
  {| redis := {[ "tokens" := {[ "u1" := "tok" ]}; "cursors" := {[ "u1" := "c0" ]} ]};
     server := ({| files := {[ "/notes.md" := "# Hello" ]};
                   feed := [ batch [file_entry "/notes.md"] "c1" false ] |}
                : Server (faulty_sdk refused_write no_share));
     trace := [] |}.

(** The service is down at the second listing. *)
Definition outage : World (sdk_of true) :=
  world true {[ "u1" := "tok" ]} ∅ {[ "/notes.md" := "# Hello" ]}
    [ batch [file_entry "/notes.md"] "c1" true; inl (SdkError "503") ].

(** A document that is not UTF-8, and a good one after it in the batch. *)
Definition bad_then_good : World (sdk_of true) :=
  world true {[ "u1" := "tok" ]} ∅
    {[ "/bad.md" := String (ascii_of_nat 255) "x"; "/notes.md" := "# Hello" ]}
    [ batch [file_entry "/bad.md"; file_entry "/notes.md"] "c1" false ].

(** A picture and a published document, reported in one batch. *)
Definition republished : World (sdk_of true) :=
  world true {[ "u1" := "tok" ]} {[ "u1" := "c1" ]} {[ "/notes.md" := annotated ]}
    [ batch [("/photo.png", Some {| is_dir := false |}); file_entry "/notes.md"] "c2" false ].

Definition republished_batch : DeltaResult :=
  {| entries := [("/photo.png", Some {| is_dir := false |}); file_entry "/notes.md"];
     cursor := "c2"; has_more := false |}.

(** [republished] once its batch is listed. *)
Definition republished_listed : World (sdk_of true) :=
  listing_done (Some "c1") republished_batch
    ({| files := {[ "/notes.md" := annotated ]}; feed := [] |} : Server (sdk_of true))
    republished.

(** The run on [republished], its batch listed. *)
Definition republished_run_listed : World (sdk_of true) :=
  listing_done (Some "c1") republished_batch
    ({| files := {[ "/notes.md" := annotated ]}; feed := [] |} : Server (sdk_of true))
    (after_reads "u1" republished).

(** [outage] after its first batch. *)
Definition outage_after_one : World (sdk_of true) :=
  snd (process_user (sdk_of true) 1 "u1" outage).

Definition notes_batch : DeltaResult :=
  {| entries := [file_entry "/notes.md"]; cursor := "c1"; has_more := false |}.

End Cases.

(** ** Properties of the string operations *)

Lemma substring_prefix (s t : string) : substring 0 (String.length s) (s +:+ t) = s.
Proof.
  induction s as [|c s IH]; simpl.
  - destruct t; reflexivity.
  - now rewrite IH.
Qed.

Lemma substring_whole (s : string) : substring 0 (String.length s) s = s.
Proof. induction s as [|c s IH]; simpl; [reflexivity | now rewrite IH]. Qed.

Lemma substring_suffix (s t : string) :
  substring (String.length s) (String.length t) (s +:+ t) = t.
Proof.
  induction s as [|c s IH]; simpl.
  - apply substring_whole.
  - exact IH.
Qed.

Lemma length_append (s t : string) :
  String.length (s +:+ t) = String.length s + String.length t.
Proof. induction s as [|c s IH]; simpl; [reflexivity | now rewrite IH]. Qed.

Lemma substring_split (s : string) (a : nat) :
  a <= String.length s ->
  s = substring 0 a s +:+ substring a (String.length s - a) s.
Proof.
  revert a. induction s as [|c s IH]; intros a Ha; simpl in *.
  - destruct a; [reflexivity | lia].
  - destruct a as [|a]; simpl.
    + now rewrite substring_whole.
    + change (String c s = String c (substring 0 a s +:+ substring a (String.length s - a) s)).
      f_equal. apply IH. lia.
Qed.

(** [endswith] is the suffix test. *)
Lemma endswith_spec (s suffix : string) :
  endswith s suffix = true <-> exists stem, s = stem +:+ suffix.
Proof.
  unfold endswith. split.
  - intros H. apply andb_true_iff in H as [Hle Heq].
    apply Nat.leb_le in Hle. apply String.eqb_eq in Heq.
    exists (substring 0 (String.length s - String.length suffix) s).
    pose proof (substring_split s (String.length s - String.length suffix)) as Hs.
    replace (String.length s - (String.length s - String.length suffix))
      with (String.length suffix) in Hs by lia.
    rewrite Heq in Hs. apply Hs. lia.
  - intros [stem ->]. rewrite length_append. apply andb_true_iff. split.
    + apply Nat.leb_le. lia.
    + replace (String.length stem + String.length suffix - String.length suffix)
        with (String.length stem) by lia.
      rewrite substring_suffix. apply String.eqb_refl.
Qed.

Lemma html_name_of_stem (stem : string) : html_name_of (stem +:+ ".md") = stem +:+ ".html".
Proof.
  unfold html_name_of, drop_last. rewrite length_append. simpl String.length.
  replace (String.length stem + 3 - 3) with (String.length stem) by lia.
  now rewrite substring_prefix.
Qed.

Lemma list_ascii_append (s t : string) :
  list_ascii_of_string (s +:+ t) = list_ascii_of_string s ++ list_ascii_of_string t.
Proof. induction s as [|c s IH]; simpl; [reflexivity | now rewrite IH]. Qed.

Lemma append_assoc (a b c : string) : (a +:+ b) +:+ c = a +:+ (b +:+ c).
Proof.
  induction a as [|x a IH]; [reflexivity|].
  change (String x ((a +:+ b) +:+ c) = String x (a +:+ (b +:+ c))). now f_equal.
Qed.

(** A name ending in [.html] does not end in [.md]. *)
Lemma html_not_markdown (x : string) : endswith (x +:+ ".html") ".md" = false.
Proof.
  destruct (endswith (x +:+ ".html") ".md") eqn:E; [|reflexivity].
  apply endswith_spec in E as [stem E]. exfalso.
  change ".html" with (".ht" +:+ "ml") in E. change ".md" with ("." +:+ "md") in E.
  rewrite <- !append_assoc in E.
  apply (f_equal list_ascii_of_string) in E. rewrite !list_ascii_append in E.
  apply app_inj_2 in E as [_ E]; [discriminate | reflexivity].
Qed.

Lemma html_name_not_markdown (path : string) : endswith (html_name_of path) ".md" = false.
Proof. apply html_not_markdown. Qed.

Lemma html_name_differs (path : string) : html_name_of path <> path \/ endswith path ".md" = false.
Proof.
  destruct (endswith path ".md") eqn:E; [left | now right].
  intros Heq. rewrite <- Heq, html_name_not_markdown in E. discriminate.
Qed.

(** ** Properties of logs *)

Lemma replay_redis_app (e1 e2 : list Event) r :
  replay_redis (e1 ++ e2) r = replay_redis e2 (replay_redis e1 r).
Proof. apply fold_left_app. Qed.

Lemma replay_server_app sdk c (e1 e2 : list Event) s :
  replay_server sdk c (e1 ++ e2) s = replay_server sdk c e2 (replay_server sdk c e1 s).
Proof. apply fold_left_app. Qed.

Lemma replay_redis_calls (evs : list Event) r :
  Forall (fun e => is_hset e = false) evs -> replay_redis evs r = r.
Proof.
  intros H. revert r. induction H as [|e evs He _ IH]; intros r; [reflexivity|].
  simpl. rewrite <- (IH r) at 2. f_equal. destruct e; try discriminate; reflexivity.
Qed.

Lemma file_call_not_hset (evs : list Event) :
  Forall (fun e => is_file_call e = true) evs -> Forall (fun e => is_hset e = false) evs.
Proof. apply List.Forall_impl. intros []; simpl; congruence. Qed.

Lemma file_call_not_hget (evs : list Event) :
  Forall (fun e => is_file_call e = true) evs -> Forall (fun e => is_hget e = false) evs.
Proof. apply List.Forall_impl. intros []; simpl; congruence. Qed.

Lemma file_call_not_delta (evs : list Event) :
  Forall (fun e => is_file_call e = true) evs -> Forall (fun e => is_delta e = false) evs.
Proof. apply List.Forall_impl. intros []; simpl; congruence. Qed.

Lemma batches_of_app (e1 e2 : list Event) :
  batches_of (e1 ++ e2) = batches_of e1 ++ batches_of e2.
Proof. apply omap_app. Qed.

Lemma batches_of_no_delta (evs : list Event) :
  Forall (fun e => is_delta e = false) evs -> batches_of evs = [].
Proof.
  induction 1 as [|e evs He _ IH]; [reflexivity|].
  change (batches_of (e :: evs)) with (from_option (fun d => d :: batches_of evs) (batches_of evs) (batch_of e)).
  rewrite IH. destruct e; try discriminate; reflexivity.
Qed.

Lemma last_batch_app (e1 e2 : list Event) :
  last_batch (e1 ++ e2)
  = match last_batch e2 with Some d => Some d | None => last_batch e1 end.
Proof. unfold last_batch. rewrite batches_of_app. apply last_app. Qed.

Lemma follows_refl {sdk} (c : Client sdk) (w : World sdk) : follows c w w [].
Proof. unfold follows. simpl. now rewrite app_nil_r. Qed.

Lemma follows_trans {sdk} (c : Client sdk) (w w1 w2 : World sdk) e1 e2 :
  follows c w w1 e1 -> follows c w1 w2 e2 -> follows c w w2 (e1 ++ e2).
Proof.
  intros (Ht1 & Hr1 & Hs1) (Ht2 & Hr2 & Hs2). unfold follows.
  rewrite Ht2, Ht1, Hr2, Hr1, Hs2, Hs1, replay_redis_app, replay_server_app.
  now rewrite app_assoc.
Qed.

(** Where something stands in a list that starts with things of another
    kind: at the first place it can, or further on. *)
Lemma app_cons_split {A} (Q : A -> bool) (calls pre post rest : list A) (h x : A) :
  Forall (fun e => Q e = false) calls -> Q x = true ->
  calls ++ h :: rest = pre ++ x :: post ->
  (pre = calls /\ h = x /\ post = rest)
  \/ exists pre', pre = calls ++ h :: pre' /\ rest = pre' ++ x :: post.
Proof.
  intros Hc Hx. revert pre. induction Hc as [|c cs Hq _ IH]; intros pre E; simpl in E.
  - destruct pre as [|p pre]; simpl in E; injection E as -> E.
    + left. now subst.
    + right. exists pre. now subst.
  - destruct pre as [|p pre]; simpl in E; injection E as E1 E.
    + subst. congruence.
    + subst p. destruct (IH pre E) as [(-> & -> & ->) | (pre' & -> & ->)].
      * now left.
      * right. now exists pre'.
Qed.

Lemma last_batch_calls (calls : list Event) :
  Forall (fun e => is_file_call e = true) calls -> last_batch calls = None.
Proof.
  intros H. unfold last_batch.
  now rewrite batches_of_no_delta by now apply file_call_not_delta.
Qed.

Lemma last_batch_cons_delta a d (evs : list Event) :
  last_batch (EvDelta a (Some d) :: evs)
  = match last_batch evs with Some d' => Some d' | None => Some d end.
Proof. apply (last_batch_app [EvDelta a (Some d)] evs). Qed.

(** The batch log entered at [pre = EvDelta .. :: calls ++ EvHSet .. :: pre']. *)
Lemma last_batch_completed a d uid (calls pre' : list Event) :
  Forall (fun e => is_file_call e = true) calls ->
  last_batch (EvDelta a (Some d) :: calls ++ EvHSet "cursors" uid (cursor d) :: pre')
  = match last_batch pre' with Some d' => Some d' | None => Some d end.
Proof.
  intros Hc. rewrite last_batch_cons_delta, last_batch_app.
  change (last_batch (EvHSet "cursors" uid (cursor d) :: pre')) with (last_batch pre').
  destruct (last_batch pre'); [reflexivity|]. now rewrite last_batch_calls.
Qed.

(** Each listing but the first asks for the cursor of the batch before,
    and is asked right after that cursor was written. *)
Lemma batch_log_request uid cur evs ab pre a x post :
  batch_log uid cur evs ab ->
  evs = pre ++ EvDelta a x :: post ->
  match last_batch pre with
  | None => pre = [] /\ a = cur
  | Some d => a = Some (cursor d) /\ last pre = Some (EvHSet "cursors" uid (cursor d))
  end.
Proof.
  intros H. revert pre. induction H as [cur|cur|cur d calls Hc|cur d calls rest ab Hc Hr IH];
    intros pre E.
  - destruct pre; discriminate.
  - destruct pre as [|p [|q pre]]; try discriminate. injection E as <- _ _. now split.
  - destruct pre as [|p pre]; simpl in E; injection E as E1 E.
    + subst. now split.
    + exfalso. subst calls. apply Forall_app in Hc as [_ Hc].
      apply Forall_cons in Hc as [Hc _]. discriminate.
  - destruct pre as [|p pre]; simpl in E; injection E as E1 E.
    + subst. now split.
    + subst p.
      destruct (app_cons_split is_delta calls pre post rest _ (EvDelta a x)
                  (file_call_not_delta _ Hc) eq_refl E)
        as [(_ & Hd & _) | (pre' & -> & ->)]; [discriminate|].
      rewrite (last_batch_completed _ _ _ _ _ Hc).
      specialize (IH pre' eq_refl). destruct (last_batch pre') as [d'|].
      * destruct IH as [-> Hl]. split; [reflexivity|].
        change (last ((EvDelta cur (Some d) :: calls)
                      ++ EvHSet "cursors" uid (cursor d) :: pre') = Some (EvHSet "cursors" uid (cursor d'))).
        now rewrite last_app, last_cons, Hl.
      * destruct IH as [-> ->]. split; [reflexivity|].
        change (last ((EvDelta cur (Some d) :: calls)
                      ++ [EvHSet "cursors" uid (cursor d)]) = Some (EvHSet "cursors" uid (cursor d))).
        now rewrite last_app.
Qed.

(** Every write to Redis stores, under [uid], the cursor of the batch
    that has just been processed. *)
Lemma batch_log_write uid cur evs ab pre n k v post :
  batch_log uid cur evs ab ->
  evs = pre ++ EvHSet n k v :: post ->
  n = "cursors" /\ k = uid /\ exists d, last_batch pre = Some d /\ v = cursor d.
Proof.
  intros H. revert pre. induction H as [cur|cur|cur d calls Hc|cur d calls rest ab Hc Hr IH];
    intros pre E.
  - destruct pre; discriminate.
  - destruct pre as [|p [|q pre]]; discriminate.
  - destruct pre as [|p pre]; simpl in E; [discriminate|]. injection E as E1 E.
    exfalso. subst calls. apply Forall_app in Hc as [_ Hc].
    apply Forall_cons in Hc as [Hc _]. discriminate.
  - destruct pre as [|p pre]; simpl in E; [discriminate|]. injection E as E1 E. subst p.
    destruct (app_cons_split is_hset calls pre post rest _ (EvHSet n k v)
                (file_call_not_hset _ Hc) eq_refl E)
      as [(-> & Hd & ->) | (pre' & -> & ->)].
    + injection Hd as <- <- <-. repeat split. exists d. split; [|reflexivity].
      now rewrite last_batch_cons_delta, last_batch_calls.
    + destruct (IH pre' eq_refl) as (-> & -> & d' & Hl & ->). repeat split.
      exists d'. split; [|reflexivity].
      now rewrite (last_batch_completed _ _ _ _ _ Hc), Hl.
Qed.

Lemma batch_log_no_hget uid cur evs ab :
  batch_log uid cur evs ab -> Forall (fun e => is_hget e = false) evs.
Proof.
  induction 1 as [cur|cur|cur d calls Hc|cur d calls rest ab Hc Hr IH].
  - constructor.
  - now repeat constructor.
  - constructor; [reflexivity | now apply file_call_not_hget].
  - constructor; [reflexivity|]. apply Forall_app. split; [now apply file_call_not_hget|].
    now constructor.
Qed.

(** After whole batches, Redis holds the cursor of the last one. *)
Lemma batch_log_stored uid cur evs r :
  batch_log uid cur evs false ->
  match last_batch evs with
  | None => evs = []
  | Some d => cursors_of (replay_redis evs r) uid = Some (cursor d)
  end.
Proof.
  intros H. remember false as ab eqn:Hab. revert r.
  induction H as [cur|cur|cur d calls Hc|cur d calls rest ab Hc Hr IH]; intros r;
    try discriminate.
  - reflexivity.
  - rewrite (last_batch_completed _ _ _ _ _ Hc).
    change (EvDelta cur (Some d) :: calls ++ EvHSet "cursors" uid (cursor d) :: rest)
      with ([EvDelta cur (Some d)] ++ calls ++ [EvHSet "cursors" uid (cursor d)] ++ rest).
    rewrite !replay_redis_app.
    rewrite (replay_redis_calls calls) by now apply file_call_not_hset.
    specialize (IH Hab (replay_redis [EvHSet "cursors" uid (cursor d)]
                          (replay_redis [EvDelta cur (Some d)] r))).
    destruct (last_batch rest) as [d'|]; [exact IH|]. subst rest.
    unfold cursors_of. simpl. rewrite lookup_insert_eq. simpl. apply lookup_insert_eq.
Qed.

(** A log cut by an exception is whole batches, then a listing and file
    calls only. *)
Lemma batch_log_aborted uid cur evs :
  batch_log uid cur evs true ->
  exists pre a x tl,
    evs = pre ++ EvDelta a x :: tl
    /\ Forall (fun e => is_file_call e = true) tl
    /\ batch_log uid cur pre false.
Proof.
  intros H. remember true as ab eqn:Hab.
  induction H as [cur|cur|cur d calls Hc|cur d calls rest ab Hc Hr IH]; try discriminate.
  - exists [], cur, None, []. repeat split; constructor.
  - exists [], cur, (Some d), calls. repeat split; [assumption | constructor].
  - destruct (IH Hab) as (pre & a & x & tl & -> & Htl & Hpre).
    exists (EvDelta cur (Some d) :: calls ++ EvHSet "cursors" uid (cursor d) :: pre), a, x, tl.
    split; [simpl; now rewrite <- app_assoc|]. split; [assumption|]. now constructor.
Qed.

(** ** Properties of the sync engine *)

Local Arguments String.eqb : simpl never.
Local Arguments append : simpl never.

(** Case analysis along the calls of a computation. *)
Ltac crack :=
  repeat (simpl in *;
    match goal with
    | H : (_, _) = (_, _) |- _ => injection H as ? ?; subst
    | |- context [match ?x with _ => _ end] =>
        lazymatch x with
        | context [match _ with _ => _ end] => fail
        | _ => destruct x eqn:?
        end
    end).

Ltac log_shape :=
  unfold follows; split;
  [ simpl; rewrite <- ?app_assoc; reflexivity
  | split;
    [ reflexivity
    | unfold replay_server; simpl;
      repeat match goal with
             | H : ?op = (_, _) |- context [?op] => rewrite H; simpl
             end;
      reflexivity ] ].

Section EngineFacts.
Context (sdk : SDK).

Implicit Types (w : World sdk) (c : Client sdk).

Lemma bind_ok {A B} (m : M sdk A) (k : A -> M sdk B) w a w1 :
  m w = (Ok a, w1) -> bind sdk m k w = k a w1.
Proof. unfold bind. now intros ->. Qed.

Lemma bind_raise {A B} (m : M sdk A) (k : A -> M sdk B) w e w1 :
  m w = (Raise e, w1) -> bind sdk m k w = (Raise e, w1).
Proof. unfold bind. now intros ->. Qed.

Lemma bind_unfinished {A B} (m : M sdk A) (k : A -> M sdk B) w w1 :
  m w = (Unfinished, w1) -> bind sdk m k w = (Unfinished, w1).
Proof. unfold bind. now intros ->. Qed.

(** Every entry ends, by itself or by an exception, after file calls
    only: no listing, no access to Redis. *)
Lemma process_entry_calls c entry w :
  exists evs,
    follows c w (snd (process_entry sdk c entry w)) evs
    /\ Forall (fun e => is_file_call e = true) evs
    /\ fst (process_entry sdk c entry w) <> Unfinished.
Proof.
  destruct entry as [path metadata].
  unfold process_entry, bind, client_get_file_and_metadata, client_put_file,
    client_share, call, lift, ret, raise, log.
  crack; eexists; (split; [first [apply follows_refl | log_shape]|]); split;
    try discriminate; repeat constructor.
Qed.

Lemma for_entries_calls c es w :
  exists evs,
    follows c w (snd (for_entries sdk c es w)) evs
    /\ Forall (fun e => is_file_call e = true) evs
    /\ fst (for_entries sdk c es w) <> Unfinished.
Proof.
  revert w. induction es as [|entry es IH]; intros w.
  - exists []. split; [apply follows_refl|]. split; [constructor | discriminate].
  - simpl. destruct (process_entry_calls c entry w) as (e1 & F1 & C1 & N1).
    destruct (process_entry sdk c entry w) as [[a| |] w1] eqn:E; simpl in *.
    + rewrite (bind_ok _ _ _ _ _ E).
      destruct (IH w1) as (e2 & F2 & C2 & N2).
      exists (e1 ++ e2). split; [eapply follows_trans; eassumption|].
      split; [now apply Forall_app | assumption].
    + rewrite (bind_raise _ _ _ _ _ E). exists e1. simpl.
      split; [assumption|]. split; [assumption | discriminate].
    + congruence.
Qed.

Lemma client_delta_spec c cur w :
  exists w1,
    follows c w w1
      [EvDelta cur (match fst (delta sdk c cur (server w)) with
                    | inr d => Some d | inl _ => None end)]
    /\ client_delta sdk c cur w
       = (match fst (delta sdk c cur (server w)) with
          | inr d => Ok d | inl e => Raise e end, w1).
Proof.
  unfold client_delta, call, log.
  destruct (delta sdk c cur (server w)) as [[e|d] s1] eqn:E; simpl;
    eexists; (split; [|reflexivity]); log_shape.
Qed.

Lemma hset_spec c name key value w :
  exists w1,
    follows c w w1 [EvHSet name key value] /\ hset sdk name key value w = (Ok tt, w1).
Proof. unfold hset, log. eexists. split; [|reflexivity]. log_shape. Qed.

Lemma hget_spec c name key w :
  exists w1,
    follows c w w1 [EvHGet name key]
    /\ hget sdk name key w = (Ok (redis w !! name ≫= fun h => h !! key), w1).
Proof. unfold hget, log. eexists. split; [|reflexivity]. log_shape. Qed.

(** The loop logs batch after batch: a listing, the file calls of its
    entries, the cursor write; an exception cuts the last batch short. *)
Lemma batches_log fuel c uid cur w :
  exists evs ab,
    follows c w (snd (batches sdk fuel c uid cur w)) evs
    /\ batch_log uid cur evs ab
    /\ (ab = true <-> exists e, fst (batches sdk fuel c uid cur w) = Raise e)
    /\ (fst (batches sdk fuel c uid cur w) = Unfinished ->
        List.length (batches_of evs) = fuel)
    /\ (fst (batches sdk fuel c uid cur w) = Ok tt ->
        exists d, last_batch evs = Some d /\ has_more d = false).
Proof.
  revert cur w. induction fuel as [|fuel IH]; intros cur w.
  - exists [], false. simpl. split; [apply follows_refl|]. split; [constructor|].
    split; [|split; [reflexivity | discriminate]].
    split; [discriminate | intros [e He]; discriminate].
  - cbn [batches].
    destruct (client_delta_spec c cur w) as (w1 & F1 & E1).
    destruct (fst (delta sdk c cur (server w))) as [e|d].
    { rewrite (bind_raise _ _ _ _ _ E1). exists [EvDelta cur None], true. simpl.
      split; [assumption|]. split; [constructor|]. split; [|split; discriminate].
      split; [eauto | reflexivity]. }
    rewrite (bind_ok _ _ _ _ _ E1).
    destruct (for_entries_calls c (entries d) w1) as (e2 & F2 & C2 & N2).
    destruct (for_entries sdk c (entries d) w1) as [[[]|e|] w2] eqn:E2; simpl in *;
      [ | | congruence].
    2:{ rewrite (bind_raise _ _ _ _ _ E2). exists (EvDelta cur (Some d) :: e2), true.
        simpl. split; [apply (follows_trans c w w1 w2 [_] e2); assumption|].
        split; [now constructor|]. split; [|split; discriminate].
        split; [eauto | reflexivity]. }
    rewrite (bind_ok _ _ _ _ _ E2).
    destruct (hset_spec c "cursors" uid (cursor d) w2) as (w3 & F3 & E3).
    rewrite (bind_ok _ _ _ _ _ E3).
    assert (F : follows c w w3 (EvDelta cur (Some d) :: e2 ++ [EvHSet "cursors" uid (cursor d)])).
    { apply (follows_trans c w w1 w3 [_]); [assumption|].
      eapply follows_trans; eassumption. }
    assert (B : batches_of (EvDelta cur (Some d) :: e2) = [d]).
    { change (batches_of (EvDelta cur (Some d) :: e2)) with (d :: batches_of e2).
      now rewrite batches_of_no_delta by now apply file_call_not_delta. }
    destruct (has_more d) eqn:Hm.
    + destruct (IH (Some (cursor d)) w3) as (e4 & ab & F4 & L4 & R4 & U4 & O4).
      exists (EvDelta cur (Some d) :: e2 ++ EvHSet "cursors" uid (cursor d) :: e4), ab.
      split.
      { replace (EvDelta cur (Some d) :: e2 ++ EvHSet "cursors" uid (cursor d) :: e4)
          with ((EvDelta cur (Some d) :: e2 ++ [EvHSet "cursors" uid (cursor d)]) ++ e4)
          by (simpl; now rewrite <- app_assoc).
        eapply follows_trans; eassumption. }
      split; [now constructor|]. split; [assumption|].
      change (EvDelta cur (Some d) :: e2 ++ EvHSet "cursors" uid (cursor d) :: e4)
        with ((EvDelta cur (Some d) :: e2) ++ EvHSet "cursors" uid (cursor d) :: e4).
      split.
      * intros Hu. rewrite batches_of_app, B. simpl. f_equal. now apply U4.
      * intros Ho. destruct (O4 Ho) as (d' & Hl & Hd'). exists d'. split; [|assumption].
        rewrite last_batch_app.
        change (last_batch (EvHSet "cursors" uid (cursor d) :: e4)) with (last_batch e4).
        now rewrite Hl.
    + exists (EvDelta cur (Some d) :: e2 ++ [EvHSet "cursors" uid (cursor d)]), false.
      simpl. split; [assumption|]. split; [constructor; [assumption | constructor]|].
      split; [|split; [discriminate|]].
      * split; [discriminate | intros [e He]; discriminate].
      * intros _. exists d. split; [|assumption].
        change (EvDelta cur (Some d) :: e2 ++ [EvHSet "cursors" uid (cursor d)])
          with ((EvDelta cur (Some d) :: e2) ++ [EvHSet "cursors" uid (cursor d)]).
        rewrite last_batch_app. unfold last_batch at 1. simpl.
        unfold last_batch. now rewrite B.
Qed.

Lemma process_user_no_client fuel uid w e :
  DropboxClient sdk (stored_token w uid) = inl e ->
  process_user sdk fuel uid w = (Raise e, after_reads uid w).
Proof.
  intros H. unfold process_user, bind, hget, log, lift, after_reads. simpl.
  unfold stored_token in H. rewrite H. simpl. now rewrite <- app_assoc.
Qed.

Lemma process_user_client fuel uid w c :
  DropboxClient sdk (stored_token w uid) = inr c ->
  process_user sdk fuel uid w
  = batches sdk fuel c uid (stored_cursor w uid) (after_reads uid w).
Proof.
  intros H. unfold process_user, bind, hget, log, lift, after_reads. simpl.
  unfold stored_token in H. rewrite H. simpl. now rewrite <- app_assoc.
Qed.

Lemma follows_after_reads c uid w :
  follows c w (after_reads uid w) [EvHGet "tokens" uid; EvHGet "cursors" uid].
Proof. unfold after_reads. log_shape. Qed.

(** The log of a run whose client could be built: the two reads, then
    the log of the loop. *)
Lemma process_user_log fuel uid w c :
  DropboxClient sdk (stored_token w uid) = inr c ->
  exists evs ab,
    follows c w (snd (process_user sdk fuel uid w))
      (EvHGet "tokens" uid :: EvHGet "cursors" uid :: evs)
    /\ batch_log uid (stored_cursor w uid) evs ab
    /\ (ab = true <-> exists e, fst (process_user sdk fuel uid w) = Raise e)
    /\ (fst (process_user sdk fuel uid w) = Unfinished ->
        List.length (batches_of evs) = fuel)
    /\ (fst (process_user sdk fuel uid w) = Ok tt ->
        exists d, last_batch evs = Some d /\ has_more d = false).
Proof.
  intros H. rewrite (process_user_client _ _ _ _ H).
  destruct (batches_log fuel c uid (stored_cursor w uid) (after_reads uid w))
    as (evs & ab & F & L & R).
  exists evs, ab. split; [|now split].
  apply (follows_trans c w (after_reads uid w) _ [_; _] evs); [|assumption].
  apply follows_after_reads.
Qed.

(** The loop never reads Redis: on another content of Redis it makes the
    same calls and ends the same way. *)
Lemma process_entry_frame c entry r w :
  process_entry sdk c entry (with_redis r w)
  = (fst (process_entry sdk c entry w), with_redis r (snd (process_entry sdk c entry w))).
Proof.
  destruct entry as [path metadata].
  unfold process_entry, bind, client_get_file_and_metadata, client_put_file,
    client_share, call, lift, ret, raise, log, with_redis.
  crack; reflexivity.
Qed.

Lemma for_entries_frame c es r w :
  for_entries sdk c es (with_redis r w)
  = (fst (for_entries sdk c es w), with_redis r (snd (for_entries sdk c es w))).
Proof.
  revert w. induction es as [|entry es IH]; intros w; [reflexivity|].
  cbn [for_entries]. unfold bind. rewrite process_entry_frame.
  destruct (process_entry sdk c entry w) as [[a| |] w1]; simpl; try reflexivity.
  apply IH.
Qed.

Lemma batches_frame fuel c uid cur r w :
  fst (batches sdk fuel c uid cur (with_redis r w)) = fst (batches sdk fuel c uid cur w)
  /\ server (snd (batches sdk fuel c uid cur (with_redis r w)))
     = server (snd (batches sdk fuel c uid cur w))
  /\ trace (snd (batches sdk fuel c uid cur (with_redis r w)))
     = trace (snd (batches sdk fuel c uid cur w)).
Proof.
  revert cur r w. induction fuel as [|fuel IH]; intros cur r w; [now repeat split|].
  cbn [batches]. unfold bind, client_delta, call, log. simpl.
  destruct (delta sdk c cur (server w)) as [[e|d] s1]; simpl; [now repeat split|].
  match goal with
  | |- context [for_entries sdk c (entries d) ?w0] =>
      change w0 with (with_redis r
        {| redis := redis w; server := s1;
           trace := trace w ++ [EvDelta cur (Some d)] |})
  end.
  rewrite for_entries_frame.
  destruct (for_entries sdk c (entries d) _) as [[[]| |] w2]; simpl; try now repeat split.
  unfold bind, hset, log. simpl.
  destruct (has_more d); [|now repeat split].
  apply (IH (Some (cursor d))
            (<["cursors" := <[uid := cursor d]> (default ∅ (r !! "cursors"))]> r)
            {| redis := <["cursors" := <[uid := cursor d]> (default ∅ (redis w2 !! "cursors"))]>
                          (redis w2);
               server := server w2;
               trace := trace w2 ++ [EvHSet "cursors" uid (cursor d)] |}).
Qed.

(** The fuel only bounds the number of batches: a run that ends, by
    itself or by an exception, ends the same way with any more fuel. *)
Lemma batches_fuel_mono n m c uid cur w :
  fst (batches sdk n c uid cur w) <> Unfinished -> n <= m ->
  batches sdk m c uid cur w = batches sdk n c uid cur w.
Proof.
  revert m cur w. induction n as [|n IH]; intros m cur w H Hle.
  - now destruct H.
  - destruct m as [|m]; [lia|]. cbn [batches] in *. unfold bind in *.
    destruct (client_delta sdk c cur w) as [[d|e|] w1]; try reflexivity.
    destruct (for_entries sdk c (entries d) w1) as [[[]|e|] w2]; try reflexivity.
    destruct (hset sdk "cursors" uid (cursor d) w2) as [[[]|e|] w3]; try reflexivity.
    destruct (has_more d); [|reflexivity]. apply IH; [assumption | lia].
Qed.

Lemma process_user_fuel_mono n m uid w :
  fst (process_user sdk n uid w) <> Unfinished -> n <= m ->
  process_user sdk m uid w = process_user sdk n uid w.
Proof.
  intros H Hle. destruct (DropboxClient sdk (stored_token w uid)) as [e|c] eqn:Hc.
  - now rewrite !(process_user_no_client _ _ _ _ Hc).
  - rewrite !(process_user_client _ _ _ _ Hc) in *. now apply batches_fuel_mono.
Qed.

(** A run stays unfinished only while the service says there is more:
    after a batch with [has_more = False], one more unit of fuel than
    batches listed is enough. *)
Lemma batches_finish fuel c uid cur w :
  fst (batches sdk fuel c uid cur w) = Unfinished ->
  forall d, d ∈ batches_of (drop (List.length (trace w))
                              (trace (snd (batches sdk fuel c uid cur w)))) ->
  has_more d = true.
Proof.
  revert cur w. induction fuel as [|fuel IH]; intros cur w H d Hd.
  - simpl in Hd. rewrite drop_all in Hd. now apply elem_of_nil in Hd.
  - cbn [batches] in *.
    destruct (client_delta_spec c cur w) as (w1 & F1 & E1).
    destruct (fst (delta sdk c cur (server w))) as [e|d1].
    { rewrite (bind_raise _ _ _ _ _ E1) in H. discriminate. }
    rewrite (bind_ok _ _ _ _ _ E1) in H, Hd.
    destruct (for_entries_calls c (entries d1) w1) as (e2 & F2 & C2 & N2).
    destruct (for_entries sdk c (entries d1) w1) as [[[]|e|] w2] eqn:E2; simpl in *;
      [ | | congruence].
    2:{ rewrite (bind_raise _ _ _ _ _ E2) in H. discriminate. }
    rewrite (bind_ok _ _ _ _ _ E2) in H, Hd.
    destruct (hset_spec c "cursors" uid (cursor d1) w2) as (w3 & F3 & E3).
    rewrite (bind_ok _ _ _ _ _ E3) in H, Hd.
    destruct (has_more d1) eqn:Hm; [|discriminate].
    assert (T3 : trace w3 = trace w ++ EvDelta cur (Some d1) :: e2
                                    ++ [EvHSet "cursors" uid (cursor d1)]).
    { destruct F1 as [T1 _], F2 as [T2 _], F3 as [T3 _]. rewrite T3, T2, T1.
      now rewrite <- !app_assoc. }
    destruct (batches_log fuel c uid (Some (cursor d1)) w3) as (e4 & ab & F4 & _).
    destruct F4 as [T4 _]. rewrite T4, T3, <- app_assoc, drop_app_length in Hd.
    rewrite batches_of_app in Hd. apply elem_of_app in Hd as [Hd|Hd].
    + change (d ∈ d1 :: batches_of (e2 ++ [EvHSet "cursors" uid (cursor d1)])) in Hd.
      rewrite batches_of_no_delta in Hd.
      * apply list_elem_of_singleton in Hd. now subst.
      * apply Forall_app. split; [now apply file_call_not_delta | now repeat constructor].
    + apply (IH (Some (cursor d1)) w3 H). now rewrite T4, drop_app_length.
Qed.

End EngineFacts.

(** Where a listing or a write stands in the log of a run: after the
    two reads. *)
Lemma reads_split (Q : Event -> bool) (h1 h2 x : Event) (evs pre post : list Event) :
  Q h1 = false -> Q h2 = false -> Q x = true ->
  h1 :: h2 :: evs = pre ++ x :: post ->
  exists pre', pre = h1 :: h2 :: pre' /\ evs = pre' ++ x :: post.
Proof.
  intros H1 H2 Hx E.
  destruct (app_cons_split Q [h1] pre post evs h2 x) as [(_ & -> & _) | (pre' & -> & ->)];
    [now repeat constructor | assumption | exact E | congruence | now exists pre'].
Qed.

(** ** The cursor *)

(** C9: in one run the token and the cursor are read from Redis once
    each, first of all; nothing is read from Redis afterwards.  The first
    listing asks for the cursor that was read, every later one for the
    cursor the batch before returned.  The loop does not depend on Redis:
    resumed after the two reads on any other content of Redis, it ends the
    same way with the same log and the same storage service. *)
Theorem credential_and_cursor_read_once (sdk : SDK) (fuel : nat) (uid : string)
    (w : World sdk) :
  exists evs,
    trace (snd (process_user sdk fuel uid w))
    = trace w ++ EvHGet "tokens" uid :: EvHGet "cursors" uid :: evs
    /\ Forall (fun e => is_hget e = false) evs
    /\ (forall pre a x post,
          evs = pre ++ EvDelta a x :: post ->
          match last_batch pre with
          | None => a = stored_cursor w uid
          | Some d => a = Some (cursor d)
          end)
    /\ (forall c r,
          DropboxClient sdk (stored_token w uid) = inr c ->
          fst (batches sdk fuel c uid (stored_cursor w uid) (with_redis r (after_reads uid w)))
          = fst (process_user sdk fuel uid w)
          /\ server (snd (batches sdk fuel c uid (stored_cursor w uid)
                            (with_redis r (after_reads uid w))))
             = server (snd (process_user sdk fuel uid w))
          /\ trace (snd (batches sdk fuel c uid (stored_cursor w uid)
                           (with_redis r (after_reads uid w))))
             = trace (snd (process_user sdk fuel uid w))).
Proof.
  destruct (DropboxClient sdk (stored_token w uid)) as [e|c] eqn:Hc.
  - rewrite (process_user_no_client sdk _ _ _ _ Hc). exists []. simpl.
    split; [reflexivity|]. split; [constructor|]. split; [|discriminate].
    intros pre a x post E. destruct pre; discriminate.
  - destruct (process_user_log sdk fuel uid w c Hc) as (evs & ab & F & L & _).
    exists evs. split; [apply F|]. split; [exact (batch_log_no_hget _ _ _ _ L)|]. split.
    + intros pre a x post E.
      pose proof (batch_log_request _ _ _ _ _ _ _ _ L E) as Hq.
      destruct (last_batch pre); tauto.
    + intros c' r Hc'. injection Hc' as <-.
      rewrite (process_user_client sdk _ _ _ _ Hc). apply batches_frame.
Qed.

(** ** Entries *)

Lemma ignored_true (path : string) (metadata : option Metadata) :
  metadata = None
  \/ (exists m, metadata = Some m /\ is_dir m = true)
  \/ (forall stem, path <> stem +:+ ".md") ->
  ignored path metadata = true.
Proof.
  intros [-> | [(m & -> & Hd) | Hs]]; [reflexivity | simpl; now rewrite Hd |].
  destruct metadata as [m|]; [|reflexivity]. simpl.
  destruct (endswith path ".md") eqn:E; [|apply orb_true_r].
  apply endswith_spec in E as [stem ->]. now destruct (Hs stem).
Qed.

Lemma ignored_false (stem : string) (m : Metadata) :
  is_dir m = false -> ignored (stem +:+ ".md") (Some m) = false.
Proof.
  intros Hd. simpl. rewrite Hd. simpl.
  replace (endswith (stem +:+ ".md") ".md") with true; [reflexivity|].
  symmetry. apply endswith_spec. now exists stem.
Qed.

(** C5: an entry whose metadata is [None], or says it is a directory, or
    whose path does not end in [.md], is passed over: processing it
    returns normally and leaves the world as it was (no call is made,
    nothing is logged), and a batch is processed exactly as if the entry
    were not in it. *)
Theorem ignored_entry_makes_no_call (sdk : SDK) (c : Client sdk) (path : string)
    (metadata : option Metadata) :
  metadata = None
  \/ (exists m, metadata = Some m /\ is_dir m = true)
  \/ (forall stem, path <> stem +:+ ".md") ->
  (forall w, process_entry sdk c (path, metadata) w = (Ok tt, w))
  /\ (forall before after w,
        for_entries sdk c (before ++ (path, metadata) :: after) w
        = for_entries sdk c (before ++ after) w).
Proof.
  intros H. apply ignored_true in H.
  assert (P : forall w, process_entry sdk c (path, metadata) w = (Ok tt, w)).
  { intros w. unfold process_entry. now rewrite H. }
  split; [exact P|].
  intros before after. induction before as [|b before IH]; intros w.
  - simpl. unfold bind. now rewrite P.
  - simpl. unfold bind. destruct (process_entry sdk c b w) as [[a| |] w1]; auto.
Qed.

(** What holds of every event of every entry, of the listings and of the
    accesses to Redis holds of every event of a run. *)
Section Everywhere.
Context (sdk : SDK) (Q : Event -> Prop).
Hypothesis entry_events : forall c entry (w : World sdk),
  exists evs, trace (snd (process_entry sdk c entry w)) = trace w ++ evs /\ Forall Q evs.
Hypothesis delta_event : forall a x, Q (EvDelta a x).
Hypothesis hset_event : forall n k v, Q (EvHSet n k v).
Hypothesis hget_event : forall n k, Q (EvHGet n k).

Lemma for_entries_everywhere c es (w : World sdk) :
  exists evs, trace (snd (for_entries sdk c es w)) = trace w ++ evs /\ Forall Q evs.
Proof.
  revert w. induction es as [|entry es IH]; intros w.
  - exists []. simpl. now rewrite app_nil_r.
  - cbn [for_entries]. unfold bind.
    destruct (entry_events c entry w) as (e1 & T1 & Q1).
    destruct (process_entry sdk c entry w) as [[a| |] w1]; simpl in *; eauto.
    destruct (IH w1) as (e2 & T2 & Q2). exists (e1 ++ e2).
    rewrite T2, T1, app_assoc. split; [reflexivity | now apply Forall_app].
Qed.

Lemma batches_everywhere fuel c uid cur (w : World sdk) :
  exists evs, trace (snd (batches sdk fuel c uid cur w)) = trace w ++ evs /\ Forall Q evs.
Proof.
  revert cur w. induction fuel as [|fuel IH]; intros cur w.
  - exists []. simpl. now rewrite app_nil_r.
  - cbn [batches]. unfold bind, client_delta, call, log. simpl.
    destruct (delta sdk c cur (server w)) as [[e|d] s1]; simpl.
    { exists [EvDelta cur None]. split; [reflexivity | now repeat constructor]. }
    match goal with
    | |- context [for_entries sdk c (entries d) ?w0] =>
        destruct (for_entries_everywhere c (entries d) w0) as (e2 & T2 & Q2);
        destruct (for_entries sdk c (entries d) w0) as [[[]| |] w2]
    end; simpl in *.
    2,3: exists (EvDelta cur (Some d) :: e2); rewrite T2, <- app_assoc;
         split; [reflexivity | now constructor].
    unfold hset, log. simpl. destruct (has_more d).
    + match goal with
      | |- context [batches sdk fuel c uid _ ?w3] =>
          destruct (IH (Some (cursor d)) w3) as (e4 & T4 & Q4)
      end.
      exists (EvDelta cur (Some d) :: e2 ++ EvHSet "cursors" uid (cursor d) :: e4).
      rewrite T4. simpl. rewrite T2, <- !app_assoc. split; [reflexivity|].
      constructor; [apply delta_event|]. apply Forall_app. split; [assumption|].
      now constructor.
    + exists (EvDelta cur (Some d) :: e2 ++ [EvHSet "cursors" uid (cursor d)]).
      simpl. rewrite T2, <- !app_assoc. split; [reflexivity|].
      constructor; [apply delta_event|]. apply Forall_app. split; [assumption|].
      now repeat constructor.
Qed.

Lemma process_user_everywhere fuel uid (w : World sdk) :
  exists evs, trace (snd (process_user sdk fuel uid w)) = trace w ++ evs /\ Forall Q evs.
Proof.
  destruct (DropboxClient sdk (stored_token w uid)) as [e|c] eqn:Hc.
  - rewrite (process_user_no_client sdk _ _ _ _ Hc). eexists. split; [reflexivity|].
    now repeat constructor.
  - rewrite (process_user_client sdk _ _ _ _ Hc).
    destruct (batches_everywhere fuel c uid (stored_cursor w uid) (after_reads uid w))
      as (evs & T & H).
    exists (EvHGet "tokens" uid :: EvHGet "cursors" uid :: evs). rewrite T. simpl.
    rewrite <- app_assoc. split; [reflexivity | now repeat constructor].
Qed.

End Everywhere.

(** ** Documents that carry the marker *)

Lemma html_name_is_not_source (path : string) :
  endswith path ".md" = true -> html_name_of path <> path.
Proof. intros E. destruct (html_name_differs path) as [H|H]; congruence. Qed.

Lemma ignored_markdown (path : string) (metadata : option Metadata) :
  ignored path metadata = false -> endswith path ".md" = true.
Proof.
  destruct metadata as [m|]; simpl; [|discriminate].
  destruct (is_dir m); simpl; [discriminate|]. now destruct (endswith path ".md").
Qed.

(** An entry whose document starts with the marker gets no share link
    and no write to its source. *)
Lemma annotated_entry_log (sdk : SDK) (c : Client sdk) (path : string)
    (metadata : option Metadata) (w : World sdk) (raw md : string) (m' : Metadata)
    (s1 : Server sdk) :
  get_file_and_metadata sdk c path (server w) = (inr (raw, m'), s1) ->
  decode raw = inr md ->
  first_line md = marker ->
  exists evs,
    trace (snd (process_entry sdk c (path, metadata) w)) = trace w ++ evs
    /\ Forall (fun e => is_share e = false /\ forall x o, e <> EvPutFile path x o) evs.
Proof.
  intros Hg Hdec Hm. unfold process_entry.
  destruct (ignored path metadata) eqn:Hi.
  { exists []. simpl. now rewrite app_nil_r. }
  pose proof (html_name_is_not_source path (ignored_markdown _ _ Hi)) as Hne.
  unfold bind, client_get_file_and_metadata, client_put_file, call, lift, ret, raise, log.
  rewrite Hg. simpl. rewrite Hdec, <- Hm, String.eqb_refl. simpl.
  crack; eexists; (split; [rewrite <- ?app_assoc; reflexivity|]);
    repeat (constructor; [split; [reflexivity | congruence]|]); constructor.
Qed.

(** C2: for a uid with no stored token the run fails and changes
    nothing.  [redis_client.hget] gives [None], which goes to
    [DropboxClient(token)]; the constructor refuses a token that is
    neither a string nor a session, and its exception leaves the run
    after the two reads of Redis: no listing, no file read or write, no
    share link, no cursor write, Redis and the service as they were. *)
Theorem missing_token_refused_by_client (sdk : SDK) (fuel : nat) (uid : string)
    (w : World sdk) (e : exn) :
  stored_token w uid = None ->
  DropboxClient sdk None = inl e ->
  fst (process_user sdk fuel uid w) = Raise e
  /\ trace (snd (process_user sdk fuel uid w))
     = trace w ++ [EvHGet "tokens" uid; EvHGet "cursors" uid]
  /\ redis (snd (process_user sdk fuel uid w)) = redis w
  /\ server (snd (process_user sdk fuel uid w)) = server w.
Proof.
  intros Ht Hc. rewrite <- Ht in Hc.
  rewrite (process_user_no_client sdk fuel uid w e Hc). now repeat split.
Qed.

(** ** The webhook gateway *)

Lemma hex_digit_lower (d : Z) : (0 <= d < 16)%Z -> lower_ascii (Sha256.hex_digit d) = Sha256.hex_digit d.
Proof.
  intros H.
  assert (d = 0 \/ d = 1 \/ d = 2 \/ d = 3 \/ d = 4 \/ d = 5 \/ d = 6 \/ d = 7 \/ d = 8
          \/ d = 9 \/ d = 10 \/ d = 11 \/ d = 12 \/ d = 13 \/ d = 14 \/ d = 15)%Z as Hd by lia.
  repeat (destruct Hd as [-> | Hd]; [reflexivity|]). now subst.
Qed.

Lemma be_bytes_range (n : nat) (x : Z) :
  Forall (fun b => (0 <= b < 256)%Z) (Sha256.be_bytes n x).
Proof.
  induction n as [|n IH]; simpl; constructor; [|exact IH].
  apply Z.mod_pos_bound. lia.
Qed.

Lemma digest_range (msg : list Z) : Forall (fun b => (0 <= b < 256)%Z) (Sha256.digest msg).
Proof.
  unfold Sha256.digest. apply List.Forall_flat_map. apply List.Forall_forall.
  intros x _. apply be_bytes_range.
Qed.

Lemma hex_lower (bs : list Z) :
  Forall (fun b => (0 <= b < 256)%Z) bs -> lower (Sha256.hex bs) = Sha256.hex bs.
Proof.
  induction 1 as [|b bs Hb _ IH]; [reflexivity|].
  cbn [Sha256.hex lower]. rewrite IH, !hex_digit_lower; [reflexivity| |].
  - apply Z.mod_pos_bound. lia.
  - split; [apply Z.div_pos; lia | apply Z.div_lt_upper_bound; lia].
Qed.

(** [hexdigest()] prints lower-case digits. *)
Lemma expected_signature_lower (APP_SECRET body : string) :
  lower (expected_signature APP_SECRET body) = expected_signature APP_SECRET body.
Proof.
  unfold expected_signature, Sha256.hmac_sha256_hexdigest, Sha256.hmac.
  apply hex_lower, digest_range.
Qed.

(** C3 (amended): [validate_request] accepts exactly when the signature
    header is there and is, character for character, the hexadecimal
    HMAC-SHA256 of the raw body under the secret.  The comparison is the
    equality of strings, so an accepted signature is in lower case, as
    [hexdigest()] prints it.  An accepted signature is refused for any
    body whose HMAC is another one. *)
Theorem signature_compared_exactly (APP_SECRET : string) (req : Request) :
  (validate_request APP_SECRET req = true
   <-> signature req = Some (Sha256.hmac_sha256_hexdigest APP_SECRET (data req)))
  /\ (validate_request APP_SECRET req = true ->
      exists s, signature req = Some s /\ lower s = s)
  /\ (forall body',
        validate_request APP_SECRET req = true ->
        Sha256.hmac_sha256_hexdigest APP_SECRET body'
        <> Sha256.hmac_sha256_hexdigest APP_SECRET (data req) ->
        validate_request APP_SECRET
          {| signature := signature req; data := body'; json := json req |} = false).
Proof.
  assert (Hiff : validate_request APP_SECRET req = true
                 <-> signature req = Some (Sha256.hmac_sha256_hexdigest APP_SECRET (data req))).
  { unfold validate_request, expected_signature.
    destruct (signature req) as [s|]; [|split; discriminate].
    rewrite String.eqb_eq. split; [now intros -> | now intros [= ->]]. }
  split; [exact Hiff|]. split.
  - intros H. apply Hiff in H. eexists. split; [exact H|].
    apply expected_signature_lower.
  - intros body' H Hne. apply Hiff in H.
    unfold validate_request, expected_signature. simpl. rewrite H.
    apply String.eqb_neq. congruence.
Qed.

(** C7: a request whose signature does not verify is answered by
    [abort(403)] and starts no thread.  One whose signature verifies and
    whose body lists users gets the empty body back (status 200) after
    one thread was started for each listed user, in the order of the
    list, repeated users included; the handler runs no sync itself and
    joins no thread. *)
Theorem webhook_rejects_or_schedules (APP_SECRET : string) (req : Request) :
  (validate_request APP_SECRET req = false ->
   webhook APP_SECRET req = (inl (HTTPException 403), []))
  /\ (forall j d uids,
        validate_request APP_SECRET req = true ->
        json req = inr j ->
        subscript j "delta" = inr d ->
        subscript d "users" = inr (JArray uids) ->
        webhook APP_SECRET req = (inr EmptyString, map ProcessUserThread uids)).
Proof.
  unfold webhook. split.
  - now intros ->.
  - intros j d uids -> -> Hd Hu. simpl. rewrite Hd. simpl. now rewrite Hu.
Qed.

(** C10: a request whose signature verifies and whose body is an object
    without the key [delta], or with an object under [delta] that has no
    key [users], leaves the handler with a [KeyError]: no response is
    returned, and no thread was started. *)
Theorem malformed_body_raises_key_error (APP_SECRET : string) (req : Request)
    (fields : list (string * Json)) :
  validate_request APP_SECRET req = true ->
  json req = inr (JObject fields) ->
  (assoc "delta" fields = None ->
   webhook APP_SECRET req = (inl (KeyError "delta"), []))
  /\ (forall inner,
        assoc "delta" fields = Some (JObject inner) ->
        assoc "users" inner = None ->
        webhook APP_SECRET req = (inl (KeyError "users"), [])).
Proof.
  intros Hv Hj. unfold webhook. rewrite Hv, Hj. simpl. split.
  - now intros ->.
  - intros inner -> Hu. simpl. now rewrite Hu.
Qed.

(** ** The program on concrete runs and requests *)

Example sha256_abc :
  Sha256.sha256_hexdigest "abc"
  = "ba7816bf8f01cfea414140de5dae2223b00361a396177a9cb410ff61f20015ad".
Proof. vm_compute. reflexivity. Qed.

Example sha256_empty :
  Sha256.sha256_hexdigest EmptyString
  = "e3b0c44298fc1c149afbf4c8996fb92427ae41e4649b934ca495991b7852b855".
Proof. vm_compute. reflexivity. Qed.

Example sha256_two_blocks :
  Sha256.sha256_hexdigest "aaaaaaaaaaaaaaaaaaaaaaaaaaaaaaaaaaaaaaaaaaaaaaaaaaaaaaaa"
  = "b35439a4ac6f0948b6d6f9e3c6af0f5f590ce20f1bde7090ef7970686ec6738a".
Proof. vm_compute. reflexivity. Qed.

(** RFC 4231, test case 2. *)
Example hmac_rfc4231_case2 :
  Sha256.hmac_sha256_hexdigest "Jefe" "what do ya want for nothing?"
  = "5bdcc146bf60754e6a042426089575c75a003f089d2739839dec58b964ec3843".
Proof. vm_compute. reflexivity. Qed.

(** A key longer than the block is hashed first. *)
Example hmac_long_key :
  Sha256.hmac_sha256_hexdigest
    "kkkkkkkkkkkkkkkkkkkkkkkkkkkkkkkkkkkkkkkkkkkkkkkkkkkkkkkkkkkkkkkkkkkkkk"
    Scenario.body_users
  = "3dbb65096d1fc096a9096a8b4d264116223aa9ad4ede377fff89c4e6d09595f4".
Proof. vm_compute. reflexivity. Qed.

(** [for uid in v] over a string goes by character: the two bytes of
    U+00E9 are one item. *)
Example iterate_by_character :
  iterate (JString (String (ascii_of_nat 195) (String (ascii_of_nat 169) "x")))
  = inr [ JString (String (ascii_of_nat 195) (String (ascii_of_nat 169) EmptyString));
          JString "x" ].
Proof. reflexivity. Qed.

(** The first run on a fresh document: HTML, share link, annotation,
    cursor. *)
Example first_run_publishes :
  fst (process_user Scenario.sdk 5 "u1" Scenario.fresh) = Ok tt
  /\ Fake.files (server Scenario.after_first_run) !! "/notes.html" = Some "<p># Hello</p>"
  /\ Fake.files (server Scenario.after_first_run) !! "/notes.md" = Some Fake.annotated
  /\ stored_cursor Scenario.after_first_run "u1" = Some "c1".
Proof. vm_compute. repeat split. Qed.

(** The second run finds the document annotated and the service reports
    it again: no share link and no write to [/notes.md], but
    [/notes.html] is written once more. *)
Lemma second_run_rewrites_html :
  first_line <$> (Fake.files (server Scenario.after_first_run) !! "/notes.md") = Some marker
  /\ fst (process_user Scenario.sdk 5 "u1" Scenario.after_first_run) = Ok tt
  /\ List.filter is_put
       (skipn (List.length (trace Scenario.after_first_run)) (trace Scenario.after_second_run))
     = [EvPutFile "/notes.html" ("<p>" +:+ Fake.annotated +:+ "</p>") true]
  /\ List.filter is_hset
       (skipn (List.length (trace Scenario.after_first_run)) (trace Scenario.after_second_run))
     = [EvHSet "cursors" "u1" "c2"]
  /\ Fake.files (server Scenario.after_second_run) !! "/notes.md"
     = Fake.files (server Scenario.after_first_run) !! "/notes.md".
Proof. vm_compute. repeat split. Qed.

Lemma missing_token_witness :
  fst (process_user (Fake.sdk_of true) 5 "u9" (Scenario.nobody true))
  = Raise (SdkError "ValueError")
  /\ trace (snd (process_user (Fake.sdk_of true) 5 "u9" (Scenario.nobody true)))
     = trace (Scenario.nobody true) ++ [EvHGet "tokens" "u9"; EvHGet "cursors" "u9"]
  /\ redis (snd (process_user (Fake.sdk_of true) 5 "u9" (Scenario.nobody true)))
     = redis (Scenario.nobody true)
  /\ server (snd (process_user (Fake.sdk_of true) 5 "u9" (Scenario.nobody true)))
     = server (Scenario.nobody true).
Proof.
  apply (missing_token_refused_by_client (Fake.sdk_of true) 5 "u9" (Scenario.nobody true)
           (SdkError "ValueError")); vm_compute; reflexivity.
Defined.

Lemma signature_witness :
  signature Scenario.notification
  = Some (Sha256.hmac_sha256_hexdigest Scenario.secret (data Scenario.notification)).
Proof.
  apply (proj1 (proj1 (signature_compared_exactly Scenario.secret Scenario.notification))).
  vm_compute. reflexivity.
Defined.

(** The signature in upper case is the same hexadecimal number and is
    refused; and a request that is refused stays refused when one byte of
    its body changes. *)
Lemma upper_case_signature_refused :
  validate_request Scenario.secret Scenario.notification = true
  /\ from_option
       (fun s => same_hex_ignoring_case s
                   (Sha256.hmac_sha256_hexdigest Scenario.secret (data Scenario.notification_upper)))
       false (signature Scenario.notification_upper) = true
  /\ validate_request Scenario.secret Scenario.notification_upper = false
  /\ validate_request Scenario.secret Scenario.forged = false
  /\ validate_request Scenario.secret Scenario.forged_mutated = false.
Proof. vm_compute. repeat split. Qed.

Lemma ignored_entry_witness :
  (forall w : World Scenario.sdk,
      process_entry Scenario.sdk "tok" ("/photo.png", Some {| is_dir := false |}) w = (Ok tt, w))
  /\ (forall before after (w : World Scenario.sdk),
        for_entries Scenario.sdk "tok"
          (before ++ ("/photo.png", Some {| is_dir := false |}) :: after) w
        = for_entries Scenario.sdk "tok" (before ++ after) w).
Proof.
  apply (ignored_entry_makes_no_call Scenario.sdk "tok" "/photo.png"
           (Some {| is_dir := false |})).
  right. right. intros stem E.
  assert (H : endswith "/photo.png" ".md" = true) by (apply endswith_spec; eauto).
  vm_compute in H. discriminate.
Defined.

Lemma webhook_witness :
  webhook Scenario.secret Scenario.notification
  = (inr EmptyString, [ProcessUserThread (JNumber 12345); ProcessUserThread (JNumber 67890)]).
Proof.
  apply (proj2 (webhook_rejects_or_schedules Scenario.secret Scenario.notification)
           (JObject [("delta", JObject [("users", JArray [JNumber 12345; JNumber 67890])])])
           (JObject [("users", JArray [JNumber 12345; JNumber 67890])])
           [JNumber 12345; JNumber 67890]);
    vm_compute; reflexivity.
Defined.

(** Two batches into a run that has more to do: the cursor of the second
    batch is the one stored. *)
Example two_batches_in :
  fst (process_user Scenario.sdk 2 "u1" Scenario.endless) = Unfinished
  /\ batches_of (trace (snd (process_user Scenario.sdk 2 "u1" Scenario.endless)))
     = [ {| entries := []; cursor := "c1"; has_more := true |};
         {| entries := []; cursor := "c2"; has_more := true |} ]
  /\ stored_cursor (snd (process_user Scenario.sdk 2 "u1" Scenario.endless)) "u1" = Some "c2".
Proof. vm_compute. repeat split. Qed.

(** The same run, looked at: the second batch fails on its file, the
    cursor of the first batch stays, and so does its annotation. *)
Example failed_second_batch :
  fst (process_user Scenario.sdk 5 "u1" Scenario.two_batches) = Raise (SdkError "404")
  /\ stored_cursor (snd (process_user Scenario.sdk 5 "u1" Scenario.two_batches)) "u1"
     = Some "c1"
  /\ Fake.files (server (snd (process_user Scenario.sdk 5 "u1" Scenario.two_batches)))
       !! "/notes.md" = Some Fake.annotated.
Proof. vm_compute. repeat split. Qed.

Lemma malformed_body_witness :
  validate_request Scenario.secret Scenario.empty_object = true
  /\ webhook Scenario.secret Scenario.empty_object = (inl (KeyError "delta"), [])
  /\ validate_request Scenario.secret Scenario.empty_delta = true
  /\ webhook Scenario.secret Scenario.empty_delta = (inl (KeyError "users"), []).
Proof.
  assert (H1 : validate_request Scenario.secret Scenario.empty_object = true)
    by (vm_compute; reflexivity).
  assert (H2 : validate_request Scenario.secret Scenario.empty_delta = true)
    by (vm_compute; reflexivity).
  split; [exact H1|]. split; [|split; [exact H2|]].
  - apply (proj1 (malformed_body_raises_key_error Scenario.secret Scenario.empty_object
                    [] H1 eq_refl)). reflexivity.
  - apply (proj2 (malformed_body_raises_key_error Scenario.secret Scenario.empty_delta
                    [("delta", JObject [])] H2 eq_refl) []); reflexivity.
Defined.

(** ** More on splitting, and on the annotation *)

Lemma has_char_append (c : ascii) (a b : string) :
  has_char c (a +:+ b) = has_char c a || has_char c b.
Proof.
  induction a as [|x a IH]; [reflexivity|].
  change (has_char c (String x (a +:+ b)) = has_char c (String x a) || has_char c b).
  cbn [has_char]. now rewrite IH, orb_assoc.
Qed.

Lemma split_no_sep (sep : ascii) (a : string) :
  has_char sep a = false -> split sep a = [a].
Proof.
  induction a as [|x a IH]; [reflexivity|]. cbn [has_char split].
  intros H. apply orb_false_iff in H as [Hx Ha]. now rewrite Hx, (IH Ha).
Qed.

Lemma split_app_sep (sep : ascii) (a b : string) :
  has_char sep a = false -> split sep (a +:+ String sep b) = a :: split sep b.
Proof.
  induction a as [|x a IH]; intros H.
  - change (split sep (String sep b) = EmptyString :: split sep b).
    cbn [split]. now rewrite Ascii.eqb_refl.
  - cbn [has_char] in H. apply orb_false_iff in H as [Hx Ha].
    change (split sep (String x (a +:+ String sep b)) = String x a :: split sep b).
    cbn [split]. now rewrite Hx, (IH Ha).
Qed.

Lemma split_length (sep : ascii) (s : string) :
  List.length (split sep s) = S (count_char sep s).
Proof.
  induction s as [|c s IH]; [reflexivity|]. cbn [split count_char].
  destruct (Ascii.eqb c sep); cbn [List.length]; [now rewrite IH|].
  destruct (split sep s); cbn [List.length] in *; lia.
Qed.

(** The first piece of a split has no separator in it, and the string is
    that piece alone or that piece, a separator and the rest. *)
Lemma split_head (sep : ascii) (s x : string) (xs : list string) :
  split sep s = x :: xs ->
  has_char sep x = false
  /\ ((xs = [] /\ s = x) \/ exists rest, s = x +:+ String sep rest /\ xs = split sep rest).
Proof.
  revert x xs. induction s as [|c s IH]; intros x xs E.
  - injection E as <- <-. split; [reflexivity | now left].
  - cbn [split] in E. destruct (Ascii.eqb c sep) eqn:Ec.
    + injection E as <- <-. apply Ascii.eqb_eq in Ec as ->.
      split; [reflexivity|]. right. now exists s.
    + destruct (split sep s) as [|y ys] eqn:Es.
      * pose proof (split_length sep s) as Hl. rewrite Es in Hl. discriminate.
      * injection E as <- <-. destruct (IH y ys eq_refl) as [Hy Hs].
        cbn [has_char]. rewrite Ec, Hy. split; [reflexivity|].
        destruct Hs as [[-> ->] | (rest & -> & ->)]; [now left|].
        right. now exists rest.
Qed.

Lemma url_comment_shape (file_key url_name md : string) :
  url_comment_of file_key url_name +:+ md
  = marker +:+ String (ascii_of_nat 10)
      (("https://dl.dropboxusercontent.com/s/" +:+ file_key +:+ url_name)
       +:+ String (ascii_of_nat 10) ("-->" +:+ String (ascii_of_nat 10) md)).
Proof.
  unfold url_comment_of. rewrite !append_assoc. reflexivity.
Qed.

(** X1: the text written back to the source starts with the marker line,
    whatever the file key, the quoted name and the document are: the next
    time the document is processed, the test of its first line finds it
    published. *)
Theorem annotation_is_detected (file_key url_name md : string) :
  first_line (url_comment_of file_key url_name +:+ md) = marker.
Proof.
  rewrite url_comment_shape. unfold first_line.
  now rewrite split_app_sep by reflexivity.
Qed.

(** X2: a document counts as published exactly when it is the marker
    alone or starts with the marker followed by a line feed.  (So a
    marker followed by a carriage return, or by a space, is not one.) *)
Theorem first_line_marker_iff (md : string) :
  first_line md = marker
  <-> md = marker \/ exists rest, md = marker +:+ String (ascii_of_nat 10) rest.
Proof.
  unfold first_line. split.
  - intros H. destruct (split (ascii_of_nat 10) md) as [|x xs] eqn:E.
    + pose proof (split_length (ascii_of_nat 10) md) as Hl. rewrite E in Hl. discriminate.
    + subst x. destruct (split_head _ _ _ _ E) as [_ [[_ ->] | (rest & -> & _)]];
        [now left | right; now exists rest].
  - intros [-> | (rest & ->)]; [reflexivity|].
    now rewrite split_app_sep by reflexivity.
Qed.

(** X3: when neither the file key nor the quoted name holds a line feed,
    the annotation is exactly three lines put before the document: split
    into lines, the new text is the marker, the download URL, the closing
    [-->], and then the lines of the document as they were. *)
Theorem annotation_is_three_lines (file_key url_name md : string) :
  has_char (ascii_of_nat 10) file_key = false ->
  has_char (ascii_of_nat 10) url_name = false ->
  split (ascii_of_nat 10) (url_comment_of file_key url_name +:+ md)
  = marker
    :: ("https://dl.dropboxusercontent.com/s/" +:+ file_key +:+ url_name)
    :: "-->"
    :: split (ascii_of_nat 10) md.
Proof.
  intros Hk Hu. rewrite url_comment_shape.
  rewrite split_app_sep by reflexivity.
  rewrite split_app_sep by (rewrite !has_char_append, Hk, Hu; reflexivity).
  now rewrite split_app_sep by reflexivity.
Qed.

Lemma annotation_three_lines_witness :
  split (ascii_of_nat 10) (url_comment_of "k3y" "/notes.html" +:+ "# Hello")
  = [ marker; "https://dl.dropboxusercontent.com/s/" +:+ "k3y" +:+ "/notes.html"; "-->";
      "# Hello" ].
Proof.
  apply (annotation_is_three_lines "k3y" "/notes.html" "# Hello"); reflexivity.
Defined.

(** X4: from a share URL [scheme//host/segment/key/rest], with no slash
    in the scheme, the host, the segment and the key, the file key taken
    is [key]; so it is from such a URL that ends with the key. *)
Theorem file_key_of_share_url (scheme host segment key rest : string) :
  has_char slash scheme = false ->
  has_char slash host = false ->
  has_char slash segment = false ->
  has_char slash key = false ->
  file_key_of (Some (scheme +:+ String slash (String slash
                       (host +:+ String slash (segment +:+ String slash
                          (key +:+ String slash rest)))))) = inr key
  /\ file_key_of (Some (scheme +:+ String slash (String slash
                          (host +:+ String slash (segment +:+ String slash key))))) = inr key.
Proof.
  intros Hs Hh Hg Hk. unfold file_key_of. split.
  - rewrite (split_app_sep slash scheme) by assumption.
    change (String slash (host +:+ ?x)) with (EmptyString +:+ String slash (host +:+ x)).
    rewrite (split_app_sep slash EmptyString) by reflexivity.
    rewrite (split_app_sep slash host), (split_app_sep slash segment),
      (split_app_sep slash key) by assumption.
    reflexivity.
  - rewrite (split_app_sep slash scheme) by assumption.
    change (String slash (host +:+ ?x)) with (EmptyString +:+ String slash (host +:+ x)).
    rewrite (split_app_sep slash EmptyString) by reflexivity.
    rewrite (split_app_sep slash host), (split_app_sep slash segment) by assumption.
    rewrite (split_no_sep slash key) by assumption.
    reflexivity.
Qed.

Lemma file_key_witness :
  file_key_of (Some ("https:" +:+ String slash (String slash
                       ("www.dropbox.com" +:+ String slash ("s" +:+ String slash
                          ("k3y" +:+ String slash "notes.html?dl=0")))))) = inr "k3y"
  /\ file_key_of (Some ("https:" +:+ String slash (String slash
                          ("www.dropbox.com" +:+ String slash ("s" +:+ String slash "k3y")))))
     = inr "k3y".
Proof.
  apply (file_key_of_share_url "https:" "www.dropbox.com" "s" "k3y" "notes.html?dl=0");
    reflexivity.
Defined.

Lemma file_key_error_kinds (share_url : option string) (e : exn) :
  file_key_of share_url = inl e -> e = AttributeError \/ e = IndexError.
Proof.
  unfold file_key_of. destruct share_url as [u|]; [|intros [= <-]; now left].
  destruct (split slash u !! 4); [discriminate | intros [= <-]; now right].
Qed.

(** X5: taking the file key fails with [IndexError] exactly when the
    share URL has fewer than four slashes, and with [AttributeError]
    exactly when the share result has no [url]. *)
Theorem file_key_errors (share_url : option string) :
  (file_key_of share_url = inl AttributeError <-> share_url = None)
  /\ (file_key_of share_url = inl IndexError
      <-> exists u, share_url = Some u /\ count_char slash u < 4)
  /\ (forall e, file_key_of share_url = inl e -> e = AttributeError \/ e = IndexError).
Proof.
  unfold file_key_of. destruct share_url as [u|].
  - pose proof (split_length slash u) as Hl.
    destruct (split slash u !! 4) as [k|] eqn:E.
    + apply lookup_lt_Some in E.
      split; [split; discriminate|]. split; [|discriminate].
      split; [discriminate|]. intros (u' & [= <-] & Hc). lia.
    + apply lookup_ge_None in E.
      split; [split; discriminate|]. split; [|intros e [= <-]; now right].
      split; [|reflexivity]. intros _. exists u. split; [reflexivity | lia].
  - split; [now split|]. split; [|intros e [= <-]; now left].
    split; [discriminate|]. intros (u & Hu & _). discriminate.
Qed.

(** ** More on entries *)

(** Reduction that leaves the string operations of an entry folded. *)
Ltac reduce := cbn -[file_key_of html_name_of url_comment_of append].
Ltac reduce_in_all := cbn -[file_key_of html_name_of url_comment_of append] in *.

Lemma html_name_is_html (path : string) : endswith (html_name_of path) ".html" = true.
Proof. apply endswith_spec. now exists (drop_last 3 path). Qed.

(** X6: a document that is not annotated yet, with every call
    succeeding, is published by exactly four calls, in this order: the
    read of the source, the write of the HTML beside it, a long share
    link for the HTML, and the write of the source with the annotation
    put before the text that was read.  The entry then ends normally. *)
Theorem fresh_entry_published (sdk : SDK) (c : Client sdk) (path : string) (m m' : Metadata)
    (w : World sdk) (raw md html url file_key : string) (s1 s2 s3 s4 : Server sdk) :
  ignored path (Some m) = false ->
  get_file_and_metadata sdk c path (server w) = (inr (raw, m'), s1) ->
  decode raw = inr md ->
  markdown sdk md = inr html ->
  put_file sdk c (html_name_of path) html true s1 = (inr tt, s2) ->
  first_line md <> marker ->
  share sdk c (html_name_of path) false s2 = (inr (Some url), s3) ->
  file_key_of (Some url) = inr file_key ->
  put_file sdk c path (url_comment_of file_key (quote sdk (html_name_of path)) +:+ md) true s3
  = (inr tt, s4) ->
  process_entry sdk c (path, Some m) w
  = (Ok tt,
     {| redis := redis w; server := s4;
        trace := trace w
          ++ [ EvGetFile path;
               EvPutFile (html_name_of path) html true;
               EvShare (html_name_of path) false;
               EvPutFile path
                 (url_comment_of file_key (quote sdk (html_name_of path)) +:+ md) true ] |}).
Proof.
  intros Hi Hg Hdec Hmd Hp Hm Hs Hk Hp2.
  unfold process_entry. rewrite Hi.
  unfold bind, client_get_file_and_metadata, client_put_file, client_share, call,
    lift, ret, raise, log.
  rewrite Hg. reduce. rewrite Hdec. reduce. rewrite Hmd. reduce.
  rewrite Hp. reduce.
  apply not_eq_sym, String.eqb_neq in Hm. rewrite Hm. reduce.
  rewrite Hs. reduce. rewrite Hk. reduce.
  rewrite Hp2. reduce.
  now rewrite <- !app_assoc.
Qed.

Lemma fresh_entry_witness :
  process_entry Scenario.sdk "tok" ("/notes.md", Some {| is_dir := false |}) Scenario.fresh
  = (Ok tt,
     {| redis := redis Scenario.fresh;
        server := ({| Fake.files := {[ "/notes.md" := Fake.annotated;
                                       "/notes.html" := "<p># Hello</p>" ]};
                      Fake.feed := Fake.feed (server Scenario.fresh) |}
                   : Server Scenario.sdk);
        trace := trace Scenario.fresh
          ++ [ EvGetFile "/notes.md";
               EvPutFile (html_name_of "/notes.md") "<p># Hello</p>" true;
               EvShare (html_name_of "/notes.md") false;
               EvPutFile "/notes.md"
                 (url_comment_of "k3y" (quote Scenario.sdk (html_name_of "/notes.md"))
                  +:+ "# Hello") true ] |}).
Proof.
  apply (fresh_entry_published Scenario.sdk "tok" "/notes.md" {| is_dir := false |}
           {| is_dir := false |} Scenario.fresh "# Hello" "# Hello" "<p># Hello</p>"
           "https://www.dropbox.com/s/k3y/page.html" "k3y"
           (server Scenario.fresh)
           ({| Fake.files := {[ "/notes.md" := "# Hello"; "/notes.html" := "<p># Hello</p>" ]};
               Fake.feed := Fake.feed (server Scenario.fresh) |} : Server Scenario.sdk)
           ({| Fake.files := {[ "/notes.md" := "# Hello"; "/notes.html" := "<p># Hello</p>" ]};
               Fake.feed := Fake.feed (server Scenario.fresh) |} : Server Scenario.sdk));
    try (vm_compute; reflexivity).
  vm_compute. discriminate.
Defined.

(** X7: when the source cannot be read, or is not UTF-8, or cannot be
    rendered, the entry ends with that exception after the read alone:
    nothing has been written and no share link made. *)
Theorem unreadable_entry_writes_nothing (sdk : SDK) (c : Client sdk) (path : string)
    (m : Metadata) (w : World sdk) (e : exn) :
  ignored path (Some m) = false ->
  fst (get_file_and_metadata sdk c path (server w)) = inl e
  \/ (exists raw m',
        fst (get_file_and_metadata sdk c path (server w)) = inr (raw, m')
        /\ (decode raw = inl e
            \/ exists md, decode raw = inr md /\ markdown sdk md = inl e)) ->
  process_entry sdk c (path, Some m) w
  = (Raise e,
     {| redis := redis w;
        server := snd (get_file_and_metadata sdk c path (server w));
        trace := trace w ++ [EvGetFile path] |}).
Proof.
  intros Hi H. unfold process_entry. rewrite Hi.
  unfold bind, client_get_file_and_metadata, call, lift, ret, raise, log.
  destruct (get_file_and_metadata sdk c path (server w)) as [r s1]. reduce_in_all.
  destruct H as [-> | (raw & m' & -> & [Hd | (md & Hd & Hm)])]; reduce.
  - reflexivity.
  - now rewrite Hd.
  - rewrite Hd. reduce. now rewrite Hm.
Qed.

Lemma unreadable_entry_witness :
  process_entry Scenario.sdk "tok" ("/notes.md", Some {| is_dir := false |}) Cases.binary
  = (Raise UnicodeDecodeError,
     {| redis := redis Cases.binary;
        server := snd (get_file_and_metadata Scenario.sdk "tok" "/notes.md"
                         (server Cases.binary));
        trace := trace Cases.binary ++ [EvGetFile "/notes.md"] |}).
Proof.
  apply (unreadable_entry_writes_nothing Scenario.sdk "tok" "/notes.md"
           {| is_dir := false |} Cases.binary UnicodeDecodeError); [reflexivity|].
  right. exists (String (ascii_of_nat 255) "x"), {| is_dir := false |}.
  split; [reflexivity|]. left. vm_compute. reflexivity.
Defined.

(** X8: when the share result has no usable URL (no [url], or fewer than
    five pieces between slashes), the entry ends with [AttributeError] or
    [IndexError] after the HTML was written and the link asked for: the
    HTML stays, the source is not written. *)
Theorem bad_share_url_leaves_source (sdk : SDK) (c : Client sdk) (path : string)
    (m m' : Metadata) (w : World sdk) (raw md html : string) (share_url : option string)
    (e : exn) (s1 s2 s3 : Server sdk) :
  ignored path (Some m) = false ->
  get_file_and_metadata sdk c path (server w) = (inr (raw, m'), s1) ->
  decode raw = inr md ->
  markdown sdk md = inr html ->
  put_file sdk c (html_name_of path) html true s1 = (inr tt, s2) ->
  first_line md <> marker ->
  share sdk c (html_name_of path) false s2 = (inr share_url, s3) ->
  file_key_of share_url = inl e ->
  process_entry sdk c (path, Some m) w
  = (Raise e,
     {| redis := redis w; server := s3;
        trace := trace w
          ++ [ EvGetFile path;
               EvPutFile (html_name_of path) html true;
               EvShare (html_name_of path) false ] |})
  /\ (e = AttributeError \/ e = IndexError).
Proof.
  intros Hi Hg Hdec Hmd Hp Hm Hs Hk. split; [|exact (file_key_error_kinds _ _ Hk)].
  unfold process_entry. rewrite Hi.
  unfold bind, client_get_file_and_metadata, client_put_file, client_share, call,
    lift, ret, raise, log.
  rewrite Hg. reduce. rewrite Hdec. reduce. rewrite Hmd. reduce.
  rewrite Hp. reduce.
  apply not_eq_sym, String.eqb_neq in Hm. rewrite Hm. reduce.
  rewrite Hs. reduce. rewrite Hk. reduce.
  now rewrite <- !app_assoc.
Qed.

Lemma bad_share_url_witness :
  process_entry Cases.linkless_sdk "tok" ("/notes.md", Some {| is_dir := false |})
    Cases.linkless
  = (Raise IndexError,
     {| redis := redis Cases.linkless;
        server := ({| Fake.files := {[ "/notes.md" := "# Hello";
                                       "/notes.html" := "<p># Hello</p>" ]};
                      Fake.feed := Fake.feed (server Cases.linkless) |}
                   : Server Cases.linkless_sdk);
        trace := trace Cases.linkless
          ++ [ EvGetFile "/notes.md";
               EvPutFile (html_name_of "/notes.md") "<p># Hello</p>" true;
               EvShare (html_name_of "/notes.md") false ] |})
  /\ (IndexError = AttributeError \/ IndexError = IndexError).
Proof.
  apply (bad_share_url_leaves_source Cases.linkless_sdk "tok" "/notes.md"
           {| is_dir := false |} {| is_dir := false |} Cases.linkless
           "# Hello" "# Hello" "<p># Hello</p>" (Some "no-link") IndexError
           (server Cases.linkless)
           ({| Fake.files := {[ "/notes.md" := "# Hello"; "/notes.html" := "<p># Hello</p>" ]};
               Fake.feed := Fake.feed (server Cases.linkless) |}
            : Server Cases.linkless_sdk));
    try (vm_compute; reflexivity).
  vm_compute. discriminate.
Defined.

(** ** More on runs *)

Lemma process_entry_within_documents (sdk : SDK) (c : Client sdk)
    (entry : string * option Metadata) (w : World sdk) :
  exists evs,
    trace (snd (process_entry sdk c entry w)) = trace w ++ evs
    /\ Forall (fun e => within_documents e = true) evs.
Proof.
  destruct entry as [path metadata]. unfold process_entry.
  destruct (ignored path metadata) eqn:Hi.
  { exists []. simpl. now rewrite app_nil_r. }
  assert (Hmd : within_documents (EvGetFile path) = true)
    by exact (ignored_markdown _ _ Hi).
  assert (Hsrc : forall x, within_documents (EvPutFile path x true) = true).
  { intros x. unfold within_documents. now rewrite (ignored_markdown _ _ Hi). }
  assert (Hhtml : forall x, within_documents (EvPutFile (html_name_of path) x true) = true).
  { intros x. unfold within_documents. now rewrite html_name_is_html, orb_true_r. }
  assert (Hsh : within_documents (EvShare (html_name_of path) false) = true)
    by exact (html_name_is_html path).
  clear Hi. revert Hmd Hsrc Hhtml Hsh.
  generalize (html_name_of path) as html_name. intros html_name.
  generalize within_documents as Q. intros Q Hmd Hsrc Hhtml Hsh.
  unfold bind, client_get_file_and_metadata, client_put_file, client_share, call,
    lift, ret, raise, log.
  crack; eexists; (split; [rewrite <- ?app_assoc; reflexivity|]);
    repeat (constructor; [solve [auto]|]); constructor.
Qed.

(** X9: whatever the service answers, a run reads only files whose name
    ends in [.md], writes only (and always with [overwrite=True]) to files
    whose name ends in [.md] or [.html], and asks share links, never short
    ones, only for files whose name ends in [.html]. *)
Theorem run_stays_within_documents (sdk : SDK) (fuel : nat) (uid : string) (w : World sdk) :
  exists evs,
    trace (snd (process_user sdk fuel uid w)) = trace w ++ evs
    /\ Forall (fun e => within_documents e = true) evs.
Proof.
  apply process_user_everywhere; try reflexivity.
  intros c entry w0. apply process_entry_within_documents.
Qed.

Lemma replay_redis_cursor_write (uid value : string) (r : gmap string (gmap string string)) :
  (forall name, name <> "cursors" ->
     replay_redis [EvHSet "cursors" uid value] r !! name = r !! name)
  /\ (forall u, u <> uid ->
        cursors_of (replay_redis [EvHSet "cursors" uid value] r) u = cursors_of r u).
Proof.
  unfold replay_redis, cursors_of. simpl. split.
  - intros name Hn. now rewrite lookup_insert_ne.
  - intros u Hu. rewrite lookup_insert_eq. simpl. rewrite lookup_insert_ne by congruence.
    now destruct (r !! "cursors").
Qed.

Lemma batch_log_keeps_redis uid cur evs ab (r : gmap string (gmap string string)) :
  batch_log uid cur evs ab ->
  (forall name, name <> "cursors" -> replay_redis evs r !! name = r !! name)
  /\ (forall u, u <> uid -> cursors_of (replay_redis evs r) u = cursors_of r u).
Proof.
  intros H. revert r.
  induction H as [cur|cur|cur d calls Hc|cur d calls rest ab Hc Hr IH]; intros r.
  - now split.
  - now split.
  - change (EvDelta cur (Some d) :: calls) with ([EvDelta cur (Some d)] ++ calls).
    rewrite replay_redis_app, (replay_redis_calls calls) by now apply file_call_not_hset.
    now split.
  - change (EvDelta cur (Some d) :: calls ++ EvHSet "cursors" uid (cursor d) :: rest)
      with ([EvDelta cur (Some d)] ++ calls ++ [EvHSet "cursors" uid (cursor d)] ++ rest).
    rewrite !replay_redis_app, (replay_redis_calls calls) by now apply file_call_not_hset.
    change (replay_redis [EvDelta cur (Some d)] r) with r.
    destruct (IH (replay_redis [EvHSet "cursors" uid (cursor d)] r)) as [I1 I2].
    destruct (replay_redis_cursor_write uid (cursor d) r) as [W1 W2].
    split.
    + intros name Hn. now rewrite I1, W1.
    + intros u Hu. now rewrite I2, W2.
Qed.

Lemma process_user_redis (sdk : SDK) (fuel : nat) (uid : string) (w : World sdk) :
  (forall name, name <> "cursors" ->
     redis (snd (process_user sdk fuel uid w)) !! name = redis w !! name)
  /\ (forall u, stored_token (snd (process_user sdk fuel uid w)) u = stored_token w u)
  /\ (forall u, u <> uid ->
        stored_cursor (snd (process_user sdk fuel uid w)) u = stored_cursor w u).
Proof.
  assert (H : (forall name, name <> "cursors" ->
                 redis (snd (process_user sdk fuel uid w)) !! name = redis w !! name)
              /\ (forall u, u <> uid ->
                    stored_cursor (snd (process_user sdk fuel uid w)) u = stored_cursor w u)).
  { destruct (DropboxClient sdk (stored_token w uid)) as [e|c] eqn:Hc.
    - rewrite (process_user_no_client sdk _ _ _ _ Hc). now split.
    - destruct (process_user_log sdk fuel uid w c Hc) as (evs & ab & F & L & _).
      destruct F as (_ & Fr & _). unfold stored_cursor. rewrite Fr.
      change (replay_redis (EvHGet "tokens" uid :: EvHGet "cursors" uid :: evs) (redis w))
        with (replay_redis evs (redis w)).
      exact (batch_log_keeps_redis _ _ _ _ (redis w) L). }
  destruct H as [H1 H2]. split; [exact H1|]. split; [|exact H2].
  intros u. unfold stored_token. now rewrite H1.
Qed.

(** X10: a run changes nothing in Redis but the cursor of its own user:
    every other hash, the tokens among them, and the cursor of every other
    user are after the run what they were before, however the run ends. *)
Theorem run_keeps_other_redis_state (sdk : SDK) (fuel : nat) (uid : string) (w : World sdk) :
  (forall name, name <> "cursors" ->
     redis (snd (process_user sdk fuel uid w)) !! name = redis w !! name)
  /\ (forall u, stored_token (snd (process_user sdk fuel uid w)) u = stored_token w u)
  /\ (forall u, u <> uid ->
        stored_cursor (snd (process_user sdk fuel uid w)) u = stored_cursor w u).
Proof. apply process_user_redis. Qed.

Lemma batches_of_batch a d (calls : list Event) (uid : string) (rest : list Event) :
  Forall (fun e => is_file_call e = true) calls ->
  batches_of (EvDelta a (Some d) :: calls ++ EvHSet "cursors" uid (cursor d) :: rest)
  = d :: batches_of rest.
Proof.
  intros Hc.
  change (d :: batches_of (calls ++ [EvHSet "cursors" uid (cursor d)] ++ rest)
          = d :: batches_of rest).
  rewrite batches_of_app, batches_of_no_delta by now apply file_call_not_delta.
  reflexivity.
Qed.

Lemma batches_listings (sdk : SDK) (fuel : nat) (c : Client sdk) (uid : string)
    (cur : option string) (w : World sdk) :
  exists evs,
    trace (snd (batches sdk fuel c uid cur w)) = trace w ++ evs
    /\ (fst (batches sdk fuel c uid cur w) = Ok tt ->
        exists ds d,
          batches_of evs = ds ++ [d]
          /\ Forall (fun b => has_more b = true) ds /\ has_more d = false)
    /\ (fst (batches sdk fuel c uid cur w) = Unfinished ->
        Forall (fun b => has_more b = true) (batches_of evs)
        /\ List.length (batches_of evs) = fuel).
Proof.
  revert cur w. induction fuel as [|fuel IH]; intros cur w.
  - exists []. simpl. rewrite app_nil_r. split; [reflexivity|].
    split; [discriminate | now split].
  - cbn [batches].
    destruct (client_delta_spec sdk c cur w) as (w1 & F1 & E1).
    destruct (fst (delta sdk c cur (server w))) as [e|d].
    { rewrite (bind_raise _ _ _ _ _ _ E1). exists [EvDelta cur None].
      split; [apply F1|]. split; discriminate. }
    rewrite (bind_ok _ _ _ _ _ _ E1).
    destruct (for_entries_calls sdk c (entries d) w1) as (e2 & F2 & C2 & N2).
    destruct (for_entries sdk c (entries d) w1) as [[[]|e|] w2] eqn:E2; simpl in *;
      [ | | congruence].
    2:{ rewrite (bind_raise _ _ _ _ _ _ E2). exists (EvDelta cur (Some d) :: e2).
        split; [apply (follows_trans c w w1 w2 [_] e2); assumption|]. split; discriminate. }
    rewrite (bind_ok _ _ _ _ _ _ E2).
    destruct (hset_spec sdk c "cursors" uid (cursor d) w2) as (w3 & F3 & E3).
    rewrite (bind_ok _ _ _ _ _ _ E3).
    assert (T3 : trace w3 = trace w ++ EvDelta cur (Some d) :: e2
                                    ++ [EvHSet "cursors" uid (cursor d)]).
    { destruct F1 as [T1 _], F2 as [T2 _], F3 as [T3 _]. rewrite T3, T2, T1.
      now rewrite <- !app_assoc. }
    destruct (has_more d) eqn:Hm.
    + destruct (IH (Some (cursor d)) w3) as (e4 & T4 & O4 & U4).
      exists (EvDelta cur (Some d) :: e2 ++ EvHSet "cursors" uid (cursor d) :: e4).
      split; [rewrite T4, T3, <- app_assoc; simpl; now rewrite <- app_assoc|].
      rewrite (batches_of_batch _ _ _ _ _ C2). split.
      * intros Ho. destruct (O4 Ho) as (ds & d' & -> & Hds & Hd').
        exists (d :: ds), d'. split; [reflexivity|]. split; [now constructor | assumption].
      * intros Hu. destruct (U4 Hu) as [Ha Hl]. split; [now constructor|].
        simpl. now rewrite Hl.
    + exists (EvDelta cur (Some d) :: e2 ++ [EvHSet "cursors" uid (cursor d)]).
      split; [exact T3|]. rewrite (batches_of_batch _ _ _ _ _ C2). split; [|discriminate].
      intros _. exists [], d. split; [reflexivity|]. split; [constructor | assumption].
Qed.

(** X11: the loop goes on exactly as long as the service says there is
    more.  A run that ends normally has listed one batch with
    [has_more = False], its last one; all batches before it said [True].
    A run still going after [fuel] batches has seen [True] every time. *)
Theorem loop_runs_while_has_more (sdk : SDK) (fuel : nat) (uid : string) (w : World sdk) :
  exists evs,
    trace (snd (process_user sdk fuel uid w)) = trace w ++ evs
    /\ (fst (process_user sdk fuel uid w) = Ok tt ->
        exists ds d,
          batches_of evs = ds ++ [d]
          /\ Forall (fun b => has_more b = true) ds /\ has_more d = false)
    /\ (fst (process_user sdk fuel uid w) = Unfinished ->
        Forall (fun b => has_more b = true) (batches_of evs)
        /\ List.length (batches_of evs) = fuel).
Proof.
  destruct (DropboxClient sdk (stored_token w uid)) as [e|c] eqn:Hc.
  - rewrite (process_user_no_client sdk _ _ _ _ Hc). eexists.
    split; [reflexivity|]. split; discriminate.
  - rewrite (process_user_client sdk _ _ _ _ Hc).
    destruct (batches_listings sdk fuel c uid (stored_cursor w uid) (after_reads uid w))
      as (evs & T & O & U).
    exists (EvHGet "tokens" uid :: EvHGet "cursors" uid :: evs).
    split; [rewrite T; simpl; now rewrite <- app_assoc|]. now split.
Qed.

(** X12: the entries of a batch are handled in order and the first
    exception ends the batch: when the entries up to and including one
    raise, the entries after it are not touched, whatever they are. *)
Theorem failed_entry_ends_batch (sdk : SDK) (c : Client sdk)
    (before after : list (string * option Metadata)) (entry : string * option Metadata)
    (w : World sdk) (e : exn) :
  fst (for_entries sdk c (before ++ [entry]) w) = Raise e ->
  for_entries sdk c (before ++ entry :: after) w
  = for_entries sdk c (before ++ [entry]) w.
Proof.
  revert w. induction before as [|b before IH]; intros w H.
  - simpl in *. unfold bind in *.
    destruct (process_entry sdk c entry w) as [[[]| |] w1]; try reflexivity.
    discriminate.
  - simpl in *. unfold bind in *.
    destruct (process_entry sdk c b w) as [[[]| |] w1]; try reflexivity.
    now apply IH.
Qed.

Lemma failed_entry_witness :
  for_entries Scenario.sdk "tok" ([] ++ Fake.file_entry "/notes.md" :: Cases.later_entries)
    Cases.binary
  = for_entries Scenario.sdk "tok" ([] ++ [Fake.file_entry "/notes.md"]) Cases.binary.
Proof.
  apply (failed_entry_ends_batch Scenario.sdk "tok" [] Cases.later_entries
           (Fake.file_entry "/notes.md") Cases.binary UnicodeDecodeError).
  vm_compute. reflexivity.
Defined.

(** ** More on the webhook *)

(** X13: the handler starts threads or raises, never both: whenever an
    exception leaves it no thread has been started, and threads are only
    started for a request whose signature verifies, which then gets the
    empty body back. *)
Theorem webhook_error_starts_nothing (APP_SECRET : string) (req : Request) :
  (forall e, fst (webhook APP_SECRET req) = inl e -> snd (webhook APP_SECRET req) = [])
  /\ (snd (webhook APP_SECRET req) <> [] ->
      validate_request APP_SECRET req = true
      /\ fst (webhook APP_SECRET req) = inr EmptyString)
  /\ (forall body, fst (webhook APP_SECRET req) = inr body ->
      body = EmptyString /\ validate_request APP_SECRET req = true).
Proof.
  unfold webhook. destruct (validate_request APP_SECRET req); simpl.
  - destruct (and_then (json req) _) as [e|uids]; simpl.
    + split; [reflexivity|]. split; [congruence | discriminate].
    + split; [discriminate|]. split; [now split|]. intros body [= <-]. now split.
  - split; [reflexivity|]. split; [congruence | discriminate].
Qed.

(** X14: a verified request is not checked for its shape.  When Flask
    cannot give its JSON, the handler is left by Flask's exception; when
    the body, or what stands under [delta], is not an object, or what
    stands under [users] is [null], a boolean or a number, by a
    [TypeError].  No thread is started in any of these cases. *)
Theorem webhook_shape_errors (APP_SECRET : string) (req : Request) :
  validate_request APP_SECRET req = true ->
  (forall e, json req = inl e -> webhook APP_SECRET req = (inl e, []))
  /\ (forall j, json req = inr j -> (forall fields, j <> JObject fields) ->
      webhook APP_SECRET req = (inl TypeError, []))
  /\ (forall fields d,
        json req = inr (JObject fields) -> assoc "delta" fields = Some d ->
        (forall inner, d <> JObject inner) ->
        webhook APP_SECRET req = (inl TypeError, []))
  /\ (forall fields inner u,
        json req = inr (JObject fields) -> assoc "delta" fields = Some (JObject inner) ->
        assoc "users" inner = Some u ->
        u = JNull \/ (exists b, u = JBool b) \/ (exists z, u = JNumber z) ->
        webhook APP_SECRET req = (inl TypeError, [])).
Proof.
  intros Hv. unfold webhook. rewrite Hv. simpl. repeat split.
  - now intros e ->.
  - intros j -> Hj. simpl. destruct j; try reflexivity. now destruct (Hj fields).
  - intros fields d -> Hd Hn. simpl. rewrite Hd. simpl.
    destruct d; try reflexivity. now destruct (Hn fields0).
  - intros fields inner u -> Hd Hu Hk. simpl. rewrite Hd. simpl. rewrite Hu. simpl.
    now destruct Hk as [-> | [[b ->] | [z ->]]].
Qed.

Lemma webhook_shape_witness :
  webhook Scenario.secret Cases.not_json = (inl TypeError, []).
Proof.
  assert (H : validate_request Scenario.secret Cases.not_json = true)
    by (vm_compute; reflexivity).
  apply (proj1 (proj2 (webhook_shape_errors Scenario.secret Cases.not_json H)) JNull);
    [reflexivity | discriminate].
Defined.

Lemma round_length (s : list Z) (kw : Z * Z) :
  List.length (Sha256.round s kw) = List.length s.
Proof.
  destruct s as [|a [|b [|c [|d [|e [|f [|g [|h [|i s]]]]]]]]]; reflexivity.
Qed.

Lemma compress_length (h block : list Z) :
  List.length (Sha256.compress h block) = List.length h.
Proof.
  unfold Sha256.compress. rewrite length_map, length_combine.
  assert (H : forall l s, List.length (fold_left Sha256.round l s) = List.length s).
  { induction l as [|x l IH]; intros s; [reflexivity|]. simpl. now rewrite IH, round_length. }
  rewrite H. apply Nat.min_id.
Qed.

Lemma digest_length (msg : list Z) : List.length (Sha256.digest msg) = 32.
Proof.
  unfold Sha256.digest.
  assert (H : forall bs h, List.length (fold_left Sha256.compress bs h) = List.length h).
  { induction bs as [|b bs IH]; intros h; [reflexivity|]. simpl.
    now rewrite IH, compress_length. }
  specialize (H (Sha256.chunks (List.length (Sha256.pad msg)) 64 (Sha256.pad msg)) Sha256.H0).
  destruct (fold_left Sha256.compress _ Sha256.H0)
    as [|a [|b [|c [|d [|e [|f [|g [|h [|i s]]]]]]]]]; try discriminate.
  reflexivity.
Qed.

Lemma hex_digit_is_hex (d : Z) : (0 <= d < 16)%Z -> is_hex_lower (Sha256.hex_digit d) = true.
Proof.
  intros H.
  assert (d = 0 \/ d = 1 \/ d = 2 \/ d = 3 \/ d = 4 \/ d = 5 \/ d = 6 \/ d = 7 \/ d = 8
          \/ d = 9 \/ d = 10 \/ d = 11 \/ d = 12 \/ d = 13 \/ d = 14 \/ d = 15)%Z as Hd by lia.
  repeat (destruct Hd as [-> | Hd]; [reflexivity|]). now subst.
Qed.

Lemma hex_shape (bs : list Z) :
  Forall (fun b => (0 <= b < 256)%Z) bs ->
  String.length (Sha256.hex bs) = 2 * List.length bs
  /\ all_chars is_hex_lower (Sha256.hex bs) = true.
Proof.
  induction 1 as [|b bs Hb _ [IH1 IH2]]; [now split|].
  cbn [Sha256.hex String.length all_chars List.length]. rewrite IH1, IH2.
  rewrite !hex_digit_is_hex; [split; [lia | reflexivity] | |].
  - apply Z.mod_pos_bound. lia.
  - split; [apply Z.div_pos; lia | apply Z.div_lt_upper_bound; lia].
Qed.

Lemma expected_signature_shape (APP_SECRET body : string) :
  String.length (expected_signature APP_SECRET body) = 64
  /\ all_chars is_hex_lower (expected_signature APP_SECRET body) = true.
Proof.
  unfold expected_signature, Sha256.hmac_sha256_hexdigest, Sha256.hmac.
  match goal with
  | |- context [Sha256.hex (Sha256.digest ?m)] =>
      destruct (hex_shape _ (digest_range m)) as [Hl Hc]
  end.
  rewrite digest_length in Hl. now split.
Qed.

(** X15: the signature that is expected is always 64 characters out of
    [0123456789abcdef]; so a request is accepted only if its signature
    header has that length and no other character in it. *)
Theorem accepted_signature_shape (APP_SECRET : string) (req : Request) :
  validate_request APP_SECRET req = true ->
  exists s,
    signature req = Some s /\ String.length s = 64 /\ all_chars is_hex_lower s = true.
Proof.
  unfold validate_request. destruct (signature req) as [s|]; [|discriminate].
  intros H. apply String.eqb_eq in H. exists s. split; [reflexivity|]. subst s.
  apply expected_signature_shape.
Qed.

Lemma accepted_signature_witness :
  exists s,
    signature Scenario.notification = Some s
    /\ String.length s = 64 /\ all_chars is_hex_lower s = true.
Proof.
  apply (accepted_signature_shape Scenario.secret Scenario.notification).
  vm_compute. reflexivity.
Defined.

(** ** The other handlers *)

Lemma args_get_app (key : string) (before after : list (string * string)) :
  args_get key (before ++ after)
  = match args_get key before with Some v => Some v | None => args_get key after end.
Proof.
  induction before as [|[k v] before IH]; [reflexivity|]. simpl.
  now destruct (String.eqb k key).
Qed.

(** X16: [challenge] gives back, unchanged, the first value the query
    has for [challenge], whatever other parameters stand around it, and
    [None] exactly when the query has no such parameter. *)
Theorem challenge_echoes (args : list (string * string)) :
  (forall before v after,
      args_get "challenge" before = None ->
      args = before ++ ("challenge", v) :: after ->
      challenge args = Some v)
  /\ (challenge args = None <-> forall v, ~ In ("challenge", v) args).
Proof.
  unfold challenge. split.
  - intros before v after Hb ->. rewrite args_get_app, Hb. reflexivity.
  - induction args as [|[k v] args IH]; simpl.
    + split; [now intros _ v | reflexivity].
    + destruct (String.eqb k "challenge") eqn:E.
      * apply String.eqb_eq in E as ->. split; [discriminate|].
        intros H. destruct (H v). now left.
      * apply String.eqb_neq in E. rewrite IH. split.
        -- intros H v' [[= -> _] | Hin]; [congruence | now apply (H v')].
        -- intros H v' Hin. apply (H v'). now right.
Qed.

Lemma hset_token_stored (sdk : SDK) (uid tok : string) (w : World sdk) :
  stored_token (snd (hset sdk "tokens" uid tok w)) uid = Some tok
  /\ (forall u, u <> uid ->
        stored_token (snd (hset sdk "tokens" uid tok w)) u = stored_token w u)
  /\ (forall u, stored_cursor (snd (hset sdk "tokens" uid tok w)) u = stored_cursor w u).
Proof.
  unfold stored_token, stored_cursor, cursors_of, hset, log. simpl. split; [|split].
  - rewrite lookup_insert_eq. simpl. apply lookup_insert_eq.
  - intros u Hu. rewrite lookup_insert_eq. simpl. rewrite lookup_insert_ne by congruence.
    now destruct (redis w !! "tokens").
  - intros u. now rewrite lookup_insert_ne.
Qed.

(** X17: [oauth_callback] stores the token under the uid and then runs
    the sync of that user in the same request.  The sync finds the token
    just stored: its client is built from that token, never from [None],
    and it starts from the cursor the user already had, if any.  The
    redirect is returned only when the sync has ended normally; however
    the sync ends, the token stays stored, and the tokens of the other
    users are what they were.  When the OAuth flow raises, nothing is
    stored and nothing is run. *)
Theorem oauth_callback_stores_then_syncs (sdk : SDK) (fuel : nat) (w : World sdk) :
  (forall e, oauth_callback sdk fuel (inl e) w = (Raise e, w))
  /\ (forall tok uid,
        oauth_callback sdk fuel (inr (tok, uid)) w
        = (match fst (process_user sdk fuel uid (snd (hset sdk "tokens" uid tok w))) with
           | Ok _ => Ok (Redirect "done")
           | Raise e => Raise e
           | Unfinished => Unfinished
           end, snd (process_user sdk fuel uid (snd (hset sdk "tokens" uid tok w))))
        /\ process_user sdk fuel uid (snd (hset sdk "tokens" uid tok w))
           = match DropboxClient sdk (Some tok) with
             | inl e => (Raise e, after_reads uid (snd (hset sdk "tokens" uid tok w)))
             | inr c => batches sdk fuel c uid (stored_cursor w uid)
                          (after_reads uid (snd (hset sdk "tokens" uid tok w)))
             end
        /\ stored_token (snd (oauth_callback sdk fuel (inr (tok, uid)) w)) uid = Some tok
        /\ (forall u, u <> uid ->
              stored_token (snd (oauth_callback sdk fuel (inr (tok, uid)) w)) u
              = stored_token w u)).
Proof.
  split; [reflexivity|]. intros tok uid.
  destruct (hset_token_stored sdk uid tok w) as (Ht & Ho & Hcur).
  set (w1 := snd (hset sdk "tokens" uid tok w)) in *.
  assert (E : oauth_callback sdk fuel (inr (tok, uid)) w
              = (match fst (process_user sdk fuel uid w1) with
                 | Ok _ => Ok (Redirect "done")
                 | Raise e => Raise e
                 | Unfinished => Unfinished
                 end, snd (process_user sdk fuel uid w1))).
  { subst w1. unfold oauth_callback, bind, lift, ret, hset. simpl.
    now destruct (process_user sdk fuel uid _) as [[[]| |] w2]. }
  destruct (process_user_redis sdk fuel uid w1) as (_ & Hk & _).
  split; [exact E|]. split; [|split].
  - destruct (DropboxClient sdk (Some tok)) as [e|c] eqn:Hc.
    + apply process_user_no_client. now rewrite Ht.
    + rewrite <- (Hcur uid). apply process_user_client. now rewrite Ht.
  - rewrite E. simpl. now rewrite Hk.
  - intros u Hu. rewrite E. simpl. now rewrite Hk, Ho.
Qed.

Lemma append_inj_l (a b t : string) : a +:+ t = b +:+ t -> a = b.
Proof.
  intros H. apply (f_equal list_ascii_of_string) in H.
  rewrite !list_ascii_append in H. apply app_inv_tail in H.
  rewrite <- (string_of_list_ascii_of_string a), <- (string_of_list_ascii_of_string b).
  now rewrite H.
Qed.

(** X18: two Markdown paths never share their HTML name: when both end
    in [.md] and their HTML names are the same, they are the same path.
    So the HTML of one document is never overwritten with the HTML of
    another. *)
Theorem html_names_do_not_collide (p1 p2 : string) :
  endswith p1 ".md" = true ->
  endswith p2 ".md" = true ->
  html_name_of p1 = html_name_of p2 ->
  p1 = p2.
Proof.
  intros H1 H2 E.
  apply endswith_spec in H1 as [s1 ->]. apply endswith_spec in H2 as [s2 ->].
  rewrite !html_name_of_stem in E. now rewrite (append_inj_l _ _ _ E).
Qed.

Lemma html_names_witness : "/notes.md" = "/notes.md".
Proof.
  apply (html_names_do_not_collide "/notes.md" "/notes.md"); reflexivity.
Defined.


(** ** The cursor, batch after batch *)

Lemma run_cursor_log (sdk : SDK) (fuel : nat) (uid : string)
    (w : World sdk) :
  exists evs,
    trace (snd (process_user sdk fuel uid w)) = trace w ++ evs
    /\ (forall pre a x post d,
          evs = pre ++ EvDelta a x :: post -> last_batch pre = Some d ->
          last pre = Some (EvHSet "cursors" uid (cursor d)))
    /\ (forall pre n k v post,
          evs = pre ++ EvHSet n k v :: post ->
          n = "cursors" /\ k = uid /\ exists d, last_batch pre = Some d /\ v = cursor d)
    /\ (forall d,
          (forall e, fst (process_user sdk fuel uid w) <> Raise e) ->
          last_batch evs = Some d ->
          stored_cursor (snd (process_user sdk fuel uid w)) uid = Some (cursor d))
    /\ (fst (process_user sdk fuel uid w) = Unfinished ->
        List.length (batches_of evs) = fuel).
Proof.
  destruct (DropboxClient sdk (stored_token w uid)) as [e|c] eqn:Hc.
  - rewrite (process_user_no_client sdk _ _ _ _ Hc).
    exists [EvHGet "tokens" uid; EvHGet "cursors" uid]. simpl.
    split; [reflexivity|]. split; [|split; [|split; [|discriminate]]].
    + intros pre a x post d E _.
      destruct (reads_split is_delta (EvHGet "tokens" uid) (EvHGet "cursors" uid) (EvDelta a x)
                  _ _ _ eq_refl eq_refl eq_refl E) as (p & _ & E').
      destruct p; discriminate.
    + intros pre n k v post E.
      destruct (reads_split is_hset (EvHGet "tokens" uid) (EvHGet "cursors" uid) (EvHSet n k v)
                  _ _ _ eq_refl eq_refl eq_refl E) as (p & _ & E').
      destruct p; discriminate.
    + intros d Hn. now destruct (Hn e).
  - destruct (process_user_log sdk fuel uid w c Hc) as (evs & ab & F & L & R & U & _).
    exists (EvHGet "tokens" uid :: EvHGet "cursors" uid :: evs).
    split; [apply F|]. split; [|split; [|split; [|exact U]]].
    + intros pre a x post d E Hl.
      destruct (reads_split is_delta (EvHGet "tokens" uid) (EvHGet "cursors" uid) (EvDelta a x)
                  _ _ _ eq_refl eq_refl eq_refl E) as (p & -> & E').
      change (last_batch p = Some d) in Hl.
      pose proof (batch_log_request _ _ _ _ _ _ _ _ L E') as Hq. rewrite Hl in Hq.
      destruct Hq as [_ Hq]. destruct p; [discriminate|].
      now rewrite (last_cons (EvHGet "tokens" uid)), (last_cons (EvHGet "cursors" uid)), Hq.
    + intros pre n k v post E.
      destruct (reads_split is_hset (EvHGet "tokens" uid) (EvHGet "cursors" uid) (EvHSet n k v)
                  _ _ _ eq_refl eq_refl eq_refl E) as (p & -> & E').
      exact (batch_log_write _ _ _ _ _ _ _ _ _ L E').
    + intros d Hn Hl. change (last_batch evs = Some d) in Hl.
      destruct ab.
      { destruct (proj1 R eq_refl) as [e He]. now destruct (Hn e). }
      pose proof (batch_log_stored _ _ _ (redis w) L) as Hs. rewrite Hl in Hs.
      destruct F as (_ & Fr & _). unfold stored_cursor. rewrite Fr. exact Hs.
Qed.

Lemma for_entries_app (sdk : SDK) (c : Client sdk) (a b : list (string * option Metadata))
    (w : World sdk) :
  for_entries sdk c (a ++ b) w
  = bind sdk (for_entries sdk c a) (fun _ => for_entries sdk c b) w.
Proof.
  revert w. induction a as [|x a IH]; intros w; [reflexivity|].
  simpl. unfold bind in *. destruct (process_entry sdk c x w) as [[[]| |] w1]; auto.
Qed.

(** One turn of the loop when the listing succeeds: the entries, then the
    write of the cursor, then the next turn or the end. *)
Lemma batches_step (sdk : SDK) (fuel : nat) (c : Client sdk) (uid : string)
    (cur : option string) (w : World sdk) (d : DeltaResult) (s : Server sdk) :
  delta sdk c cur (server w) = (inr d, s) ->
  batches sdk (S fuel) c uid cur w
  = match for_entries sdk c (entries d) (listing_done cur d s w) with
    | (Ok _, w2) =>
        if has_more d
        then batches sdk fuel c uid (Some (cursor d))
               (snd (hset sdk "cursors" uid (cursor d) w2))
        else (Ok tt, snd (hset sdk "cursors" uid (cursor d) w2))
    | (Raise e, w2) => (Raise e, w2)
    | (Unfinished, w2) => (Unfinished, w2)
    end.
Proof.
  intros H. cbn [batches]. unfold bind, client_delta, call, log, listing_done.
  rewrite H. cbn [fst snd redis server trace].
  destruct (for_entries sdk c (entries d) _) as [[[]| |] w2]; try reflexivity.
  unfold hset, ret. cbn [fst snd]. now destruct (has_more d).
Qed.

Lemma batches_listing_failed (sdk : SDK) (fuel : nat) (c : Client sdk) (uid : string)
    (cur : option string) (w : World sdk) (e : exn) :
  fst (delta sdk c cur (server w)) = inl e ->
  batches sdk (S fuel) c uid cur w
  = (Raise e, listing_failed cur (snd (delta sdk c cur (server w))) w).
Proof.
  intros H. cbn [batches]. unfold bind, client_delta, call, log, listing_failed.
  destruct (delta sdk c cur (server w)) as [r s]. simpl in H. now subst r.
Qed.

Lemma hset_cursor_stored (sdk : SDK) (uid value : string) (w : World sdk) :
  stored_cursor (snd (hset sdk "cursors" uid value w)) uid = Some value
  /\ trace (snd (hset sdk "cursors" uid value w)) = trace w ++ [EvHSet "cursors" uid value]
  /\ server (snd (hset sdk "cursors" uid value w)) = server w.
Proof.
  unfold stored_cursor, cursors_of, hset, log. simpl. split; [|now split].
  rewrite lookup_insert_eq. simpl. apply lookup_insert_eq.
Qed.

(** The loop after [n] batches is where the telling by the calls has it:
    the next listing asks for the cursor of the [n]th batch, from a world
    in which that cursor is already stored, its write being the last
    thing done. *)
Lemma after_batches_spec (sdk : SDK) (n : nat) (c : Client sdk) (uid : string)
    (cur : option string) (w : World sdk) (curN : option string) (wN : World sdk) :
  after_batches sdk n c uid cur w = Some (curN, wN) ->
  (forall k, batches sdk (n + k) c uid cur w = batches sdk k c uid curN wN)
  /\ (0 < n ->
      stored_cursor wN uid = curN
      /\ exists pre a d calls,
           trace wN = pre ++ EvDelta a (Some d) :: calls ++ [EvHSet "cursors" uid (cursor d)]
           /\ Forall (fun e => is_file_call e = true) calls
           /\ curN = Some (cursor d)).
Proof.
  revert cur w. induction n as [|n IH]; intros cur w H.
  - injection H as <- <-. split; [reflexivity | lia].
  - cbn [after_batches] in H.
    destruct (delta sdk c cur (server w)) as [[e|d] s] eqn:Hd; [discriminate|].
    destruct (for_entries_calls sdk c (entries d) (listing_done cur d s w))
      as (calls & (Tc & _) & Hc & _).
    destruct (for_entries sdk c (entries d) (listing_done cur d s w))
      as [[[]| |] w2] eqn:He; try discriminate.
    destruct (has_more d) eqn:Hm; [|discriminate].
    destruct (hset_cursor_stored sdk uid (cursor d) w2) as (Hs & Ht & _).
    remember (snd (hset sdk "cursors" uid (cursor d) w2)) as w3 eqn:Hw3.
    destruct (IH _ _ H) as [Hk Hn]. split.
    + intros k. change (S n + k) with (S (n + k)).
      now rewrite (batches_step sdk _ c uid cur w d s Hd), He, Hm, <- Hw3.
    + intros _. destruct n as [|n]; [|apply Hn; lia].
      injection H as <- <-. split; [exact Hs|].
      exists (trace w), cur, d, calls. split; [|now split].
      rewrite Ht. simpl in Tc. rewrite Tc. unfold listing_done. simpl.
      now rewrite <- !app_assoc.
Qed.

(** The run, [n] such batches in: the loop goes on from there. *)
Lemma run_after_batches (sdk : SDK) (uid : string) (w : World sdk) (c : Client sdk)
    (n k : nat) (curN : option string) (wN : World sdk) :
  DropboxClient sdk (stored_token w uid) = inr c ->
  after_batches sdk n c uid (stored_cursor w uid) (after_reads uid w) = Some (curN, wN) ->
  process_user sdk (n + k) uid w = batches sdk k c uid curN wN.
Proof.
  intros Hc Ha. rewrite (process_user_client sdk _ _ _ _ Hc).
  apply (proj1 (after_batches_spec sdk n c uid _ _ _ _ Ha)).
Qed.

(** C4: during a run the cursor a batch returned is written to Redis for
    [uid] once the batch is processed, entries or none, and before the
    next batch is requested.
    - On the log of any run: the event just before every listing that
      follows a batch is the write of that batch's cursor; every write to
      Redis is such a write (the cursor is never set back to an older
      value); a run that has not been aborted has stored the cursor of
      its last batch, and a run cut after [fuel] batches has listed
      [fuel] batches.
    - One turn of the loop: when the listing returns [d] and the entries
      of [d] are processed without an exception, whatever they are, the
      cursor of [d] is written, and only then the next batch is
      requested, with that cursor, or the loop is left.
    - [n] batches: when [n] batches in a row succeed and say there is
      more, the run is, after them, about to list with the cursor of the
      [n]th batch, and that cursor is what Redis holds for [uid]. *)
Theorem cursor_persisted_after_each_batch (sdk : SDK) (uid : string) (w : World sdk) :
  (forall fuel,
   exists evs,
    trace (snd (process_user sdk fuel uid w)) = trace w ++ evs
    /\ (forall pre a x post d,
          evs = pre ++ EvDelta a x :: post -> last_batch pre = Some d ->
          last pre = Some (EvHSet "cursors" uid (cursor d)))
    /\ (forall pre n k v post,
          evs = pre ++ EvHSet n k v :: post ->
          n = "cursors" /\ k = uid /\ exists d, last_batch pre = Some d /\ v = cursor d)
    /\ (forall d,
          (forall e, fst (process_user sdk fuel uid w) <> Raise e) ->
          last_batch evs = Some d ->
          stored_cursor (snd (process_user sdk fuel uid w)) uid = Some (cursor d))
    /\ (fst (process_user sdk fuel uid w) = Unfinished ->
        List.length (batches_of evs) = fuel))
  /\ (forall fuel c cur (w0 : World sdk) d s w2,
        delta sdk c cur (server w0) = (inr d, s) ->
        for_entries sdk c (entries d) (listing_done cur d s w0) = (Ok tt, w2) ->
        stored_cursor (snd (hset sdk "cursors" uid (cursor d) w2)) uid = Some (cursor d)
        /\ trace (snd (hset sdk "cursors" uid (cursor d) w2))
           = trace w2 ++ [EvHSet "cursors" uid (cursor d)]
        /\ server (snd (hset sdk "cursors" uid (cursor d) w2)) = server w2
        /\ batches sdk (S fuel) c uid cur w0
           = if has_more d
             then batches sdk fuel c uid (Some (cursor d))
                    (snd (hset sdk "cursors" uid (cursor d) w2))
             else (Ok tt, snd (hset sdk "cursors" uid (cursor d) w2)))
  /\ (forall c n k curN wN,
        DropboxClient sdk (stored_token w uid) = inr c ->
        after_batches sdk n c uid (stored_cursor w uid) (after_reads uid w) = Some (curN, wN) ->
        process_user sdk (n + k) uid w = batches sdk k c uid curN wN
        /\ (0 < n ->
            stored_cursor wN uid = curN
            /\ exists pre a d calls,
                 trace wN
                 = pre ++ EvDelta a (Some d) :: calls ++ [EvHSet "cursors" uid (cursor d)]
                 /\ Forall (fun e => is_file_call e = true) calls
                 /\ curN = Some (cursor d))).
Proof.
  split; [intros fuel; apply run_cursor_log|]. split.
  - intros fuel c cur w0 d s w2 Hd He.
    destruct (hset_cursor_stored sdk uid (cursor d) w2) as (Hs & Ht & Hv).
    split; [exact Hs|]. split; [exact Ht|]. split; [exact Hv|].
    now rewrite (batches_step sdk _ c uid cur w0 d s Hd), He.
  - intros c n k curN wN Hc Ha.
    destruct (after_batches_spec sdk n c uid _ _ _ _ Ha) as [Hk Hn].
    split; [|exact Hn].
    now rewrite (process_user_client sdk _ _ _ _ Hc), Hk.
Qed.

(** Two batches into a run that has more to do ([Scenario.endless]). *)
Lemma cursor_persisted_witness :
  process_user Scenario.sdk 2 "u1" Scenario.endless
  = (Unfinished, snd (process_user Scenario.sdk 2 "u1" Scenario.endless))
  /\ stored_cursor (snd (process_user Scenario.sdk 2 "u1" Scenario.endless)) "u1" = Some "c2".
Proof.
  assert (Hc : DropboxClient Scenario.sdk (stored_token Scenario.endless "u1") = inr "tok")
    by (vm_compute; reflexivity).
  assert (Ha : after_batches Scenario.sdk 2 "tok" "u1" (stored_cursor Scenario.endless "u1")
                 (after_reads "u1" Scenario.endless)
               = Some (Some "c2", snd (process_user Scenario.sdk 2 "u1" Scenario.endless)))
    by (vm_compute; reflexivity).
  destruct (proj2 (proj2 (cursor_persisted_after_each_batch Scenario.sdk "u1" Scenario.endless))
              "tok" 2 0 (Some "c2") _ Hc Ha) as [E Hn].
  split; [exact E|]. exact (proj1 (Hn (Nat.lt_0_succ 1))).
Defined.


(** ** An entry within its batch *)

Lemma entry_html_first (sdk : SDK) (c : Client sdk) (stem : string)
    (m m' : Metadata) (w : World sdk) (raw md html : string) (s1 : Server sdk) :
  is_dir m = false ->
  get_file_and_metadata sdk c (stem +:+ ".md") (server w) = (inr (raw, m'), s1) ->
  decode raw = inr md ->
  markdown sdk md = inr html ->
  exists rest,
    trace (snd (process_entry sdk c (stem +:+ ".md", Some m) w))
    = trace w ++ EvGetFile (stem +:+ ".md")
              :: EvPutFile (stem +:+ ".html") html true :: rest
    /\ Forall (fun e => e = EvShare (stem +:+ ".html") false
                        \/ exists x, e = EvPutFile (stem +:+ ".md") x true) rest
    /\ (first_line md = marker -> rest = []).
Proof.
  intros Hd Hg Hdec Hmd.
  unfold process_entry. rewrite (ignored_false stem m Hd), html_name_of_stem.
  unfold bind, client_get_file_and_metadata, client_put_file, client_share, call,
    lift, ret, raise, log.
  rewrite Hg. simpl. rewrite Hdec. simpl. rewrite Hmd. simpl.
  destruct (String.eqb marker (first_line md)) eqn:Em.
  - apply String.eqb_eq in Em. crack; eexists; (split; [rewrite <- ?app_assoc; reflexivity|]);
      (split; [constructor | reflexivity]).
  - apply String.eqb_neq in Em.
    crack; eexists; (split; [rewrite <- ?app_assoc; reflexivity|]);
      (split; [|intros Hm; now destruct Em]);
      repeat (constructor; [first [now left | right; eauto]|]); constructor.
Qed.

Lemma for_entries_grows (sdk : SDK) (c : Client sdk) (es : list (string * option Metadata))
    (w : World sdk) :
  exists evs, trace (snd (for_entries sdk c es w)) = trace w ++ evs.
Proof. destruct (for_entries_calls sdk c es w) as (evs & (T & _) & _). now exists evs. Qed.

Lemma batches_grows (sdk : SDK) (fuel : nat) (c : Client sdk) (uid : string)
    (cur : option string) (w : World sdk) :
  exists evs, trace (snd (batches sdk fuel c uid cur w)) = trace w ++ evs.
Proof. destruct (batches_log sdk fuel c uid cur w) as (evs & ab & (T & _) & _). now exists evs. Qed.

(** An entry reached without an exception is processed from the world
    the entries before it have left. *)
Lemma for_entries_reaches (sdk : SDK) (c : Client sdk)
    (before after : list (string * option Metadata)) (entry : string * option Metadata)
    (w w1 : World sdk) :
  for_entries sdk c before w = (Ok tt, w1) ->
  for_entries sdk c (before ++ entry :: after) w
  = bind sdk (process_entry sdk c entry) (fun _ => for_entries sdk c after) w1.
Proof.
  intros H. rewrite for_entries_app. unfold bind at 1. now rewrite H.
Qed.

(** What a turn of the loop logs starts with what its entries log. *)
Lemma batches_after_entries (sdk : SDK) (fuel : nat) (c : Client sdk) (uid : string)
    (cur : option string) (w : World sdk) (d : DeltaResult) (s : Server sdk) :
  delta sdk c cur (server w) = (inr d, s) ->
  exists more,
    trace (snd (batches sdk (S fuel) c uid cur w))
    = trace (snd (for_entries sdk c (entries d) (listing_done cur d s w))) ++ more.
Proof.
  intros H. rewrite (batches_step sdk fuel c uid cur w d s H).
  destruct (for_entries sdk c (entries d) (listing_done cur d s w)) as [[[]| |] w2];
    cbn [snd]; try (exists []; now rewrite app_nil_r).
  destruct (hset_cursor_stored sdk uid (cursor d) w2) as (_ & Ht & _).
  destruct (has_more d).
  - destruct (batches_grows sdk fuel c uid (Some (cursor d))
                (snd (hset sdk "cursors" uid (cursor d) w2))) as (evs & T).
    exists ([EvHSet "cursors" uid (cursor d)] ++ evs). now rewrite T, Ht, app_assoc.
  - exists [EvHSet "cursors" uid (cursor d)]. exact Ht.
Qed.

(** C6 (amended): for an entry that passes the filter, reached by the run
    without an exception, once its content is fetched, decoded and
    rendered, the first thing done is the write of the HTML to the path
    with [.md] replaced by [.html], with [overwrite=True] and whatever
    the service holds.  This happens whether or not the content starts
    with the marker: what the marker decides (the share link and the
    write to the source) only comes after, and is all the entry does
    after; with the marker, nothing.  It is so of the entry alone, of the
    entry in its batch after the entries before it, of the turn of the
    loop that lists the batch, and of the run that reaches that turn
    after [n] batches. *)
Theorem html_written_before_marker_check (sdk : SDK) (c : Client sdk) (stem : string)
    (m m' : Metadata) (w : World sdk) (raw md html : string) (s1 : Server sdk) :
  is_dir m = false ->
  get_file_and_metadata sdk c (stem +:+ ".md") (server w) = (inr (raw, m'), s1) ->
  decode raw = inr md ->
  markdown sdk md = inr html ->
  (exists rest,
      trace (snd (process_entry sdk c (stem +:+ ".md", Some m) w))
      = trace w ++ EvGetFile (stem +:+ ".md")
                :: EvPutFile (stem +:+ ".html") html true :: rest
      /\ Forall (fun e => e = EvShare (stem +:+ ".html") false
                          \/ exists x, e = EvPutFile (stem +:+ ".md") x true) rest
      /\ (first_line md = marker -> rest = []))
  /\ (forall before after (w0 : World sdk),
        for_entries sdk c before w0 = (Ok tt, w) ->
        exists rest,
          trace (snd (for_entries sdk c (before ++ (stem +:+ ".md", Some m) :: after) w0))
          = trace w ++ EvGetFile (stem +:+ ".md")
                    :: EvPutFile (stem +:+ ".html") html true :: rest)
  /\ (forall fuel uid cur (w0 : World sdk) d s0 before after,
        delta sdk c cur (server w0) = (inr d, s0) ->
        entries d = before ++ (stem +:+ ".md", Some m) :: after ->
        for_entries sdk c before (listing_done cur d s0 w0) = (Ok tt, w) ->
        exists rest,
          trace (snd (batches sdk (S fuel) c uid cur w0))
          = trace w ++ EvGetFile (stem +:+ ".md")
                    :: EvPutFile (stem +:+ ".html") html true :: rest)
  /\ (forall n k uid (wr : World sdk) cur (w0 : World sdk) d s0 before after,
        DropboxClient sdk (stored_token wr uid) = inr c ->
        after_batches sdk n c uid (stored_cursor wr uid) (after_reads uid wr) = Some (cur, w0) ->
        delta sdk c cur (server w0) = (inr d, s0) ->
        entries d = before ++ (stem +:+ ".md", Some m) :: after ->
        for_entries sdk c before (listing_done cur d s0 w0) = (Ok tt, w) ->
        exists rest,
          trace (snd (process_user sdk (n + S k) uid wr))
          = trace w ++ EvGetFile (stem +:+ ".md")
                    :: EvPutFile (stem +:+ ".html") html true :: rest).
Proof.
  intros Hd Hg Hdec Hmd.
  destruct (entry_html_first sdk c stem m m' w raw md html s1 Hd Hg Hdec Hmd)
    as (rest & T & F & M).
  assert (B : forall before after (w0 : World sdk),
             for_entries sdk c before w0 = (Ok tt, w) ->
             exists rest',
               trace (snd (for_entries sdk c (before ++ (stem +:+ ".md", Some m) :: after) w0))
               = trace w ++ EvGetFile (stem +:+ ".md")
                         :: EvPutFile (stem +:+ ".html") html true :: rest').
  { intros before after w0 Hb. rewrite (for_entries_reaches sdk c _ _ _ _ _ Hb).
    unfold bind.
    destruct (process_entry sdk c (stem +:+ ".md", Some m) w) as [[[]| |] w2];
      cbn [snd] in *; try (exists rest; exact T).
    destruct (for_entries_grows sdk c after w2) as (evs & Te).
    exists (rest ++ evs). rewrite Te, T, <- app_assoc. reflexivity. }
  assert (L : forall fuel uid cur (w0 : World sdk) d s0 before after,
             delta sdk c cur (server w0) = (inr d, s0) ->
             entries d = before ++ (stem +:+ ".md", Some m) :: after ->
             for_entries sdk c before (listing_done cur d s0 w0) = (Ok tt, w) ->
             exists rest',
               trace (snd (batches sdk (S fuel) c uid cur w0))
               = trace w ++ EvGetFile (stem +:+ ".md")
                         :: EvPutFile (stem +:+ ".html") html true :: rest').
  { intros fuel uid cur w0 d s0 before after Hl He Hb.
    destruct (batches_after_entries sdk fuel c uid cur w0 d s0 Hl) as (more & Tm).
    destruct (B before after _ Hb) as (rest' & Tb).
    exists (rest' ++ more). rewrite Tm, He, Tb, <- app_assoc. reflexivity. }
  split; [exists rest; now split|]. split; [exact B|]. split; [exact L|].
  intros n k uid wr cur w0 d s0 before after Hc Ha Hl He Hb.
  rewrite (run_after_batches sdk uid wr c n (S k) cur w0 Hc Ha).
  exact (L k uid cur w0 d s0 before after Hl He Hb).
Qed.

(** A published document, after a picture in its batch
    ([Cases.republished]): the HTML is written again, and nothing else. *)
Lemma html_written_witness :
  (exists rest,
      trace (snd (process_entry Scenario.sdk "tok"
                    ("/notes" +:+ ".md", Some {| is_dir := false |}) Cases.republished_listed))
      = trace Cases.republished_listed
        ++ EvGetFile ("/notes" +:+ ".md")
           :: EvPutFile ("/notes" +:+ ".html") ("<p>" +:+ Fake.annotated +:+ "</p>") true :: rest
      /\ rest = [])
  /\ (exists rest,
        trace (snd (batches Scenario.sdk 1 "tok" "u1" (Some "c1") Cases.republished))
        = trace Cases.republished_listed
          ++ EvGetFile ("/notes" +:+ ".md")
             :: EvPutFile ("/notes" +:+ ".html") ("<p>" +:+ Fake.annotated +:+ "</p>") true
             :: rest)
  /\ (exists rest,
        trace (snd (process_user Scenario.sdk 5 "u1" Cases.republished))
        = trace Cases.republished_run_listed
          ++ EvGetFile ("/notes" +:+ ".md")
             :: EvPutFile ("/notes" +:+ ".html") ("<p>" +:+ Fake.annotated +:+ "</p>") true
             :: rest).
Proof.
  assert (Hg : get_file_and_metadata Scenario.sdk "tok" ("/notes" +:+ ".md")
                 (server Cases.republished_listed)
               = (inr (Fake.annotated, {| is_dir := false |}),
                  server Cases.republished_listed))
    by (vm_compute; reflexivity).
  assert (Hdec : decode Fake.annotated = inr Fake.annotated) by (vm_compute; reflexivity).
  destruct (html_written_before_marker_check Scenario.sdk "tok" "/notes"
              {| is_dir := false |} {| is_dir := false |} Cases.republished_listed
              Fake.annotated Fake.annotated ("<p>" +:+ Fake.annotated +:+ "</p>")
              (server Cases.republished_listed) eq_refl Hg Hdec eq_refl)
    as ((rest & T & _ & M) & _ & L & _).
  destruct (html_written_before_marker_check Scenario.sdk "tok" "/notes"
              {| is_dir := false |} {| is_dir := false |} Cases.republished_run_listed
              Fake.annotated Fake.annotated ("<p>" +:+ Fake.annotated +:+ "</p>")
              (server Cases.republished_run_listed) eq_refl Hg Hdec eq_refl)
    as (_ & _ & _ & R).
  split; [|split].
  - exists rest. split; [exact T|]. apply M. vm_compute. reflexivity.
  - apply (L 0 "u1" (Some "c1") Cases.republished Cases.republished_batch
             (server Cases.republished_listed)
             [("/photo.png", Some {| is_dir := false |})] []);
      vm_compute; reflexivity.
  - apply (R 0 4 "u1" Cases.republished (Some "c1") (after_reads "u1" Cases.republished)
             Cases.republished_batch (server Cases.republished_listed)
             [("/photo.png", Some {| is_dir := false |})] []);
      vm_compute; reflexivity.
Defined.

(** The document after one that is not UTF-8 ([Cases.bad_then_good]):
    it passes the filter and is in the batch listed, and the run, left by
    the exception, writes nothing at all. *)
Lemma entry_after_failure_not_rendered :
  ignored "/notes.md" (Some {| is_dir := false |}) = false
  /\ batches_of (trace (snd (process_user Scenario.sdk 5 "u1" Cases.bad_then_good)))
     = [ {| entries := [Fake.file_entry "/bad.md"; Fake.file_entry "/notes.md"];
            cursor := "c1"; has_more := false |} ]
  /\ fst (process_user Scenario.sdk 5 "u1" Cases.bad_then_good) = Raise UnicodeDecodeError
  /\ List.filter is_put (trace (snd (process_user Scenario.sdk 5 "u1" Cases.bad_then_good)))
     = []
  /\ Fake.files (server (snd (process_user Scenario.sdk 5 "u1" Cases.bad_then_good)))
       !! "/notes.html" = None.
Proof. vm_compute. repeat split. Qed.


(** ** A failing call *)

Lemma aborted_run_log (sdk : SDK) (fuel : nat) (uid : string)
    (w : World sdk) (c : Client sdk) (e : exn) :
  DropboxClient sdk (stored_token w uid) = inr c ->
  fst (process_user sdk fuel uid w) = Raise e ->
  exists pre a x tl,
    trace (snd (process_user sdk fuel uid w))
    = trace w ++ EvHGet "tokens" uid :: EvHGet "cursors" uid :: pre ++ EvDelta a x :: tl
    /\ Forall (fun ev => is_file_call ev = true) tl
    /\ redis (snd (process_user sdk fuel uid w)) = replay_redis pre (redis w)
    /\ match last_batch pre with
       | Some d => stored_cursor (snd (process_user sdk fuel uid w)) uid = Some (cursor d)
       | None => redis (snd (process_user sdk fuel uid w)) = redis w
       end
    /\ server (snd (process_user sdk fuel uid w))
       = replay_server sdk c (pre ++ EvDelta a x :: tl) (server w).
Proof.
  intros Hc He.
  destruct (process_user_log sdk fuel uid w c Hc) as (evs & ab & F & L & R & _).
  assert (ab = true) as -> by (apply R; eauto).
  destruct (batch_log_aborted _ _ _ L) as (pre & a & x & tl & -> & Htl & Hpre).
  destruct F as (Ft & Fr & Fs).
  assert (Hr : redis (snd (process_user sdk fuel uid w)) = replay_redis pre (redis w)).
  { rewrite Fr.
    change (EvHGet "tokens" uid :: EvHGet "cursors" uid :: pre ++ EvDelta a x :: tl)
      with ([EvHGet "tokens" uid; EvHGet "cursors" uid] ++ pre ++ [EvDelta a x] ++ tl).
    rewrite !replay_redis_app.
    now rewrite (replay_redis_calls tl) by now apply file_call_not_hset. }
  exists pre, a, x, tl. split; [exact Ft|]. split; [exact Htl|]. split; [exact Hr|].
  split; [|exact Fs].
  pose proof (batch_log_stored _ _ _ (redis w) Hpre) as Hs.
  destruct (last_batch pre) as [d|].
  - unfold stored_cursor. now rewrite Hr.
  - now rewrite Hr, Hs.
Qed.

(** Entries do not touch Redis. *)
Lemma process_entry_redis (sdk : SDK) (c : Client sdk) (entry : string * option Metadata)
    (w : World sdk) :
  redis (snd (process_entry sdk c entry w)) = redis w.
Proof.
  destruct (process_entry_calls sdk c entry w) as (evs & (_ & R & _) & C & _).
  now rewrite R, replay_redis_calls by now apply file_call_not_hset.
Qed.

Lemma for_entries_redis (sdk : SDK) (c : Client sdk) (es : list (string * option Metadata))
    (w : World sdk) :
  redis (snd (for_entries sdk c es w)) = redis w.
Proof.
  destruct (for_entries_calls sdk c es w) as (evs & (_ & R & _) & C & _).
  now rewrite R, replay_redis_calls by now apply file_call_not_hset.
Qed.

(** A call of an entry that raises ends the entry with its exception. *)
Lemma failing_call_raises (sdk : SDK) (c : Client sdk) (path : string) (m : Metadata)
    (w : World sdk) (e : exn) :
  ignored path (Some m) = false ->
  entry_call_fails sdk c path w e ->
  fst (process_entry sdk c (path, Some m) w) = Raise e.
Proof.
  intros Hi H. unfold process_entry. rewrite Hi.
  unfold bind, client_get_file_and_metadata, client_put_file, client_share, call,
    lift, ret, raise, log.
  destruct H as [Hg | raw m' s1 md Hg Hdec Hmd | raw m' s1 md html Hg Hdec Hmd Hp
                 | raw m' s1 md html s2 Hg Hdec Hmd Hp Hm Hs
                 | raw m' s1 md html s2 url s3 key Hg Hdec Hmd Hp Hm Hs Hk Hp2].
  - destruct (get_file_and_metadata sdk c path (server w)) as [r s1].
    reduce_in_all. now subst r.
  - rewrite Hg. reduce. rewrite Hdec. reduce. now rewrite Hmd.
  - rewrite Hg. reduce. rewrite Hdec. reduce. rewrite Hmd. reduce.
    destruct (put_file sdk c (html_name_of path) html true s1) as [r s2].
    reduce_in_all. now subst r.
  - rewrite Hg. reduce. rewrite Hdec. reduce. rewrite Hmd. reduce. rewrite Hp. reduce.
    apply not_eq_sym, String.eqb_neq in Hm. rewrite Hm. reduce.
    destruct (share sdk c (html_name_of path) false s2) as [r s3].
    reduce_in_all. now subst r.
  - rewrite Hg. reduce. rewrite Hdec. reduce. rewrite Hmd. reduce. rewrite Hp. reduce.
    apply not_eq_sym, String.eqb_neq in Hm. rewrite Hm. reduce.
    rewrite Hs. reduce. rewrite Hk. reduce.
    destruct (put_file sdk c path _ true s3) as [r s4].
    reduce_in_all. now subst r.
Qed.

(** An entry that raises ends the turn of the loop, and the run, there. *)
Lemma raising_entry_ends_turn (sdk : SDK) (fuel : nat) (c : Client sdk) (uid : string)
    (cur : option string) (w0 : World sdk) (d : DeltaResult) (s0 : Server sdk)
    (before after : list (string * option Metadata)) (entry : string * option Metadata)
    (w1 : World sdk) (e : exn) :
  delta sdk c cur (server w0) = (inr d, s0) ->
  entries d = before ++ entry :: after ->
  for_entries sdk c before (listing_done cur d s0 w0) = (Ok tt, w1) ->
  fst (process_entry sdk c entry w1) = Raise e ->
  batches sdk (S fuel) c uid cur w0 = (Raise e, snd (process_entry sdk c entry w1))
  /\ redis (snd (process_entry sdk c entry w1)) = redis w0.
Proof.
  intros Hl He Hb Hr. split.
  - rewrite (batches_step sdk fuel c uid cur w0 d s0 Hl), He.
    rewrite (for_entries_reaches sdk c _ _ _ _ _ Hb). unfold bind.
    destruct (process_entry sdk c entry w1) as [r w2]. simpl in Hr. now subst r.
  - rewrite process_entry_redis.
    pose proof (for_entries_redis sdk c before (listing_done cur d s0 w0)) as R.
    now rewrite Hb in R.
Qed.

(** C8: a call of the storage service or of the renderer that raises in
    the middle of a batch ends the run with that exception.
    - A failing call of an entry (the read, the rendering, the write of
      the HTML, the share link, the write of the source) makes the entry
      raise; a listing that raises makes the turn of the loop raise.
    - The turn of the loop whose entry raises, or whose listing raises,
      is the end of the run: its result is the exception and its world is
      the world at the failing call.  The cursor of the batch in progress
      is not written: Redis is what it was when the batch was requested.
    - On the log of any run left by an exception: whole batches, then the
      listing of the batch in progress and file calls only.  Redis is as
      the whole batches left it, holding the cursor of the last of them
      if there is one; the storage service is as the calls made so far
      left it, none of them undone.
    - The run after [n] whole batches: when the next listing raises, or
      an entry of the next batch does, the run ends with that exception
      and Redis is as the [n] batches left it, holding the cursor of the
      [n]th for [uid]. *)
Theorem failed_batch_not_persisted (sdk : SDK) :
  (forall (c : Client sdk) path m (w : World sdk) e,
      ignored path (Some m) = false ->
      entry_call_fails sdk c path w e ->
      fst (process_entry sdk c (path, Some m) w) = Raise e)
  /\ (forall fuel (c : Client sdk) uid cur (w0 : World sdk) e,
        fst (delta sdk c cur (server w0)) = inl e ->
        batches sdk (S fuel) c uid cur w0
        = (Raise e, listing_failed cur (snd (delta sdk c cur (server w0))) w0))
  /\ (forall fuel (c : Client sdk) uid cur (w0 : World sdk) d s0 before entry after w1 e,
        delta sdk c cur (server w0) = (inr d, s0) ->
        entries d = before ++ entry :: after ->
        for_entries sdk c before (listing_done cur d s0 w0) = (Ok tt, w1) ->
        fst (process_entry sdk c entry w1) = Raise e ->
        batches sdk (S fuel) c uid cur w0 = (Raise e, snd (process_entry sdk c entry w1))
        /\ redis (snd (process_entry sdk c entry w1)) = redis w0)
  /\ (forall fuel uid (w : World sdk) (c : Client sdk) e,
        DropboxClient sdk (stored_token w uid) = inr c ->
        fst (process_user sdk fuel uid w) = Raise e ->
        exists pre a x tl,
          trace (snd (process_user sdk fuel uid w))
          = trace w ++ EvHGet "tokens" uid :: EvHGet "cursors" uid :: pre ++ EvDelta a x :: tl
          /\ Forall (fun ev => is_file_call ev = true) tl
          /\ redis (snd (process_user sdk fuel uid w)) = replay_redis pre (redis w)
          /\ match last_batch pre with
             | Some d =>
                 stored_cursor (snd (process_user sdk fuel uid w)) uid = Some (cursor d)
             | None => redis (snd (process_user sdk fuel uid w)) = redis w
             end
          /\ server (snd (process_user sdk fuel uid w))
             = replay_server sdk c (pre ++ EvDelta a x :: tl) (server w))
  /\ (forall n k uid (w : World sdk) (c : Client sdk) curN wN,
        DropboxClient sdk (stored_token w uid) = inr c ->
        after_batches sdk n c uid (stored_cursor w uid) (after_reads uid w) = Some (curN, wN) ->
        (0 < n -> stored_cursor wN uid = curN)
        /\ (forall e,
              fst (delta sdk c curN (server wN)) = inl e ->
              process_user sdk (n + S k) uid w
              = (Raise e, listing_failed curN (snd (delta sdk c curN (server wN))) wN))
        /\ (forall d s0 before entry after w1 e,
              delta sdk c curN (server wN) = (inr d, s0) ->
              entries d = before ++ entry :: after ->
              for_entries sdk c before (listing_done curN d s0 wN) = (Ok tt, w1) ->
              fst (process_entry sdk c entry w1) = Raise e ->
              process_user sdk (n + S k) uid w
              = (Raise e, snd (process_entry sdk c entry w1))
              /\ redis (snd (process_entry sdk c entry w1)) = redis wN)).
Proof.
  split; [intros c path m w e; apply failing_call_raises|].
  split; [intros fuel c uid cur w0 e; apply batches_listing_failed|].
  split; [intros fuel c uid cur w0 d s0 before entry after w1 e;
          apply raising_entry_ends_turn|].
  split; [intros fuel uid w c e; apply aborted_run_log|].
  intros n k uid w c curN wN Hc Ha.
  pose proof (run_after_batches sdk uid w c n (S k) curN wN Hc Ha) as Hr.
  split; [intros Hn; apply (proj2 (after_batches_spec sdk n c uid _ _ _ _ Ha) Hn)|].
  split.
  - intros e He. rewrite Hr. now apply batches_listing_failed.
  - intros d s0 before entry after w1 e Hl He Hb Hx. rewrite Hr.
    now apply (raising_entry_ends_turn sdk k c uid curN wN d s0 before after entry).
Qed.

(** Each kind of failing call, on services that refuse a write, or the
    share link, or are down at the second listing. *)
Lemma failed_batch_witness :
  fst (process_entry (Cases.faulty_sdk "/notes.html" false) "tok"
         ("/notes.md", Some {| is_dir := false |}) (Cases.on_faulty "/notes.html" false))
  = Raise (SdkError "507")
  /\ fst (process_entry (Cases.faulty_sdk EmptyString true) "tok"
            ("/notes.md", Some {| is_dir := false |}) (Cases.on_faulty EmptyString true))
     = Raise (SdkError "403")
  /\ fst (process_entry (Cases.faulty_sdk "/notes.md" false) "tok"
            ("/notes.md", Some {| is_dir := false |}) (Cases.on_faulty "/notes.md" false))
     = Raise (SdkError "507")
  /\ batches Scenario.sdk 1 "tok" "u1" (Some "c1") Cases.outage_after_one
     = (Raise (SdkError "503"),
        listing_failed (Some "c1")
          (snd (delta Scenario.sdk "tok" (Some "c1") (server Cases.outage_after_one)))
          Cases.outage_after_one)
  /\ (batches (Cases.faulty_sdk "/notes.md" false) 1 "tok" "u1" (Some "c0")
        (Cases.on_faulty "/notes.md" false)
      = (Raise (SdkError "507"),
         snd (process_entry (Cases.faulty_sdk "/notes.md" false) "tok"
                ("/notes.md", Some {| is_dir := false |})
                (listing_done (Some "c0") Cases.notes_batch
                   (snd (delta (Cases.faulty_sdk "/notes.md" false) "tok" (Some "c0")
                           (server (Cases.on_faulty "/notes.md" false))))
                   (Cases.on_faulty "/notes.md" false))))
      /\ redis (snd (process_entry (Cases.faulty_sdk "/notes.md" false) "tok"
                       ("/notes.md", Some {| is_dir := false |})
                       (listing_done (Some "c0") Cases.notes_batch
                          (snd (delta (Cases.faulty_sdk "/notes.md" false) "tok" (Some "c0")
                                  (server (Cases.on_faulty "/notes.md" false))))
                          (Cases.on_faulty "/notes.md" false))))
         = redis (Cases.on_faulty "/notes.md" false))
  /\ stored_cursor Cases.outage_after_one "u1" = Some "c1"
  /\ process_user Scenario.sdk 5 "u1" Cases.outage
     = (Raise (SdkError "503"),
        listing_failed (Some "c1")
          (snd (delta Scenario.sdk "tok" (Some "c1") (server Cases.outage_after_one)))
          Cases.outage_after_one).
Proof.
  pose proof (failed_batch_not_persisted (Cases.faulty_sdk "/notes.html" false))
    as (E1 & _).
  pose proof (failed_batch_not_persisted (Cases.faulty_sdk EmptyString true)) as (E2 & _).
  pose proof (failed_batch_not_persisted (Cases.faulty_sdk "/notes.md" false))
    as (E3 & _ & T3 & _).
  pose proof (failed_batch_not_persisted Scenario.sdk) as (_ & L & _ & _ & R).
  assert (Hc : DropboxClient Scenario.sdk (stored_token Cases.outage "u1") = inr "tok")
    by (vm_compute; reflexivity).
  assert (Ha : after_batches Scenario.sdk 1 "tok" "u1" (stored_cursor Cases.outage "u1")
                 (after_reads "u1" Cases.outage)
               = Some (Some "c1", Cases.outage_after_one))
    by (vm_compute; reflexivity).
  destruct (R 1 3 "u1" Cases.outage "tok" (Some "c1") Cases.outage_after_one Hc Ha)
    as (R1 & R2 & _).
  split; [|split; [|split; [|split; [|split; [|split]]]]].
  - apply E1; [reflexivity|].
    apply (fails_html_write _ _ _ _ _ "# Hello" {| is_dir := false |}
             (server (Cases.on_faulty "/notes.html" false)) "# Hello" "<p># Hello</p>");
      vm_compute; reflexivity.
  - apply E2; [reflexivity|].
    apply (fails_share _ _ _ _ _ "# Hello" {| is_dir := false |}
             (server (Cases.on_faulty EmptyString true)) "# Hello" "<p># Hello</p>"
             (snd (put_file (Cases.faulty_sdk EmptyString true) "tok" "/notes.html"
                     "<p># Hello</p>" true (server (Cases.on_faulty EmptyString true)))));
      try (vm_compute; reflexivity).
    vm_compute. discriminate.
  - apply E3; [reflexivity|].
    apply (fails_source_write _ _ _ _ _ "# Hello" {| is_dir := false |}
             (server (Cases.on_faulty "/notes.md" false)) "# Hello" "<p># Hello</p>"
             (snd (put_file (Cases.faulty_sdk "/notes.md" false) "tok" "/notes.html"
                     "<p># Hello</p>" true (server (Cases.on_faulty "/notes.md" false))))
             (Some "https://www.dropbox.com/s/k3y/page.html")
             (snd (put_file (Cases.faulty_sdk "/notes.md" false) "tok" "/notes.html"
                     "<p># Hello</p>" true (server (Cases.on_faulty "/notes.md" false))))
             "k3y");
      try (vm_compute; reflexivity).
    vm_compute. discriminate.
  - apply L. vm_compute. reflexivity.
  - apply (T3 0 "tok" "u1" (Some "c0") (Cases.on_faulty "/notes.md" false)
             Cases.notes_batch
             (snd (delta (Cases.faulty_sdk "/notes.md" false) "tok" (Some "c0")
                     (server (Cases.on_faulty "/notes.md" false))))
             [] ("/notes.md", Some {| is_dir := false |}) []
             (listing_done (Some "c0") Cases.notes_batch
                (snd (delta (Cases.faulty_sdk "/notes.md" false) "tok" (Some "c0")
                        (server (Cases.on_faulty "/notes.md" false))))
                (Cases.on_faulty "/notes.md" false))
             (SdkError "507")); vm_compute; reflexivity.
  - apply R1. apply Nat.lt_0_succ.
  - apply (R2 (SdkError "503")). vm_compute. reflexivity.
Defined.

(** The run on [Cases.outage] as a whole: the first batch is published
    and its cursor stored, the second listing raises, and both stay. *)
Example outage_keeps_first_batch :
  fst (process_user Scenario.sdk 5 "u1" Cases.outage) = Raise (SdkError "503")
  /\ stored_cursor (snd (process_user Scenario.sdk 5 "u1" Cases.outage)) "u1" = Some "c1"
  /\ Fake.files (server (snd (process_user Scenario.sdk 5 "u1" Cases.outage))) !! "/notes.md"
     = Some Fake.annotated.
Proof. vm_compute. repeat split. Qed.

(** ** Published documents, run again *)

(** Where every Markdown file starts with the marker, an entry reads, and
    writes the HTML, and that is all; and it leaves the service so. *)
Lemma annotated_entry_run (sdk : SDK) (I : Server sdk -> Prop) (c : Client sdk)
    (entry : string * option Metadata) (w : World sdk) :
  keeps_annotated sdk I -> I (server w) ->
  exists evs,
    trace (snd (process_entry sdk c entry w)) = trace w ++ evs
    /\ Forall (fun e => is_share e = false /\ writes_markdown e = false) evs
    /\ I (server (snd (process_entry sdk c entry w))).
Proof.
  intros (K1 & K2 & K3 & K4) Hi. destruct entry as [path metadata]. unfold process_entry.
  destruct (ignored path metadata) eqn:Hig.
  { exists []. simpl. rewrite app_nil_r. now repeat split. }
  apply ignored_markdown in Hig.
  unfold bind, client_get_file_and_metadata, client_put_file, call, lift, ret, raise, log.
  pose proof (K2 c path _ Hi) as Hi1.
  pose proof (fun raw m md => K4 c path (server w) raw m md Hi Hig) as Hm.
  destruct (get_file_and_metadata sdk c path (server w)) as [[e|[raw m']] s1]; reduce_in_all.
  { exists [EvGetFile path]. now repeat constructor. }
  destruct (decode raw) as [e|md] eqn:Hdec; reduce.
  { exists [EvGetFile path]. now repeat constructor. }
  rewrite <- (Hm raw m' md eq_refl Hdec), String.eqb_refl.
  destruct (markdown sdk md) as [e|html]; reduce.
  { exists [EvGetFile path]. now repeat constructor. }
  pose proof (K3 c (html_name_of path) html true s1 Hi1 (html_name_not_markdown path)) as Hi2.
  destruct (put_file sdk c (html_name_of path) html true s1) as [[e|[]] s2]; reduce_in_all;
    exists [EvGetFile path; EvPutFile (html_name_of path) html true];
    (split; [now rewrite <- app_assoc|]); (split; [|assumption]);
    repeat (constructor; [split; [reflexivity|]|]);
    try reflexivity; try apply html_name_not_markdown; constructor.
Qed.

Lemma annotated_entries_run (sdk : SDK) (I : Server sdk -> Prop) (c : Client sdk)
    (es : list (string * option Metadata)) (w : World sdk) :
  keeps_annotated sdk I -> I (server w) ->
  exists evs,
    trace (snd (for_entries sdk c es w)) = trace w ++ evs
    /\ Forall (fun e => is_share e = false /\ writes_markdown e = false) evs
    /\ I (server (snd (for_entries sdk c es w))).
Proof.
  intros K. revert w. induction es as [|entry es IH]; intros w Hi.
  - exists []. simpl. rewrite app_nil_r. now repeat split.
  - cbn [for_entries]. unfold bind.
    destruct (annotated_entry_run sdk I c entry w K Hi) as (e1 & T1 & Q1 & I1).
    destruct (process_entry sdk c entry w) as [[[]| |] w1]; cbn [snd] in *;
      try (exists e1; now repeat split).
    destruct (IH w1 I1) as (e2 & T2 & Q2 & I2).
    exists (e1 ++ e2). rewrite T2, T1, app_assoc.
    split; [reflexivity|]. split; [now apply Forall_app | exact I2].
Qed.

Lemma annotated_batches_run (sdk : SDK) (I : Server sdk -> Prop) (fuel : nat)
    (c : Client sdk) (uid : string) (cur : option string) (w : World sdk) :
  keeps_annotated sdk I -> I (server w) ->
  exists evs,
    trace (snd (batches sdk fuel c uid cur w)) = trace w ++ evs
    /\ Forall (fun e => is_share e = false /\ writes_markdown e = false) evs
    /\ I (server (snd (batches sdk fuel c uid cur w))).
Proof.
  intros K. revert cur w. induction fuel as [|fuel IH]; intros cur w Hi.
  - exists []. simpl. rewrite app_nil_r. now repeat split.
  - pose proof (proj1 K c cur _ Hi) as Hi1.
    destruct (delta sdk c cur (server w)) as [[e|d] s] eqn:Hd.
    { rewrite (batches_listing_failed sdk fuel c uid cur w e) by now rewrite Hd.
      exists [EvDelta cur None]. rewrite Hd. now repeat constructor. }
    rewrite (batches_step sdk fuel c uid cur w d s Hd).
    destruct (annotated_entries_run sdk I c (entries d) (listing_done cur d s w) K Hi1)
      as (e2 & T2 & Q2 & I2).
    cbn [listing_done trace] in T2.
    destruct (for_entries sdk c (entries d) (listing_done cur d s w)) as [[[]| |] w2];
      cbn [snd] in *;
      try (exists (EvDelta cur (Some d) :: e2); rewrite T2, <- app_assoc;
           split; [reflexivity|]; split; [now constructor | exact I2]).
    destruct (hset_cursor_stored sdk uid (cursor d) w2) as (_ & Ht & Hs).
    destruct (has_more d).
    + rewrite <- Hs in I2.
      destruct (IH (Some (cursor d)) _ I2) as (e4 & T4 & Q4 & I4).
      exists (EvDelta cur (Some d) :: e2 ++ EvHSet "cursors" uid (cursor d) :: e4).
      rewrite T4, Ht, T2, <- !app_assoc. split; [reflexivity|]. split; [|exact I4].
      constructor; [now split|]. apply Forall_app. split; [assumption|].
      now constructor.
    + exists (EvDelta cur (Some d) :: e2 ++ [EvHSet "cursors" uid (cursor d)]).
      cbn [snd]. rewrite Ht, T2, Hs, <- !app_assoc. split; [reflexivity|].
      split; [|exact I2].
      constructor; [now split|]. apply Forall_app. split; [assumption|].
      now repeat constructor.
Qed.

Lemma annotated_run (sdk : SDK) (I : Server sdk -> Prop) (fuel : nat) (uid : string)
    (w : World sdk) :
  keeps_annotated sdk I -> I (server w) ->
  exists evs,
    trace (snd (process_user sdk fuel uid w)) = trace w ++ evs
    /\ Forall (fun e => is_share e = false /\ writes_markdown e = false) evs
    /\ I (server (snd (process_user sdk fuel uid w))).
Proof.
  intros K Hi. destruct (DropboxClient sdk (stored_token w uid)) as [e|c] eqn:Hc.
  - rewrite (process_user_no_client sdk _ _ _ _ Hc). eexists.
    split; [reflexivity|]. split; [now repeat constructor | exact Hi].
  - rewrite (process_user_client sdk _ _ _ _ Hc).
    destruct (annotated_batches_run sdk I fuel c uid (stored_cursor w uid)
                (after_reads uid w) K Hi) as (evs & T & Q & I').
    exists (EvHGet "tokens" uid :: EvHGet "cursors" uid :: evs). rewrite T. simpl.
    rewrite <- app_assoc. split; [reflexivity|]. split; [now repeat constructor | exact I'].
Qed.

(** An entry whose document starts with the marker and is rendered is
    read, its HTML is written, and that is all. *)
Lemma annotated_entry_exact (sdk : SDK) (c : Client sdk) (path : string) (m m' : Metadata)
    (w : World sdk) (raw md html : string) (s1 : Server sdk) :
  ignored path (Some m) = false ->
  get_file_and_metadata sdk c path (server w) = (inr (raw, m'), s1) ->
  decode raw = inr md ->
  first_line md = marker ->
  markdown sdk md = inr html ->
  trace (snd (process_entry sdk c (path, Some m) w))
  = trace w ++ [EvGetFile path; EvPutFile (html_name_of path) html true].
Proof.
  intros Hi Hg Hdec Hm Hmd. unfold process_entry. rewrite Hi.
  unfold bind, client_get_file_and_metadata, client_put_file, call, lift, ret, raise, log.
  rewrite Hg. reduce. rewrite Hdec. reduce. rewrite Hmd. reduce.
  rewrite <- Hm, String.eqb_refl.
  destruct (put_file sdk c (html_name_of path) html true s1) as [[e|[]] s2]; reduce;
    now rewrite <- app_assoc.
Qed.

(** C1 (amended): an entry whose fetched content starts with the marker
    line gets no share link and no write to its source path; once its
    content is rendered, what the run does for it is the read and the
    write of the HTML beside it, and nothing else.  So a run over a
    service whose Markdown files all start with the marker, and stay so
    under listings, reads and writes to other files, creates no share
    link and writes to no Markdown path, and leaves the service so for the
    next run. *)
Theorem annotated_source_not_republished (sdk : SDK) :
  (forall (c : Client sdk) path metadata (w : World sdk) raw md m' s1,
      get_file_and_metadata sdk c path (server w) = (inr (raw, m'), s1) ->
      decode raw = inr md ->
      first_line md = marker ->
      exists evs,
        trace (snd (process_entry sdk c (path, metadata) w)) = trace w ++ evs
        /\ Forall (fun e => is_share e = false /\ forall x o, e <> EvPutFile path x o) evs)
  /\ (forall (c : Client sdk) path m (w : World sdk) raw md html m' s1,
        ignored path (Some m) = false ->
        get_file_and_metadata sdk c path (server w) = (inr (raw, m'), s1) ->
        decode raw = inr md ->
        first_line md = marker ->
        markdown sdk md = inr html ->
        trace (snd (process_entry sdk c (path, Some m) w))
        = trace w ++ [EvGetFile path; EvPutFile (html_name_of path) html true])
  /\ (forall (I : Server sdk -> Prop) fuel uid (w : World sdk),
        keeps_annotated sdk I -> I (server w) ->
        exists evs,
          trace (snd (process_user sdk fuel uid w)) = trace w ++ evs
          /\ Forall (fun e => is_share e = false /\ writes_markdown e = false) evs
          /\ I (server (snd (process_user sdk fuel uid w)))).
Proof.
  split; [intros c path metadata w raw md m' s1; apply annotated_entry_log|].
  split; [intros c path m w raw md html m' s1; apply annotated_entry_exact|].
  intros I fuel uid w. apply annotated_run.
Qed.

(** The service of the scenarios keeps its Markdown files annotated. *)
Lemma fake_keeps_annotated (strict : bool) :
  keeps_annotated (Fake.sdk_of strict) Fake.all_annotated.
Proof.
  unfold keeps_annotated, Fake.all_annotated. simpl. repeat split.
  - intros c cur s H p x Hp Hx. destruct (Fake.feed s); simpl in Hx; eauto.
  - intros c p s H p' x Hp Hx. destruct (Fake.files s !! p); simpl in Hx; eauto.
  - intros c p x o s H Hp p' x' Hp' Hx. simpl in Hx.
    rewrite lookup_insert_ne in Hx by congruence. eauto.
  - intros c p s raw m md H Hp Hg Hd.
    destruct (Fake.files s !! p) as [x|] eqn:Hx; simpl in Hg; [|discriminate].
    injection Hg as <- _. unfold decode in Hd.
    destruct (utf8_ok _ _); [|discriminate]. injection Hd as <-. eauto.
Qed.

Lemma after_first_run_annotated : Fake.all_annotated (server Scenario.after_first_run).
Proof.
  assert (E : Fake.files (server Scenario.after_first_run)
              = <["/notes.md" := Fake.annotated]> (<["/notes.html" := "<p># Hello</p>"]> ∅))
    by (vm_compute; reflexivity).
  intros p x Hp Hx. rewrite E in Hx.
  destruct (decide (p = "/notes.md")) as [->|Hn].
  - rewrite lookup_insert_eq in Hx. injection Hx as <-. vm_compute. reflexivity.
  - rewrite lookup_insert_ne in Hx by congruence.
    destruct (decide (p = "/notes.html")) as [->|Hh]; [discriminate Hp|].
    rewrite lookup_insert_ne in Hx by congruence. discriminate.
Qed.

(** The second run of [Scenario.fresh]: the document it finds annotated
    gets no share link and no write; the run as a whole neither. *)
Lemma annotated_source_witness :
  (exists evs,
      trace (snd (process_entry Scenario.sdk "tok"
                    ("/notes.md", Some {| is_dir := false |}) Scenario.after_first_run))
      = trace Scenario.after_first_run ++ evs
      /\ Forall (fun e => is_share e = false /\ forall x o, e <> EvPutFile "/notes.md" x o) evs)
  /\ trace (snd (process_entry Scenario.sdk "tok"
                   ("/notes.md", Some {| is_dir := false |}) Scenario.after_first_run))
     = trace Scenario.after_first_run
       ++ [ EvGetFile "/notes.md";
            EvPutFile (html_name_of "/notes.md") ("<p>" +:+ Fake.annotated +:+ "</p>") true ]
  /\ (exists evs,
        trace (snd (process_user Scenario.sdk 5 "u1" Scenario.after_first_run))
        = trace Scenario.after_first_run ++ evs
        /\ Forall (fun e => is_share e = false /\ writes_markdown e = false) evs
        /\ Fake.all_annotated
             (server (snd (process_user Scenario.sdk 5 "u1" Scenario.after_first_run)))).
Proof.
  destruct (annotated_source_not_republished Scenario.sdk) as (E1 & E2 & E3).
  split; [|split].
  - apply (E1 "tok" "/notes.md" (Some {| is_dir := false |}) Scenario.after_first_run
             Fake.annotated Fake.annotated {| is_dir := false |}
             (server Scenario.after_first_run)); vm_compute; reflexivity.
  - apply (E2 "tok" "/notes.md" {| is_dir := false |} Scenario.after_first_run
             Fake.annotated Fake.annotated ("<p>" +:+ Fake.annotated +:+ "</p>")
             {| is_dir := false |} (server Scenario.after_first_run));
      vm_compute; reflexivity.
  - apply (E3 Fake.all_annotated 5 "u1" Scenario.after_first_run
             (fake_keeps_annotated true) after_first_run_annotated).
Defined.
